(** * Liberty timing-file generator of the SkyWater PDK scripts

    A shallow embedding of [skywater_pdk/liberty.py]: the timing-variant
    flags, the file-naming helpers, ccsnoise stripping, the attribute
    ordering key, the numeric formatter, the list emitter and the
    top-level assembler, followed by the properties proved about them. *)

From Stdlib Require Import Bool Arith NArith ZArith Lia List Sorted.
From Stdlib Require Import Ascii String DecimalString DecimalPos DecimalN.
Import ListNotations.

Set Warnings "-register-all".

Local Open Scope list_scope.
Local Open Scope string_scope.

(** ** Python exceptions and fallible computations *)

Inductive exn : Type :=
| AssertionError
| TypeError
| ValueError
| AttributeError
| KeyError
| IndexError.

Inductive result (A : Type) : Type :=
| Ok (a : A)
| Err (e : exn).

Arguments Ok {A} a.
Arguments Err {A} e.

Definition bind {A B : Type} (r : result A) (k : A -> result B) : result B :=
  match r with
  | Ok a => k a
  | Err e => Err e
  end.

Notation "x <- r ;; k" := (bind r (fun x => k))
  (at level 61, r at next level, right associativity).

Definition py_assert (b : bool) (e : exn) : result unit :=
  if b then Ok tt else Err e.

Fixpoint mapM {A B : Type} (f : A -> result B) (l : list A) : result (list B) :=
  match l with
  | [] => Ok []
  | x :: xs => y <- f x ;; ys <- mapM f xs ;; Ok (y :: ys)
  end.

(** ** Python string primitives *)

Module PyStr.

(** [s.startswith(p)] *)
Definition startswith (s p : string) : bool := prefix p s.

(** [s.endswith(suf)] *)
Definition endswith (s suf : string) : bool :=
  (length suf <=? length s)%nat
  && (substring (length s - length suf) (length suf) s =? suf).

(** [s[:-n]]; Python reads [-0] as [0], so [s[:-0]] is empty. *)
Definition drop_end (n : nat) (s : string) : string :=
  match n with
  | O => ""
  | _ => substring 0 (length s - n) s
  end.

(** [s.find(p)] *)
Definition find (s p : string) : option nat := index 0 p s.

(** [p in s] *)
Definition contains (s p : string) : bool :=
  match find s p with Some _ => true | None => false end.

(** [c in s] for a single character. *)
Fixpoint has_char (c : ascii) (s : string) : bool :=
  match s with
  | EmptyString => false
  | String a r => Ascii.eqb a c || has_char c r
  end.

(** [sep.join(l)] *)
Definition join (sep : string) (l : list string) : string := concat sep l.

(** [c * n] *)
Fixpoint repeat (c : string) (n : nat) : string :=
  match n with
  | O => ""
  | S k => c ++ repeat c k
  end.

(** The characters of [s], each as a one-character string. *)
Fixpoint chars (s : string) : list string :=
  match s with
  | EmptyString => []
  | String a r => String a "" :: chars r
  end.

End PyStr.

(** ** TimingType: an [enum.IntFlag] *)

Module TimingType.

(** A flag value is the integer it wraps. *)
Definition t : Type := N.

Definition basic : t := 1%N.
(** [ccsnoise = 2 | basic] *)
Definition ccsnoise : t := N.lor 2 basic.
Definition leakage : t := 4%N.

(** The members in declaration order, as [for t in TimingType] yields
    them (the doctest of [names] fixes this order), with their names. *)
Definition members : list (t * string) :=
  [(basic, "basic"); (ccsnoise, "ccsnoise"); (leakage, "leakage")].

(** [other in self] *)
Definition contains (self other : t) : bool :=
  (N.land other self =? other)%N.

(** [self | other] *)
Definition union (a b : t) : t := N.lor a b.

Definition names (self : t) : string :=
  PyStr.join ", "
    (map snd (filter (fun m => contains self (fst m)) members)).

Definition describe (self : t) : string :=
  let o := ((if contains self ccsnoise then ["ccsnoise"] else [])
            ++ (if contains self leakage then ["power leakage"] else []))%list in
  match o with
  | [] => ""
  | _ => "(with " ++ PyStr.join " and " o ++ ")"
  end.

Definition file (self : t) : string :=
  if (self =? ccsnoise)%N then "_ccsnoise"
  else if (self =? leakage)%N then "_pwrlkg"
  else "".

Definition parse (name : string) : string * t :=
  if PyStr.endswith name "_ccsnoise" then
    (PyStr.drop_end (length "_ccsnoise") name, ccsnoise)
  else if PyStr.endswith name "_pwrlkg" then
    (PyStr.drop_end (length "_pwrlkg") name, leakage)
  else (name, basic).

Definition types (self : t) : list t :=
  let tt := filter (contains self) (map fst members) in
  if existsb (N.eqb ccsnoise) tt
  then filter (fun x => negb (x =? basic)%N) tt
  else tt.

Definition singular (self : t) : bool :=
  (List.length (types self) =? 1)%nat.

(** The values the program builds: the members and their unions
    ([collect] folds [|=] over parsed members). *)
Inductive member_union : t -> Prop :=
| mu_member m : In m (map fst members) -> member_union m
| mu_union a b : member_union a -> member_union b -> member_union (union a b).

End TimingType.

(** ** File naming *)

Section FileNaming.

(** [sizes.parse_size] lives in a sibling module; it returns [None] or a
    size object, of which only the [suffix] text is read here. *)
Variable parse_size : string -> option string.

(** The assertion message of both functions calls [corner_type.types()],
    a list, so a failing assertion surfaces as [TypeError]. *)
Definition assert_singular (corner_type : TimingType.t) : result unit :=
  py_assert (TimingType.singular corner_type) TypeError.

(** The cell name without its size suffix. *)
Definition cell_base (cell_with_size : string) : string :=
  match parse_size cell_with_size with
  | Some suffix => PyStr.drop_end (length suffix) cell_with_size
  | None => cell_with_size
  end.

Definition cell_corner_file (lib cell_with_size corner : string)
    (corner_type : TimingType.t) : result string :=
  _ <- assert_singular corner_type ;;
  let cell := cell_base cell_with_size in
  Ok ("cells/" ++ cell ++ "/" ++ lib ++ "__" ++ cell_with_size ++ "__"
      ++ corner ++ TimingType.file corner_type ++ ".lib.json").

Definition top_corner_file (libname corner : string)
    (corner_type : TimingType.t) : result string :=
  _ <- assert_singular corner_type ;;
  Ok ("timing/" ++ libname ++ "__" ++ corner
      ++ TimingType.file corner_type ++ ".lib.json").

End FileNaming.

(** ** Python values as loaded by [json.load] *)

(** A [float] is kept as the shortest decimal that names it, the digits and
    decimal-point position that [repr] prints: the value of
    [FFinite neg d p] is [0.d * 10^p], negated when [neg]. *)
Inductive pyfloat : Type :=
| FFinite (neg : bool) (digits : Decimal.uint) (decpt : Z)
| FInf (neg : bool)
| FNaN.

Inductive value : Type :=
| VNone
| VBool (b : bool)
| VInt (z : Z)
| VFloat (f : pyfloat)
| VStr (s : string)
| VList (l : list value)
| VDict (d : list (string * value)).

(** A [dict] keeps its items in insertion order, one item per key. *)
Definition dict : Type := list (string * value).

Definition keys (d : dict) : list string := map fst d.

Fixpoint dict_get (k : string) (d : dict) : option value :=
  match d with
  | [] => None
  | (k', v) :: r => if k' =? k then Some v else dict_get k r
  end.

Definition dict_has (k : string) (d : dict) : bool :=
  match dict_get k d with Some _ => true | None => false end.

(** No key twice: what every Python [dict] satisfies. *)
Fixpoint unique_keys (d : dict) : bool :=
  match d with
  | [] => true
  | (k, _) :: r => negb (dict_has k r) && unique_keys r
  end.

(** [del d[k]] for a key that is present. *)
Definition dict_del (k : string) (d : dict) : dict :=
  filter (fun kv => negb (fst kv =? k)) d.

(** [d[k] = v]: an existing key keeps its place, a new one goes last. *)
Fixpoint dict_set (k : string) (v : value) (d : dict) : dict :=
  match d with
  | [] => [(k, v)]
  | (k', v') :: r => if k' =? k then (k, v) :: r else (k', v') :: dict_set k v r
  end.

(** [x in c] for a string [x] *)
Definition py_contains (x : string) (c : value) : result bool :=
  match c with
  | VDict d => Ok (dict_has x d)
  | VList l =>
      Ok (existsb (fun e => match e with VStr s => s =? x | _ => false end) l)
  | VStr s => Ok (PyStr.contains s x)
  | _ => Err TypeError
  end.

(** [del c[k]] for a string [k] *)
Definition py_delitem (c : value) (k : string) : result value :=
  match c with
  | VDict d => if dict_has k d then Ok (VDict (dict_del k d)) else Err KeyError
  | _ => Err TypeError
  end.

(** [c[k]] for a string [k] *)
Definition py_getitem (c : value) (k : string) : result value :=
  match c with
  | VDict d => match dict_get k d with Some v => Ok v | None => Err KeyError end
  | _ => Err TypeError
  end.

(** [for x in c] *)
Definition py_iter (c : value) : result (list value) :=
  match c with
  | VDict d => Ok (map VStr (keys d))
  | VList l => Ok l
  | VStr s => Ok (map VStr (PyStr.chars s))
  | _ => Err TypeError
  end.

(** ** remove_ccsnoise *)

(** The loop that gathers the [ccsn_] keys of a container: every element
    met must offer [startswith]. *)
Fixpoint ccsn_keys_of (elems : list value) : result (list string) :=
  match elems with
  | [] => Ok []
  | VStr pk :: r =>
      ks <- ccsn_keys_of r ;;
      Ok (if PyStr.startswith pk "ccsn_" then pk :: ks else ks)
  | _ :: _ => Err AttributeError
  end.

(** Gather the [ccsn_] keys into a set, then delete each of them. *)
Definition strip_ccsn_keys (c : value) : result value :=
  elems <- py_iter c ;;
  ccsn_keys <- ccsn_keys_of elems ;;
  fold_left (fun acc pk => c' <- acc ;; py_delitem c' pk)
    (nodup string_dec ccsn_keys) (Ok c).

(** The body of the loop for one [pin] entry; the elements of the timing
    list are changed in place. *)
Definition strip_pin (pin_data : value) : result value :=
  has_iv <- py_contains "input_voltage" pin_data ;;
  pd1 <- (if has_iv : bool then py_delitem pin_data "input_voltage"
          else Ok pin_data) ;;
  pd2 <- strip_ccsn_keys pd1 ;;
  has_timing <- py_contains "timing" pd2 ;;
  if negb has_timing then Ok pd2
  else
    pin_timing <- py_getitem pd2 "timing" ;;
    ts <- py_iter pin_timing ;;
    ts' <- mapM strip_ccsn_keys ts ;;
    match pd2, pin_timing with
    | VDict d, VList _ => Ok (VDict (dict_set "timing" (VList ts') d))
    | _, _ => Ok pd2
    end.

Fixpoint remove_loop (items : list (string * value)) (data : dict)
  : result dict :=
  match items with
  | [] => Ok data
  | (k, _) :: rest =>
      if PyStr.contains k "ccsn_" then remove_loop rest (dict_del k data)
      else if negb (PyStr.startswith k "pin ") then remove_loop rest data
      else
        pin_data <- py_getitem (VDict data) k ;;
        pin_data' <- strip_pin pin_data ;;
        remove_loop rest (dict_set k pin_data' data)
  end.

(** [data.items()] needs a mapping. *)
Definition remove_ccsnoise (data : value) : result value :=
  match data with
  | VDict d => d' <- remove_loop d d ;; Ok (VDict d')
  | _ => Err AttributeError
  end.

(** *** What stripping is expected to leave

    The record a well-shaped input is expected to become, written as
    filters and maps; [remove_ccsnoise] is compared with it below. *)

Definition without_ccsn (d : dict) : dict :=
  filter (fun kv => negb (PyStr.startswith (fst kv) "ccsn_")) d.

Definition stripped_timing (t : value) : value :=
  match t with
  | VDict d => VDict (without_ccsn d)
  | _ => t
  end.

Definition stripped_timing_entry (kv : string * value) : string * value :=
  if fst kv =? "timing"
  then (fst kv, match snd kv with
                | VList ts => VList (map stripped_timing ts)
                | _ => snd kv
                end)
  else kv.

Definition stripped_pin (pd : dict) : dict :=
  map stripped_timing_entry (without_ccsn (dict_del "input_voltage" pd)).

Definition stripped_record (d : dict) : dict :=
  flat_map (fun kv =>
              if PyStr.contains (fst kv) "ccsn_" then []
              else if PyStr.startswith (fst kv) "pin "
                   then [(fst kv, match snd kv with
                                  | VDict pd => VDict (stripped_pin pd)
                                  | _ => snd kv
                                  end)]
                   else [kv]) d.

(** The shape of a record: every pin is a mapping, its [timing], when
    present, a list of mappings, and no mapping repeats a key. *)
Definition shaped_timing (t : value) : bool :=
  match t with
  | VDict d => unique_keys d
  | _ => false
  end.

Definition shaped_pin (v : value) : bool :=
  match v with
  | VDict pd =>
      unique_keys pd
      && match dict_get "timing" pd with
         | Some (VList ts) => forallb shaped_timing ts
         | Some _ => false
         | None => true
         end
  | _ => false
  end.

Definition shaped_item (kv : string * value) : bool :=
  if PyStr.contains (fst kv) "ccsn_" then true
  else if PyStr.startswith (fst kv) "pin " then shaped_pin (snd kv)
  else true.

Definition shaped_record (d : dict) : bool :=
  unique_keys d && forallb shaped_item d.

(** ** Text of numbers and strings: [str], [repr], [json.dumps] *)

Module PyText.

(** The double quote and the backslash as one-character strings. *)
Definition dq : string := String (ascii_of_nat 34) "".
Definition bs : string := String (ascii_of_nat 92) "".

(** [str(n)] for an [int] *)
Definition int_str (z : Z) : string := NilZero.string_of_int (Z.to_int z).

(** [str(n)] for a natural number *)
Definition decimal (n : N) : string := NilZero.string_of_uint (N.to_uint n).

Definition digits_str (d : Decimal.uint) : string := NilEmpty.string_of_uint d.

(** The exponent as C prints it: a sign, then at least two digits. *)
Definition exp_str (e : Z) : string :=
  let a := int_str (Z.abs e) in
  (if (e <? 0)%Z then "-" else "+")
  ++ (if (length a <? 2)%nat then "0" ++ a else a).

(** [s[:n]] and [s[n:]] *)
Fixpoint split_at (n : nat) (s : string) : string * string :=
  match n, s with
  | S k, String a r => let (x, y) := split_at k r in (String a x, y)
  | _, _ => ("", s)
  end.

(** [repr] of a finite float: exponent form when the decimal point lies
    beyond 16 digits or at least four places before the first digit. *)
Definition finite_repr (neg : bool) (d : Decimal.uint) (decpt : Z) : string :=
  let ds := digits_str d in
  let n := Z.of_nat (length ds) in
  let body :=
    if ((decpt <=? -4) || (16 <? decpt))%Z then
      let m := match ds with
               | String c EmptyString => ds
               | String c r => String c ("." ++ r)
               | EmptyString => "0"
               end in
      m ++ "e" ++ exp_str (decpt - 1)
    else if (decpt <=? 0)%Z then
      "0." ++ PyStr.repeat "0" (Z.to_nat (- decpt)) ++ ds
    else if (decpt <? n)%Z then
      let (x, y) := split_at (Z.to_nat decpt) ds in x ++ "." ++ y
    else ds ++ PyStr.repeat "0" (Z.to_nat (decpt - n)) ++ ".0" in
  (if neg then "-" else "") ++ body.

(** [repr(f)], which is also [str(f)] *)
Definition float_repr (f : pyfloat) : string :=
  match f with
  | FFinite neg d p => finite_repr neg d p
  | FInf neg => if neg then "-inf" else "inf"
  | FNaN => "nan"
  end.

(** [json.dumps(f)] *)
Definition json_float (f : pyfloat) : string :=
  match f with
  | FFinite neg d p => finite_repr neg d p
  | FInf neg => if neg then "-Infinity" else "Infinity"
  | FNaN => "NaN"
  end.

Definition hex_digit (n : nat) : string :=
  String (ascii_of_nat (if (n <? 10)%nat then 48 + n else 87 + n)) "".

Definition hex2 (n : nat) : string :=
  hex_digit (Nat.div n 16) ++ hex_digit (Nat.modulo n 16).

(** One character of a JSON string with [ensure_ascii]. *)
Definition json_char (a : ascii) : string :=
  let n := nat_of_ascii a in
  if (n =? 34)%nat then bs ++ dq
  else if (n =? 92)%nat then bs ++ bs
  else if (n =? 8)%nat then bs ++ "b"
  else if (n =? 12)%nat then bs ++ "f"
  else if (n =? 10)%nat then bs ++ "n"
  else if (n =? 13)%nat then bs ++ "r"
  else if (n =? 9)%nat then bs ++ "t"
  else if ((n <? 32) || (126 <? n))%nat then bs ++ "u00" ++ hex2 n
  else String a "".

Fixpoint json_chars (s : string) : string :=
  match s with
  | EmptyString => ""
  | String a r => json_char a ++ json_chars r
  end.

Definition json_string (s : string) : string := dq ++ json_chars s ++ dq.

(** One character of [repr(s)] written between [quote] marks. *)
Definition repr_char (quote : nat) (a : ascii) : string :=
  let n := nat_of_ascii a in
  if ((n =? quote) || (n =? 92))%nat then bs ++ String a ""
  else if (n =? 9)%nat then bs ++ "t"
  else if (n =? 10)%nat then bs ++ "n"
  else if (n =? 13)%nat then bs ++ "r"
  else if ((n <? 32) || (n =? 127) || ((128 <=? n) && (n <=? 160)) || (n =? 173))%nat
  then bs ++ "x" ++ hex2 n
  else String a "".

Fixpoint repr_chars (quote : nat) (s : string) : string :=
  match s with
  | EmptyString => ""
  | String a r => repr_char quote a ++ repr_chars quote r
  end.

(** [repr(s)]: single quotes, unless [s] has one and no double quote. *)
Definition repr_string (s : string) : string :=
  let quote :=
    if PyStr.has_char (ascii_of_nat 39) s && negb (PyStr.has_char (ascii_of_nat 34) s)
    then 34%nat else 39%nat in
  let q := String (ascii_of_nat quote) "" in
  q ++ repr_chars quote s ++ q.

Fixpoint json_dumps (v : value) : string :=
  match v with
  | VNone => "null"
  | VBool b => if b then "true" else "false"
  | VInt z => int_str z
  | VFloat f => json_float f
  | VStr s => json_string s
  | VList l => "[" ++ PyStr.join ", " (map json_dumps l) ++ "]"
  | VDict d =>
      "{" ++ PyStr.join ", "
               (map (fun kv => match kv with
                               | (k, x) => json_string k ++ ": " ++ json_dumps x
                               end) d) ++ "}"
  end.

Fixpoint py_repr (v : value) : string :=
  match v with
  | VNone => "None"
  | VBool b => if b then "True" else "False"
  | VInt z => int_str z
  | VFloat f => float_repr f
  | VStr s => repr_string s
  | VList l => "[" ++ PyStr.join ", " (map py_repr l) ++ "]"
  | VDict d =>
      "{" ++ PyStr.join ", "
               (map (fun kv => match kv with
                               | (k, x) => repr_string k ++ ": " ++ py_repr x
                               end) d) ++ "}"
  end.

(** [str(v)] *)
Definition py_str (v : value) : string :=
  match v with
  | VStr s => s
  | _ => py_repr v
  end.

(** [s.split(c)] for a one-character separator *)
Fixpoint split_char (c : ascii) (s : string) : list string :=
  match s with
  | EmptyString => [""]
  | String a r =>
      match split_char c r with
      | h :: t => if Ascii.eqb a c then "" :: h :: t else String a h :: t
      | [] => []
      end
  end.

Definition is_space (a : ascii) : bool :=
  let n := nat_of_ascii a in
  (((9 <=? n) && (n <=? 13)) || ((28 <=? n) && (n <=? 32))
   || (n =? 133) || (n =? 160))%nat.

(** [s.lstrip()] *)
Fixpoint lstrip (s : string) : string :=
  match s with
  | String a r => if is_space a then lstrip r else s
  | EmptyString => ""
  end.

End PyText.

(** ** liberty_float *)

(** [WIDTH = len(str(0.0083333333))] *)
Definition WIDTH : nat :=
  length (PyText.float_repr (FFinite false (N.to_uint 83333333) (-2))).

(** [while len(s) + extra < WIDTH: s += '0'].  Each round makes [s] one
    character longer, so [WIDTH] rounds of fuel are never used up. *)
Fixpoint pad_zeros (fuel extra : nat) (s : string) : string :=
  match fuel with
  | O => s
  | S k => if (length s + extra <? WIDTH)%nat
           then pad_zeros k extra (s ++ "0") else s
  end.

(** The body of [liberty_float] after [s = json.dumps(f)]; the unpacking
    [a, b = s.split('e')] needs exactly two pieces. *)
Definition liberty_float_text (s : string) : result string :=
  if PyStr.has_char "e" s then
    match PyText.split_char "e" s with
    | [a; b] =>
        let a := if PyStr.has_char "." a then a else a ++ "." in
        let a := pad_zeros WIDTH (length b + 1) a in
        Ok (a ++ "e" ++ b)
    | _ => Err ValueError
    end
  else if PyStr.has_char "." s then Ok (pad_zeros WIDTH 0 s)
  else
    let s := if (length s <? WIDTH)%nat then s ++ "." else s in
    Ok (pad_zeros WIDTH 0 s).

Definition liberty_float (f : value) : result string :=
  liberty_float_text (PyText.json_dumps f).

(** ** liberty_join and liberty_list *)

Definition INDENT : string := "    ".

Inductive pytype : Type :=
| TNone | TBool | TInt | TFloat | TStr | TList | TDict.

(** [type(i)]: a [bool] is not counted as an [int]. *)
Definition type_of (v : value) : pytype :=
  match v with
  | VNone => TNone
  | VBool _ => TBool
  | VInt _ => TInt
  | VFloat _ => TFloat
  | VStr _ => TStr
  | VList _ => TList
  | VDict _ => TDict
  end.

Definition pytype_eqb (a b : pytype) : bool :=
  match a, b with
  | TNone, TNone | TBool, TBool | TInt, TInt | TFloat, TFloat
  | TStr, TStr | TList, TList | TDict, TDict => true
  | _, _ => false
  end.

(** [d[ty]] after the counting loop *)
Fixpoint count_type (ty : pytype) (l : list value) : nat :=
  match l with
  | [] => 0
  | x :: r => (if pytype_eqb (type_of x) ty then 1 else 0) + count_type ty r
  end.

(** The two closures [liberty_join] can return. *)
Inductive joiner : Type :=
| JoinFloat
| JoinInt.

Definition liberty_join (l : list value) : result joiner :=
  let d_float := count_type TFloat l in
  let d_int := count_type TInt l in
  if (0 <? d_float)%nat then
    _ <- py_assert (d_float + d_int =? List.length l)%nat AssertionError ;;
    Ok JoinFloat
  else if (0 <? d_int)%nat then
    _ <- py_assert (d_int =? List.length l)%nat AssertionError ;;
    Ok JoinInt
  else Err ValueError.

(** Calling the returned closure: [join(l)]. *)
Definition run_join (j : joiner) (l : value) : result string :=
  elems <- py_iter l ;;
  match j with
  | JoinFloat => parts <- mapM liberty_float elems ;; Ok (PyStr.join ", " parts)
  | JoinInt => Ok (PyStr.join ", " (map PyText.py_str elems))
  end.

(** [o[-1] = f(o[-1])] *)
Fixpoint update_last (f : string -> string) (o : list string) : list string :=
  match o with
  | [] => []
  | [x] => [f x]
  | x :: r => x :: update_last f r
  end.

Definition liberty_list (k : string) (v : list value) (i : list string)
  : result (list string) :=
  match v with
  | [] => Err IndexError
  | VList first :: _ =>
      let o0 := PyStr.repeat INDENT (List.length i) ++ k ++ "(" in
      join <- liberty_join first ;;
      rows <- mapM (fun l =>
                      r <- run_join join l ;;
                      Ok (PyStr.repeat INDENT (List.length i + 1)
                          ++ PyText.dq ++ r ++ PyText.dq ++ ", " ++ PyText.bs)) v ;;
      match rows with
      | [] => Err IndexError
      | r0 :: rs =>
          Ok (update_last (fun x => PyStr.drop_end 3 x ++ ");")
                ((o0 ++ PyText.lstrip r0) :: rs))
      end
  | _ =>
      join <- liberty_join v ;;
      r <- run_join join (VList v) ;;
      Ok [PyStr.repeat INDENT (List.length i) ++ k ++ "("
          ++ PyText.dq ++ r ++ PyText.dq ++ ");"]
  end.

(** ** The attribute ordering index *)

Module AttrOrder.

(** The grammar skeleton handed to [re.sub], written here with ['] where
    the source has a double quote; [requote] puts the double quotes back. *)
Definition template_text : string := "
library (name_string) {
    /* Library-Level Simple and Complex Attributes */
    define (...,...,...) ;
    technology (name_enum) ;
    delay_model : 'model' ;

    bus_naming_style : 'string' ;
    date : 'date' ;
    comment : 'string' ;

    /* Unit definitions */
    time_unit : 'unit' ;
    voltage_unit : 'unit' ;
    leakage_power_unit : 'unit' ;
    current_unit : 'unit' ;
    pulling_resistance_unit : 'unit' ;
    ..._unit : 'unit' ;
    /* FIXME: Should capacitive_load_unit always be last? */
    capacitive_load_unit (value, unit) ;

    /* FIXME: Why is define_cell_area here, while other defines are up above? */
    define_cell_area (area_name, resource_type) ;

    revision : float | string ;

    /* Default Attributes and Values */
    default_cell_leakage_power : float ;
    default_fanout_load : float ;
    default_inout_pin_cap : float ;
    default_input_pin_cap : float ;
    default_max_transition : float ;
    default_output_pin_cap : float ;
    default_... : ... ;

    /* Scaling Factors Attributes and Values */
    k_process_cell_fall ... ;
    k_process_cell_rise ... ;
    k_process_fall_propagation ... ;
    k_process_fall_transition ... ;
    k_process_rise_propagation ... ;
    k_process_rise_transition ... ;
    k_temp_cell_fall ... ;
    k_temp_cell_rise ... ;
    k_temp_fall_propagation ... ;
    k_temp_fall_transition ... ;
    k_temp_rise_propagation ... ;
    k_temp_rise_transition ... ;
    k_volt_cell_fall ... ;
    k_volt_cell_rise ... ;
    k_volt_fall_propagation ... ;
    k_volt_fall_transition ... ;
    k_volt_rise_propagation ... ;
    k_volt_rise_transition ... ;
    k_... : ... ;

    /* Library-Level Group Statements */
    operating_conditions (name_string) {
        ... operating conditions description ...
    }
    wire_load (name_string) {
        ... wire load description ...
    }
    wire_load_selection (name_string) {
        ... wire load selection criteria...
    }
    power_lut_template (namestring)  {
        ... power lookup table template information...
    }
    lu_table_template (name_string) {
        variable_1 : value_enum ;
        variable_2 : value_enum ;
        variable_3 : value_enum ;
        index_1 ('float, ..., float');
        index_2 ('float, ..., float');
        index_3 ('float, ..., float');
    }
    normalized_driver_waveform (waveform_template_name) {
        driver_waveform_name : string; /* Specifies the name of the driver waveform table */
        index_1 ('float, ... float'); /* Specifies input net transition */
        index_2 ('float, ... float'); /* Specifies normalized voltage */
        values ('float, ... float', \ /* Specifies the time in library units */
            ... , \
            'float, ... float');
    }

    /* Cell definitions */
    cell (namestring2) {
        ... cell description ...
    }

    ...

    /* FIXME: What are these and why are they last */
    type (namestring) {
        ... type description ...
    }
    input_voltage (name_string) {
        ... input voltage information ...
    }
    output_voltage (name_string) {
        ... output voltage information ...
    }
}
".

Fixpoint requote (s : string) : string :=
  match s with
  | EmptyString => ""
  | String a r =>
      String (if Ascii.eqb a "'" then ascii_of_nat 34 else a) (requote r)
  end.

(** After a comment opener: the run of non-star characters must be
    closed by a star and a slash; the text after the comment is returned. *)
Fixpoint comment_end (s : string) : option string :=
  match s with
  | String "*" (String "/" r) => Some r
  | String "*" _ => None
  | String _ r => comment_end r
  | EmptyString => None
  end.

(** The [re.sub] call that deletes every comment of the skeleton. *)
Fixpoint strip_comments (fuel : nat) (s : string) : string :=
  match fuel, s with
  | S k, String "/" (String "*" r) =>
      match comment_end r with
      | Some rest => strip_comments k rest
      | None => String "/" (strip_comments k (String "*" r))
      end
  | S k, String a r => String a (strip_comments k r)
  | _, _ => s
  end.

Definition LIBERTY_ATTRIBUTE_ORDER : string :=
  Eval vm_compute in
    let s := requote template_text in strip_comments (length s) s.

(** The floats the ordering key holds: whole numbers and infinity. *)
Inductive fkey : Type :=
| FK (n : N)
| FKInf.

(** [float(n)] for a non-negative integer: round to nearest, ties to
    even, at 53 bits; infinity from [2^1024] on. *)
Definition float_of_N (n : N) : fkey :=
  let bits := N.size n in
  if (bits <=? 53)%N then FK n
  else
    let sh := (bits - 53)%N in
    let q := N.shiftr n sh in
    let r := (n - N.shiftl q sh)%N in
    let half := N.shiftl 1 (sh - 1) in
    let q' := if (half <? r)%N || ((r =? half)%N && N.odd q)
              then (q + 1)%N else q in
    let v := N.shiftl q' sh in
    if (N.shiftl 1 1024 <=? v)%N then FKInf else FK v.

Definition fkey_ltb (a b : fkey) : bool :=
  match a, b with
  | FK x, FK y => (x <? y)%N
  | FK _, FKInf => true
  | FKInf, _ => false
  end.

Definition fkey_eqb (a b : fkey) : bool :=
  match a, b with
  | FK x, FK y => (x =? y)%N
  | FKInf, FKInf => true
  | _, _ => false
  end.

(** Tuple comparison [a < b] of two keys. *)
Definition key_ltb (a b : fkey * fkey) : bool :=
  fkey_ltb (fst a) (fst b)
  || (fkey_eqb (fst a) (fst b) && fkey_ltb (snd a) (snd b)).

Definition is_digit (a : ascii) : bool :=
  let n := nat_of_ascii a in ((48 <=? n) && (n <=? 57))%nat.

(** The longest run of digits at the head of [s]. *)
Fixpoint take_digits (s : string) : string :=
  match s with
  | String a r => if is_digit a then String a (take_digits r) else ""
  | EmptyString => ""
  end.

Fixpoint all_digits (s : string) : bool :=
  match s with
  | String a r => is_digit a && all_digits r
  | EmptyString => true
  end.

Definition newline : ascii := ascii_of_nat 10.

(** [RE_LIBERTY_LIST.match(s)], the pattern being any text, an
    underscore and a run of digits: the greedy first group ends at the last underscore that a digit follows; [.] stops at
    a newline.  Returns groups 1 and 2. *)
Fixpoint re_liberty_list (s : string) : option (string * string) :=
  match s with
  | EmptyString => None
  | String a r =>
      match (if Ascii.eqb a newline then None else re_liberty_list r) with
      | Some (k, n) => Some (String a k, n)
      | None =>
          if Ascii.eqb a "_" then
            match take_digits r with
            | EmptyString => None
            | n => Some ("", n)
            end
          else None
      end
  end.

(** [float(n)] for a text [n] of decimal digits; any other text is a
    [ValueError]. *)
Definition float_of_digits (s : string) : result fkey :=
  match NilZero.uint_of_string s with
  | Some d => Ok (float_of_N (N.of_uint d))
  | None => Err ValueError
  end.

Definition _lookup_attribute_pos (name : string) : option fkey :=
  let name := " " ++ name in
  let name := if PyStr.endswith name "_" then name ++ " " else name in
  match PyStr.find LIBERTY_ATTRIBUTE_ORDER name with
  | Some i => Some (float_of_N (N.of_nat i))
  | None => None
  end.

(** [if i:] on the looked-up position: [None] and [0.0] are false. *)
Definition truthy (i : option fkey) : option fkey :=
  match i with
  | Some (FK 0) => None
  | _ => i
  end.

(** [s[:s.index(c)]] when [c] occurs in [s] *)
Fixpoint before_char (c : ascii) (s : string) : string :=
  match s with
  | EmptyString => ""
  | String a r => if Ascii.eqb a c then "" else String a (before_char c r)
  end.

Definition liberty_attribute_order (attr_name : string) : result (fkey * fkey) :=
  _ <- py_assert (negb (PyStr.has_char ":" attr_name)) AssertionError ;;
  match re_liberty_list attr_name with
  | Some (k, n) =>
      let i := match truthy (_lookup_attribute_pos k) with
               | Some i => i
               | None => FKInf
               end in
      n' <- float_of_digits n ;;
      Ok (i, n')
  | None =>
      match truthy (_lookup_attribute_pos attr_name) with
      | Some i => Ok (i, FK 0)
      | None =>
          let lookup_name :=
            if PyStr.has_char "(" attr_name
            then before_char "(" attr_name else attr_name in
          let lookup_name :=
            if PyStr.contains attr_name "default_" then "default_..."
            else lookup_name in
          let lookup_name :=
            if PyStr.contains attr_name "_unit" then "..._unit"
            else lookup_name in
          let lookup_name :=
            if PyStr.contains attr_name "k_" then "k_..." else lookup_name in
          match truthy (_lookup_attribute_pos lookup_name) with
          | Some i => Ok (i, FK 0)
          | None => Ok (FKInf, FKInf)
          end
      end
  end.

(** [name in ('variable', 'index', 'values')] after the same match *)
Definition is_liberty_list (k : string) : bool :=
  let k := match re_liberty_list k with Some (k', _) => k' | None => k end in
  (k =? "variable") || (k =? "index") || (k =? "values").

End AttrOrder.

(** ** The top-level assembler *)

(** One [Overwriting k with v (existing value of old)] line on the console. *)
Record overwrite : Type := Overwriting {
  ow_key : string;
  ow_new : value;
  ow_old : value
}.

(** The first loading loop of [generate]: the common record is copied key
    by key into an empty [common_data], each key asserted new. *)
Fixpoint load_common (items : dict) (common_data : dict) : result dict :=
  match items with
  | [] => Ok common_data
  | (k, v) :: r =>
      _ <- py_assert (negb (dict_has k common_data)) AssertionError ;;
      load_common r (dict_set k v common_data)
  end.

(** The second loading loop: the corner's top record is written over
    [common_data], every overwritten key being reported. *)
Fixpoint merge_top (items : dict) (common_data : dict) (log : list overwrite)
  : dict * list overwrite :=
  match items with
  | [] => (common_data, log)
  | (k, v) :: r =>
      let log' := match dict_get k common_data with
                  | Some old => (log ++ [Overwriting k v old])%list
                  | None => log
                  end in
      merge_top r (dict_set k v common_data) log'
  end.

(** The console lines the merge of [top] over [common] is expected to
    print: one per key of [top] that [common] holds, in the order of [top]. *)
Definition overwrites_of (top common : dict) : list overwrite :=
  flat_map (fun kv => match dict_get (fst kv) common with
                      | Some old => [Overwriting (fst kv) (snd kv) old]
                      | None => []
                      end) top.

Section Assembler.

Variable parse_size : string -> option string.

(** The files under the library directory: a path relative to it is
    mapped to the value [json.load] returns, [None] when there is no
    such file. *)
Variable fs : string -> option value.

(** The group serializer, [liberty_dict dtype dvalue data indent]; the
    assembler only hands records to it and writes what it returns. *)
Variable liberty_dict :
  string -> string -> value -> list string -> result (list string).

(** [assert os.path.exists(path)] followed by [json.load]. *)
Definition load_json (path : string) : result value :=
  match fs path with
  | Some v => Ok v
  | None => Err AssertionError
  end.

(** ... followed by [assert isinstance(d, dict)]. *)
Definition load_dict (path : string) : result dict :=
  v <- load_json path ;;
  match v with
  | VDict d => Ok d
  | _ => Err AssertionError
  end.

(** Lines 313 to 332: the common record, then the corner's top record
    for the input variant over it. *)
Definition load_merged (lib corner : string) (icorner_type : TimingType.t)
  : result (dict * list overwrite) :=
  d0 <- load_dict ("timing/" ++ lib ++ "__common.lib.json") ;;
  common_data <- load_common d0 [] ;;
  top_data_path <- top_corner_file lib corner icorner_type ;;
  d <- load_dict top_data_path ;;
  Ok (merge_top d common_data []).

(** [if ocorner_type != TimingType.ccsnoise: remove_ccsnoise(data, ...)] *)
Definition strip_for (ocorner_type : TimingType.t) (data : value) : result value :=
  if negb (ocorner_type =? TimingType.ccsnoise)%N
  then remove_ccsnoise data else Ok data.

(** The library group without its closing brace, as one [top_write]. *)
Definition library_header (lib corner : string) (data : value)
  : result (list string) :=
  output <- liberty_dict "library" (lib ++ "__" ++ corner) data [] ;;
  match rev output with
  | [] => Err IndexError
  | last :: _ =>
      _ <- py_assert (last =? "}") AssertionError ;;
      Ok [PyStr.join (String AttrOrder.newline "") (removelast output)]
  end.

(** The two [top_write] calls for one cell: an empty line, the group. *)
Definition cell_text (lib cell_with_size : string) (cell_data : value)
  : result (list string) :=
  group <- liberty_dict "cell" (lib ++ "__" ++ cell_with_size) cell_data
             [cell_with_size] ;;
  Ok [""; PyStr.join (String AttrOrder.newline "") group].

(** The body of the loop over the cells. *)
Definition cell_group (lib corner : string)
    (ocorner_type icorner_type : TimingType.t) (cell_with_size : string)
  : result (list string) :=
  fname <- cell_corner_file parse_size lib cell_with_size corner icorner_type ;;
  cell_data <- load_json fname ;;
  cell_data <- strip_for ocorner_type cell_data ;;
  cell_text lib cell_with_size cell_data.

(** What [generate] prints into the output file, one string per
    [top_write], and what it reports on the console while merging. *)
Definition generate (lib corner : string)
    (ocorner_type icorner_type : TimingType.t) (cells : list string)
  : result (list string * list overwrite) :=
  _ <- top_corner_file lib corner ocorner_type ;;
  merged <- load_merged lib corner icorner_type ;;
  data <- strip_for ocorner_type (VDict (fst merged)) ;;
  header <- library_header lib corner data ;;
  groups <- mapM (cell_group lib corner ocorner_type icorner_type) cells ;;
  Ok ((header ++ List.concat groups ++ [""; "}"])%list, snd merged).

(** The choice of the input variant in [main]. *)
Definition select_input (output_corner_type input_corner_type : TimingType.t)
  : TimingType.t :=
  if (output_corner_type =? TimingType.basic)%N
     && TimingType.contains input_corner_type TimingType.ccsnoise
  then TimingType.ccsnoise
  else output_corner_type.

(** One round of the loop over the corners in [main]; [None] stands for
    the [return 1] of an unsupported variant. *)
Definition main_corner (lib corner : string)
    (output_corner_type : TimingType.t)
    (entry : TimingType.t * list string)
  : result (option (list string * list overwrite)) :=
  let (input_corner_type, corner_cells) := entry in
  if negb (TimingType.contains input_corner_type output_corner_type)
  then Ok None
  else
    r <- generate lib corner output_corner_type
           (select_input output_corner_type input_corner_type) corner_cells ;;
    Ok (Some r).

End Assembler.

(** A positive finite float given by its digits and decimal point. *)
Definition flt (digits : N) (decpt : Z) : value :=
  VFloat (FFinite false (N.to_uint digits) decpt).

(** Element kinds, to state which sequences the joiner accepts. *)
Definition is_float (v : value) : bool := pytype_eqb (type_of v) TFloat.
Definition is_int (v : value) : bool := pytype_eqb (type_of v) TInt.
Definition is_number (v : value) : bool := is_float v || is_int v.

(** ** liberty_composite *)

(** One value of a composite: [isinstance(l, (float, int))] also holds for
    a [bool]; a string must hold no double quote. *)
Definition composite_part (l : value) : result string :=
  match l with
  | VInt _ | VFloat _ | VBool _ => liberty_float l
  | VStr s =>
      _ <- py_assert (negb (PyStr.has_char (ascii_of_nat 34) s)) AssertionError ;;
      Ok (PyText.dq ++ s ++ PyText.dq)
  | _ => Err ValueError
  end.

(** The single line for a sequence that does not open with a sequence. *)
Definition composite_line (k : string) (v : list value) (i : list string)
  : result (list string) :=
  o <- mapM composite_part v ;;
  Ok [PyStr.repeat INDENT (List.length i) ++ k ++ "(" ++ PyStr.join ", " o ++ ");"].

(** A value that is no list is wrapped into one; [v[0]] of an empty list
    is an [IndexError]; a list opening with a list is rendered row by
    row. *)
Fixpoint liberty_composite (k : string) (v : value) (i : list string)
  : result (list string) :=
  match v with
  | VList [] => Err IndexError
  | VList ((VList _ :: _) as rows) =>
      (fix each (l : list value) : result (list string) :=
         match l with
         | [] => Ok []
         | x :: r =>
             o <- liberty_composite k x i ;;
             os <- each r ;;
             Ok (o ++ os)%list
         end) rows
  | VList l => composite_line k l i
  | _ => composite_line k [v] i
  end.

(** The values a composite line accepts without failing: ints, floats
    and strings without a double quote. *)
Definition composite_ok (x : value) : bool :=
  match x with
  | VInt _ | VFloat _ => true
  | VStr s => negb (PyStr.has_char (ascii_of_nat 34) s)
  | _ => false
  end.

(** *** What a list block is expected to look like

    The opening line carries the key and the first row, every row but the
    last ends with a comma and a backslash, the last one closes the
    block. *)
Definition block_row (depth : nat) (r : string) : string :=
  PyStr.repeat INDENT depth ++ PyText.dq ++ r ++ PyText.dq.

Definition expected_block (k : string) (depth : nat) (rows : list string)
  : list string :=
  match rows with
  | [] => []
  | [r] => [PyStr.repeat INDENT depth ++ k ++ "(" ++ PyText.dq ++ r ++ PyText.dq ++ ");"]
  | r :: rest =>
      (PyStr.repeat INDENT depth ++ k ++ "(" ++ PyText.dq ++ r ++ PyText.dq
       ++ ", " ++ PyText.bs)
      :: (map (fun x => (block_row (S depth) x ++ ", " ++ PyText.bs)%string)
              (removelast rest)
          ++ [(block_row (S depth) (last rest "") ++ ");")%string])%list
  end.

(** *** Records that hold no ccsnoise data

    Well-shaped records in which no key asks for removal. *)
Definition clean_timing (t : value) : bool :=
  match t with
  | VDict d =>
      unique_keys d
      && forallb (fun kv => negb (PyStr.startswith (fst kv) "ccsn_")) d
  | _ => false
  end.

Definition clean_pin (v : value) : bool :=
  match v with
  | VDict pd =>
      unique_keys pd
      && forallb (fun kv => negb (fst kv =? "input_voltage")
                            && negb (PyStr.startswith (fst kv) "ccsn_")) pd
      && match dict_get "timing" pd with
         | Some (VList ts) => forallb clean_timing ts
         | Some _ => false
         | None => true
         end
  | _ => false
  end.

Definition clean_item (kv : string * value) : bool :=
  negb (PyStr.contains (fst kv) "ccsn_")
  && (if PyStr.startswith (fst kv) "pin " then clean_pin (snd kv) else true).

Definition clean_record (d : dict) : bool :=
  unique_keys d && forallb clean_item d.

(** ** The inventory collector *)

(** [sorted(l)] for strings. *)
Fixpoint insert_sorted (x : string) (l : list string) : list string :=
  match l with
  | [] => [x]
  | y :: r => if String.leb x y then x :: l else y :: insert_sorted x r
  end.

Definition py_sorted (l : list string) : list string :=
  fold_right insert_sorted [] l.

(** The strict order of [sorted]. *)
Definition str_lt (a b : string) : Prop := String.ltb a b = true.

(** [s.add(x)] on a set kept as a list without repetition. *)
Definition set_add (x : string) (l : list string) : list string :=
  if existsb (String.eqb x) l then l else (l ++ [x])%list.

(** [p.name]: the text after the last slash. *)
Fixpoint basename (p : string) : string :=
  match p with
  | EmptyString => ""
  | String a r =>
      if PyStr.has_char "/" r then basename r
      else if Ascii.eqb a "/" then r else p
  end.

(** [s.split(c, 1)] when [c] occurs in [s]: the text before the first
    [c] and the text after it. *)
Fixpoint split_first (c : ascii) (s : string) : option (string * string) :=
  match s with
  | EmptyString => None
  | String a r =>
      if Ascii.eqb a c then Some ("", r)
      else match split_first c r with
           | Some (x, y) => Some (String a x, y)
           | None => None
           end
  end.

(** [s.split("__")] *)
Fixpoint split_dunder (s : string) : list string :=
  match s with
  | EmptyString => [""]
  | String "_" (String "_" r) => "" :: split_dunder r
  | String a r =>
      match split_dunder r with
      | h :: t => String a h :: t
      | [] => []
      end
  end.

(** A mapping from corner names, in insertion order. *)
Fixpoint assoc_get {A : Type} (k : string) (l : list (string * A)) : option A :=
  match l with
  | [] => None
  | (k', v) :: r => if k' =? k then Some v else assoc_get k r
  end.

Fixpoint assoc_set {A : Type} (k : string) (v : A) (l : list (string * A))
  : list (string * A) :=
  match l with
  | [] => [(k, v)]
  | (k', v') :: r => if k' =? k then (k, v) :: r else (k', v') :: assoc_set k v r
  end.

(** The state of the scanning loop of [collect]. *)
Record inventory : Type := Inventory {
  inv_lib : option string;
  inv_corners : list (string * (TimingType.t * list string));
  inv_cells : list string
}.

(** One round of the loop over the files found. *)
Definition collect_step (st : inventory) (p : string) : result inventory :=
  if PyStr.contains p "timing" then Ok st
  else
    match split_first "." (basename p) with
    | None => Err ValueError
    | Some (fname, _) =>
        match split_dunder fname with
        | [libname; cellname; corner] =>
            let libname0 := match inv_lib st with
                            | None => libname
                            | Some l => l
                            end in
            _ <- py_assert (libname0 =? libname) AssertionError ;;
            let (corner_name, corner_type) := TimingType.parse corner in
            let entry := match assoc_get corner_name (inv_corners st) with
                         | None => (corner_type, [])
                         | Some e => e
                         end in
            Ok (Inventory (Some libname0)
                  (assoc_set corner_name
                     (TimingType.union (fst entry) corner_type,
                      set_add cellname (snd entry))
                     (inv_corners st))
                  (set_add cellname (inv_cells st)))
        | _ => Err ValueError
        end
    end.

Fixpoint collect_loop (st : inventory) (paths : list string) : result inventory :=
  match paths with
  | [] => Ok st
  | p :: r => st' <- collect_step st p ;; collect_loop st' r
  end.

(** Sorting the items of the corner mapping: the names are distinct, so
    the items come out ordered by name. *)
Fixpoint insert_by_name {A : Type} (x : string * A) (l : list (string * A))
  : list (string * A) :=
  match l with
  | [] => [x]
  | y :: r => if String.leb (fst x) (fst y) then x :: l
              else y :: insert_by_name x r
  end.

(** The cells of a [Missing ... from corner] line, listed here in the
    order of [all_cells]; the source prints them from a set, in no fixed
    order. *)
Definition missing_cells (all_cells corner_cells : list string) : list string :=
  filter (fun c => negb (existsb (String.eqb c) corner_cells)) all_cells.

Definition missing_report
    (corners : list (string * (TimingType.t * list string)))
    (all_cells : list string)
  : list (string * list string) :=
  flat_map (fun item =>
              match missing_cells all_cells (snd (snd item)) with
              | [] => []
              | m => [(fst item, m)]
              end)
    (fold_right insert_by_name [] corners).

(** What [collect] returns, and the lines it prints about missing cells.
    [paths] are the regular files that the recursive glob yields, in its
    order. *)
Record collected : Type := Collected {
  col_lib : string;
  col_corners : list (string * (TimingType.t * list string));
  col_cells : list string;
  col_missing : list (string * list string)
}.

Definition collect (paths : list string) : result collected :=
  st <- collect_loop (Inventory None [] []) paths ;;
  let corners := map (fun item => (fst item, (fst (snd item),
                                              py_sorted (snd (snd item)))))
                   (inv_corners st) in
  _ <- py_assert (negb (Nat.eqb (List.length corners) 0)) AssertionError ;;
  _ <- py_assert (negb (Nat.eqb (List.length (inv_cells st)) 0)) AssertionError ;;
  match inv_lib st with
  | None => Err AssertionError
  | Some libname0 =>
      _ <- py_assert (negb (libname0 =? "")) AssertionError ;;
      let all_cells := py_sorted (inv_cells st) in
      Ok (Collected libname0 corners all_cells (missing_report corners all_cells))
  end.

(** *** What the inventory is expected to satisfy *)

(** The scanning state is well formed: no cell and no corner name twice,
    and every corner holds a union of members and a non-empty set of cells
    taken from the set of all cells. *)
Definition inventory_ok
    (corners : list (string * (TimingType.t * list string)))
    (cells : list string) : Prop :=
  NoDup cells
  /\ NoDup (map fst corners)
  /\ forall c t cs, In (c, (t, cs)) corners ->
                    NoDup cs /\ incl cs cells /\ cs <> []
                    /\ TimingType.member_union t.

(** The file [p] is accounted for: its name splits into library, cell and
    corner, the library is the one recorded, and the corner parsed from it
    advertises the variant of the file and lists the cell. *)
Definition recorded (lib : option string)
    (corners : list (string * (TimingType.t * list string)))
    (cells : list string) (p : string) : Prop :=
  exists fname ext libname cell corner,
    split_first "." (basename p) = Some (fname, ext)
    /\ split_dunder fname = [libname; cell; corner]
    /\ lib = Some libname
    /\ exists t cs,
         assoc_get (fst (TimingType.parse corner)) corners = Some (t, cs)
         /\ TimingType.contains t (snd (TimingType.parse corner)) = true
         /\ In cell cs /\ In cell cells.

(** ** main *)

Section Main.

Variable parse_size : string -> option string.
Variable fs : string -> option value.
Variable liberty_dict :
  string -> string -> value -> list string -> result (list string).

(** The loop over the corners: a corner that does not support the output
    variant ends the run with code 1, after the corners before it. *)
Fixpoint main_loop (lib : string)
    (corners : list (string * (TimingType.t * list string)))
    (output_corner_type : TimingType.t) (todo : list string)
    (done : list (string * (list string * list overwrite)))
  : result (nat * list (string * (list string * list overwrite))) :=
  match todo with
  | [] => Ok (0, done)
  | corner :: rest =>
      match assoc_get corner corners with
      | None => Err KeyError
      | Some entry =>
          r <- main_corner parse_size fs liberty_dict lib corner
                 output_corner_type entry ;;
          match r with
          | None => Ok (1, done)
          | Some out =>
              main_loop lib corners output_corner_type rest
                (done ++ [(corner, out)])%list
          end
      end
  end.

(** [main] after the arguments are parsed: the files found under the
    library, the corners asked for and the two flags.  Returns the exit
    code and what was written for each corner. *)
Definition main (paths : list string) (corner_args : list string)
    (ccsnoise leakage : bool)
  : result (nat * list (string * (list string * list overwrite))) :=
  c <- collect paths ;;
  let output_corner_type :=
    if ccsnoise then TimingType.ccsnoise
    else if leakage then TimingType.leakage
    else TimingType.basic in
  let corner_list :=
    match corner_args with
    | ["all"] =>
        py_sorted (map fst (filter (fun item =>
                                      TimingType.contains (fst (snd item))
                                        output_corner_type)
                              (col_corners c)))
    | _ => corner_args
    end in
  let retcode :=
    if forallb (fun a => match assoc_get a (col_corners c) with
                         | Some _ => true
                         | None => false
                         end) corner_list
    then 0 else 1 in
  let corner_list := if Nat.eqb retcode 0 then corner_list else [] in
  match corner_list with
  | [] => Ok (retcode, [])
  | _ => main_loop (col_lib c) (col_corners c) output_corner_type corner_list []
  end.

End Main.

Definition sample_paths : list string :=
  ["sky130/cells/inv/lib__inv_1__tt_ccsnoise.lib.json";
   "sky130/cells/inv/lib__inv_1__tt.lib.json";
   "sky130/cells/buf/lib__buf_2__tt.lib.json";
   "sky130/cells/buf/lib__buf_2__ff_pwrlkg.lib.json";
   "sky130/timing/lib__tt.lib.json"].

(** ** Sample inputs *)

Definition sample_common : dict :=
  [("technology", VStr "cmos"); ("date", VStr "2020")].

Definition sample_top : dict :=
  [("date", VStr "2021"); ("lu_table_template ccsn_dc", VDict [])].

Definition sample_cell : dict :=
  [("area", VInt 5);
   ("ccsn_first_stage", VDict []);
   ("pin A", VDict [("input_voltage", VStr "GENERAL");
                    ("ccsn_last_stage", VDict []);
                    ("capacitance", VInt 2);
                    ("timing", VList [VDict [("ccsn_first_stage", VDict []);
                                             ("related_pin", VStr "B")]])])].

Definition sample_fs (path : string) : option value :=
  if path =? "timing/lib__common.lib.json" then Some (VDict sample_common)
  else if path =? "timing/lib__tt_ccsnoise.lib.json" then Some (VDict sample_top)
  else if path =? "cells/inv/lib__inv_1__tt_ccsnoise.lib.json"
       then Some (VDict sample_cell)
  else None.

Definition sample_parse_size (cell_with_size : string) : option string :=
  if PyStr.endswith cell_with_size "_1" then Some "_1" else None.

(** A serializer that prints the opening and closing lines of a group. *)
Definition sample_serializer (dtype dvalue : string) (data : value)
    (indent : list string) : result (list string) :=
  Ok [dtype ++ " (" ++ dvalue ++ ") {"; "}"].

(** * Properties *)

(** ** Strings *)

#[local] Arguments Ascii.eqb : simpl never.
#[local] Arguments String.eqb : simpl never.

Lemma length_app (a b : string) : length (a ++ b) = length a + length b.
Proof. induction a as [|c a IH]; simpl; [reflexivity | now rewrite IH]. Qed.

Lemma substring_all (s : string) : substring 0 (length s) s = s.
Proof. induction s as [|c s IH]; simpl; [reflexivity | now rewrite IH]. Qed.

Lemma substring_app_l (a b : string) : substring 0 (length a) (a ++ b) = a.
Proof.
  induction a as [|c a IH]; simpl.
  - now destruct b.
  - now rewrite IH.
Qed.

Lemma substring_app_r (a b : string) :
  substring (length a) (length b) (a ++ b) = b.
Proof. induction a as [|c a IH]; simpl; [apply substring_all | exact IH]. Qed.

Lemma endswith_app (x suf : string) : PyStr.endswith (x ++ suf) suf = true.
Proof.
  unfold PyStr.endswith. rewrite length_app.
  replace (length x + length suf - length suf) with (length x) by lia.
  rewrite substring_app_r, String.eqb_refl.
  apply andb_true_iff; split; [apply Nat.leb_le; lia | reflexivity].
Qed.

Lemma drop_end_app (x suf : string) :
  suf <> "" -> PyStr.drop_end (length suf) (x ++ suf) = x.
Proof.
  intros Hne. unfold PyStr.drop_end.
  destruct suf as [|c suf]; [congruence|].
  cbn [length]. rewrite length_app. cbn [length].
  replace (length x + S (length suf) - S (length suf)) with (length x) by lia.
  apply substring_app_l.
Qed.

(** The characters of a string, to reason on its end. *)
Lemma list_ascii_app (a b : string) :
  list_ascii_of_string (a ++ b)
  = (list_ascii_of_string a ++ list_ascii_of_string b)%list.
Proof. induction a as [|c a IH]; simpl; [reflexivity | now rewrite IH]. Qed.

Lemma substring_split (n : nat) (s : string) :
  n <= length s -> s = substring 0 n s ++ substring n (length s - n) s.
Proof.
  revert s. induction n as [|n IH]; intros s Hlen.
  - rewrite Nat.sub_0_r, substring_all. now destruct s.
  - destruct s as [|c s]; simpl in *; [lia|].
    f_equal. apply IH. lia.
Qed.

Lemma endswith_inv (s suf : string) :
  PyStr.endswith s suf = true -> exists p, s = p ++ suf.
Proof.
  unfold PyStr.endswith. intros H.
  apply andb_true_iff in H as [Hlen Heq].
  apply Nat.leb_le in Hlen. apply String.eqb_eq in Heq.
  exists (substring 0 (length s - length suf) s).
  rewrite (substring_split (length s - length suf) s) at 1 by lia.
  f_equal.
  replace (length s - (length s - length suf)) with (length suf) by lia.
  exact Heq.
Qed.

Example names_doctest :
  TimingType.names (TimingType.union TimingType.leakage TimingType.ccsnoise)
  = "basic, ccsnoise, leakage"
  /\ TimingType.names TimingType.ccsnoise = "basic, ccsnoise".
Proof. split; reflexivity. Qed.

Example describe_doctest :
  TimingType.describe TimingType.basic = ""
  /\ TimingType.describe TimingType.ccsnoise = "(with ccsnoise)"
  /\ TimingType.describe TimingType.leakage = "(with power leakage)"
  /\ TimingType.describe (TimingType.union TimingType.leakage TimingType.ccsnoise)
     = "(with ccsnoise and power leakage)".
Proof. repeat split; reflexivity. Qed.

Example parse_doctest :
  TimingType.parse "ff_100C_1v65" = ("ff_100C_1v65", TimingType.basic)
  /\ TimingType.parse "ff_100C_1v65_ccsnoise" = ("ff_100C_1v65", TimingType.ccsnoise)
  /\ TimingType.parse "ff_100C_1v65_pwrlkg" = ("ff_100C_1v65", TimingType.leakage).
Proof. repeat split; reflexivity. Qed.

Example top_corner_file_doctest :
  top_corner_file "sky130_fd_sc_hd" "ff_100C_1v65" TimingType.ccsnoise
  = Ok "timing/sky130_fd_sc_hd__ff_100C_1v65_ccsnoise.lib.json"
  /\ top_corner_file "sky130_fd_sc_hd" "ff_100C_1v65" TimingType.basic
     = Ok "timing/sky130_fd_sc_hd__ff_100C_1v65.lib.json".
Proof. split; reflexivity. Qed.

Example cell_corner_file_doctest :
  cell_corner_file (fun _ => Some "_1") "sky130_fd_sc_hd" "a2111o_1"
    "ff_100C_1v65" TimingType.ccsnoise
  = Ok "cells/a2111o/sky130_fd_sc_hd__a2111o_1__ff_100C_1v65_ccsnoise.lib.json".
Proof. reflexivity. Qed.

Example remove_ccsnoise_cell :
  remove_ccsnoise
    (VDict [("area", VInt 5);
            ("ccsn_first_stage", VDict []);
            ("pin A", VDict [("input_voltage", VStr "GENERAL");
                             ("ccsn_last_stage", VDict []);
                             ("capacitance", VInt 2);
                             ("timing", VList [VDict [("ccsn_first_stage", VDict []);
                                                      ("related_pin", VStr "B")]])])])
  = Ok (VDict [("area", VInt 5);
               ("pin A", VDict [("capacitance", VInt 2);
                                ("timing", VList [VDict [("related_pin", VStr "B")]])])]).
Proof. reflexivity. Qed.

Example liberty_float_doctest :
  liberty_float (flt 19208818 (-1)) = Ok "0.0192088180"
  /\ liberty_float (flt 15 1) = Ok "1.5000000000"
  /\ liberty_float (flt 1 21) = Ok "1.000000e+20"
  /\ liberty_float (VInt 1) = Ok "1.0000000000".
Proof. repeat split; reflexivity. Qed.

Example liberty_join_doctest :
  (j <- liberty_join [VInt 5; flt 1 1; VInt 10] ;;
   run_join j (VList [VInt 5; flt 1 1; VInt 10]))
  = Ok "5.0000000000, 1.0000000000, 10.000000000"
  /\ (j <- liberty_join [VInt 1; VInt 5; VInt 8] ;;
      run_join j (VList [VInt 1; VInt 5; VInt 8])) = Ok "1, 5, 8".
Proof. split; reflexivity. Qed.

Example liberty_attribute_order_doctest :
  AttrOrder.liberty_attribute_order "define" = Ok (AttrOrder.FK 33, AttrOrder.FK 0)
  /\ AttrOrder.liberty_attribute_order "voltage_map" = Ok (AttrOrder.FKInf, AttrOrder.FKInf)
  /\ AttrOrder.liberty_attribute_order "slew_lower_threshold_pct_fall"
     = Ok (AttrOrder.FKInf, AttrOrder.FKInf)
  /\ AttrOrder.liberty_attribute_order "time_unit" = Ok (AttrOrder.FK 203, AttrOrder.FK 0)
  /\ AttrOrder.liberty_attribute_order "random_unit" = Ok (AttrOrder.FK 357, AttrOrder.FK 0)
  /\ AttrOrder.liberty_attribute_order "capacitive_load_unit"
     = Ok (AttrOrder.FK 386, AttrOrder.FK 0)
  /\ AttrOrder.liberty_attribute_order "technology" = Ok (AttrOrder.FK 60, AttrOrder.FK 0)
  /\ AttrOrder.liberty_attribute_order ("technology(" ++ PyText.dq ++ "cmos" ++ PyText.dq ++ ")")
     = Ok (AttrOrder.FK 60, AttrOrder.FK 0)
  /\ AttrOrder.liberty_attribute_order "delay_model" = Ok (AttrOrder.FK 89, AttrOrder.FK 0)
  /\ AttrOrder.liberty_attribute_order "cell" = Ok (AttrOrder.FK 2282, AttrOrder.FK 0)
  /\ AttrOrder.liberty_attribute_order "values" = Ok (AttrOrder.FK 2182, AttrOrder.FK 0).
Proof. repeat split; vm_compute; reflexivity. Qed.

(** ** The timing-variant classifier *)

Lemma endswith_pwrlkg_not_ccsnoise (x : string) :
  PyStr.endswith (x ++ "_pwrlkg") "_ccsnoise" = false.
Proof.
  destruct (PyStr.endswith (x ++ "_pwrlkg") "_ccsnoise") eqn:E; [|reflexivity].
  apply endswith_inv in E as [p Hp].
  apply (f_equal list_ascii_of_string) in Hp.
  rewrite !list_ascii_app in Hp.
  change (list_ascii_of_string "_pwrlkg")
    with (list_ascii_of_string "_pwrlk" ++ ["g"%char])%list in Hp.
  change (list_ascii_of_string "_ccsnoise")
    with (list_ascii_of_string "_ccsnois" ++ ["e"%char])%list in Hp.
  rewrite !app_assoc in Hp.
  apply app_inj_tail in Hp as [_ Hc]. discriminate Hc.
Qed.

(** C6. [basic] is contained in [ccsnoise]; a name built by appending
    [_ccsnoise] or [_pwrlkg] to any text parses back to that text with the
    matching variant; a name ending in neither suffix is returned as it is,
    with [basic]. *)
Theorem parse_classifies_suffix :
  TimingType.contains TimingType.ccsnoise TimingType.basic = true
  /\ (forall x, TimingType.parse (x ++ "_ccsnoise") = (x, TimingType.ccsnoise))
  /\ (forall x, TimingType.parse (x ++ "_pwrlkg") = (x, TimingType.leakage))
  /\ (forall name,
         PyStr.endswith name "_ccsnoise" = false ->
         PyStr.endswith name "_pwrlkg" = false ->
         TimingType.parse name = (name, TimingType.basic)).
Proof.
  split; [reflexivity|]. split; [|split].
  - intros x. unfold TimingType.parse.
    rewrite endswith_app. f_equal. now apply drop_end_app.
  - intros x. unfold TimingType.parse.
    rewrite endswith_pwrlkg_not_ccsnoise, endswith_app.
    f_equal. now apply drop_end_app.
  - intros name H1 H2. unfold TimingType.parse. now rewrite H1, H2.
Qed.

Lemma parse_classifies_suffix_witness :
  TimingType.parse "ff_100C_1v65" = ("ff_100C_1v65", TimingType.basic).
Proof.
  apply (proj2 (proj2 (proj2 parse_classifies_suffix)) "ff_100C_1v65");
    reflexivity.
Defined.

Lemma member_union_values (t : TimingType.t) :
  TimingType.member_union t ->
  In t [1%N; 3%N; 4%N; 5%N; 7%N].
Proof.
  induction 1 as [m Hm | a b _ IHa _ IHb].
  - simpl in Hm. simpl. intuition.
  - simpl in IHa, IHb. unfold TimingType.union.
    repeat match goal with
           | H : _ \/ _ |- _ => destruct H
           | H : False |- _ => destruct H
           end; subst; simpl; intuition.
Qed.

Lemma member_union_singular (t : TimingType.t) :
  TimingType.member_union t ->
  (TimingType.singular t = true <->
   t = TimingType.basic \/ t = TimingType.ccsnoise \/ t = TimingType.leakage).
Proof.
  intros H. apply member_union_values in H. simpl in H.
  repeat match goal with
         | H : _ \/ _ |- _ => destruct H
         | H : False |- _ => destruct H
         end; subst; vm_compute; split; intros H;
    try discriminate; try (now intuition);
    repeat match goal with
           | H : _ \/ _ |- _ => destruct H
           end; discriminate.
Qed.

(** C5. Both file-naming operations fail on a value that is not singular
    and, on a singular one, return the path with the suffix of the value;
    the suffix is empty for [basic], [_ccsnoise] for [ccsnoise] and
    [_pwrlkg] for [leakage]; among the unions of members the singular
    values are exactly these three. *)
Theorem file_naming_singular_gate
    (parse_size : string -> option string)
    (lib cell_with_size corner : string) (t : TimingType.t) :
  (if TimingType.singular t
   then cell_corner_file parse_size lib cell_with_size corner t
        = Ok ("cells/" ++ cell_base parse_size cell_with_size ++ "/" ++ lib
              ++ "__" ++ cell_with_size ++ "__" ++ corner
              ++ TimingType.file t ++ ".lib.json")
        /\ top_corner_file lib corner t
           = Ok ("timing/" ++ lib ++ "__" ++ corner ++ TimingType.file t
                 ++ ".lib.json")
   else cell_corner_file parse_size lib cell_with_size corner t = Err TypeError
        /\ top_corner_file lib corner t = Err TypeError)
  /\ TimingType.file TimingType.basic = ""
  /\ TimingType.file TimingType.ccsnoise = "_ccsnoise"
  /\ TimingType.file TimingType.leakage = "_pwrlkg"
  /\ (TimingType.member_union t ->
      (TimingType.singular t = true <->
       t = TimingType.basic \/ t = TimingType.ccsnoise \/ t = TimingType.leakage)).
Proof.
  split; [|repeat split; try reflexivity; try apply member_union_singular; auto;
           apply member_union_singular; auto].
  unfold cell_corner_file, top_corner_file, assert_singular, py_assert.
  destruct (TimingType.singular t); simpl.
  - split; reflexivity.
  - split; reflexivity.
Qed.

Lemma file_naming_singular_gate_witness :
  TimingType.singular (TimingType.union TimingType.basic TimingType.leakage) = true
  <-> (TimingType.union TimingType.basic TimingType.leakage = TimingType.basic
       \/ TimingType.union TimingType.basic TimingType.leakage = TimingType.ccsnoise
       \/ TimingType.union TimingType.basic TimingType.leakage = TimingType.leakage).
Proof.
  apply (file_naming_singular_gate (fun _ => None) "lib" "inv_1" "tt_025C_1v80"
           (TimingType.union TimingType.basic TimingType.leakage)).
  apply TimingType.mu_union; apply TimingType.mu_member; simpl; auto.
Defined.

(** C9. The [file] property is total and never inspects [singular]: it is
    [_ccsnoise] exactly on [ccsnoise], [_pwrlkg] exactly on [leakage] and
    empty on every other value, the unions [basic|leakage] and
    [ccsnoise|leakage] included, which only the file-naming callers turn
    down. *)
Theorem file_suffix_total (t : TimingType.t) :
  (TimingType.file t = "_ccsnoise" <-> t = TimingType.ccsnoise)
  /\ (TimingType.file t = "_pwrlkg" <-> t = TimingType.leakage)
  /\ (TimingType.file t = ""
      <-> (t <> TimingType.ccsnoise /\ t <> TimingType.leakage))
  /\ TimingType.file (TimingType.union TimingType.basic TimingType.leakage) = ""
  /\ TimingType.file (TimingType.union TimingType.ccsnoise TimingType.leakage) = ""
  /\ TimingType.singular (TimingType.union TimingType.basic TimingType.leakage) = false
  /\ TimingType.singular (TimingType.union TimingType.ccsnoise TimingType.leakage) = false
  /\ (forall lib corner,
         top_corner_file lib corner
           (TimingType.union TimingType.basic TimingType.leakage) = Err TypeError
         /\ top_corner_file lib corner
              (TimingType.union TimingType.ccsnoise TimingType.leakage) = Err TypeError)
  /\ (forall parse_size lib cell corner,
         cell_corner_file parse_size lib cell corner
           (TimingType.union TimingType.basic TimingType.leakage) = Err TypeError
         /\ cell_corner_file parse_size lib cell corner
              (TimingType.union TimingType.ccsnoise TimingType.leakage) = Err TypeError).
Proof.
  unfold TimingType.file.
  repeat split; try reflexivity;
    destruct (N.eqb_spec t TimingType.ccsnoise) as [E1|E1];
    destruct (N.eqb_spec t TimingType.leakage) as [E2|E2];
    try subst t; intros; try discriminate; try congruence; try tauto.
Qed.

(** ** The numeric formatter *)

Lemma string_app_assoc (a b c : string) : (a ++ b) ++ c = a ++ b ++ c.
Proof. induction a as [|x a IH]; simpl; [reflexivity | now rewrite IH]. Qed.

Lemma has_char_app (c : ascii) (a b : string) :
  PyStr.has_char c (a ++ b) = PyStr.has_char c a || PyStr.has_char c b.
Proof.
  induction a as [|x a IH]; simpl; [reflexivity|].
  now rewrite IH, orb_assoc.
Qed.

Lemma has_char_repeat_zero (c : ascii) (n : nat) :
  c <> "0"%char -> PyStr.has_char c (PyStr.repeat "0" n) = false.
Proof.
  intros Hc. induction n as [|n IH]; simpl; [reflexivity|].
  rewrite IH, orb_false_r. apply Ascii.eqb_neq. congruence.
Qed.

Lemma has_char_digits (c : ascii) (d : Decimal.uint) :
  AttrOrder.is_digit c = false ->
  PyStr.has_char c (PyText.digits_str d) = false.
Proof.
  intros Hc. unfold PyText.digits_str.
  induction d; simpl; try reflexivity; rewrite IHd, orb_false_r;
    apply Ascii.eqb_neq; intros <-; discriminate Hc.
Qed.

Lemma has_char_int_str (c : ascii) (z : Z) :
  AttrOrder.is_digit c = false -> c <> "-"%char ->
  PyStr.has_char c (PyText.int_str z) = false.
Proof.
  intros Hc Hm. unfold PyText.int_str.
  assert (Hu : forall d, PyStr.has_char c (NilZero.string_of_uint d) = false).
  { intros d. destruct d;
      try match goal with
          | |- PyStr.has_char c (NilZero.string_of_uint ?u) = false =>
              exact (has_char_digits c u Hc)
          end.
    simpl. rewrite orb_false_r. apply Ascii.eqb_neq. intros <-. discriminate Hc. }
  destruct (Z.to_int z) as [d|d]; simpl; [apply Hu|].
  rewrite Hu, orb_false_r. apply Ascii.eqb_neq. congruence.
Qed.

Lemma has_char_split_at (c : ascii) (n : nat) (s : string) :
  PyStr.has_char c s = false ->
  PyStr.has_char c (fst (PyText.split_at n s)) = false
  /\ PyStr.has_char c (snd (PyText.split_at n s)) = false.
Proof.
  revert s. induction n as [|n IH]; intros s Hs; [now destruct s|].
  destruct s as [|a s]; [now split|].
  simpl in Hs. apply orb_false_iff in Hs as [Ha Hs].
  specialize (IH s Hs). simpl.
  destruct (PyText.split_at n s) as [x y]. simpl in *.
  now rewrite Ha.
Qed.

(** Splitting at the only occurrence of the separator. *)
Lemma split_char_once (c : ascii) (a b : string) :
  PyStr.has_char c a = false -> PyStr.has_char c b = false ->
  PyText.split_char c (a ++ String c b) = [a; b].
Proof.
  intros Ha Hb.
  assert (Hb' : PyText.split_char c b = [b]).
  { clear Ha. induction b as [|x b IH]; [reflexivity|].
    simpl in Hb. apply orb_false_iff in Hb as [Hx Hb].
    simpl. now rewrite (IH Hb), Hx. }
  induction a as [|x a IH]; simpl.
  - now rewrite Hb', Ascii.eqb_refl.
  - simpl in Ha. apply orb_false_iff in Ha as [Hx Ha].
    now rewrite (IH Ha), Hx.
Qed.

(** The padding loop stops within its fuel, having added exactly the
    missing zeros. *)
Lemma pad_zeros_eq (fuel extra : nat) (s : string) :
  WIDTH - (length s + extra) <= fuel ->
  pad_zeros fuel extra s
  = s ++ PyStr.repeat "0" (WIDTH - (length s + extra)).
Proof.
  assert (Hnil : forall u : string, u = u ++ "")
    by (induction u; simpl; congruence).
  revert s. induction fuel as [|fuel IH]; intros s Hf.
  - replace (WIDTH - (length s + extra)) with 0 by lia. apply Hnil.
  - cbn [pad_zeros].
    destruct (Nat.ltb_spec (length s + extra) WIDTH) as [Hlt|Hge].
    + assert (Hl : length (s ++ "0") = S (length s))
        by (rewrite length_app; cbn [length]; lia).
      rewrite IH by (rewrite Hl; lia). rewrite Hl.
      replace (WIDTH - (length s + extra))
        with (S (WIDTH - (S (length s) + extra))) by lia.
      cbn [PyStr.repeat]. now rewrite !string_app_assoc.
    + replace (WIDTH - (length s + extra)) with 0 by lia. apply Hnil.
Qed.

Lemma length_repeat_zero (n : nat) : length (PyStr.repeat "0" n) = n.
Proof. induction n; simpl; congruence. Qed.

Lemma pad_zeros_width (extra : nat) (s : string) :
  WIDTH <= length (pad_zeros WIDTH extra s) + extra.
Proof.
  rewrite pad_zeros_eq by lia.
  rewrite length_app, length_repeat_zero. lia.
Qed.

(** Whatever text is formatted, a returned result is [WIDTH] wide. *)
Lemma liberty_float_text_width (s r : string) :
  liberty_float_text s = Ok r -> WIDTH <= length r.
Proof.
  unfold liberty_float_text.
  destruct (PyStr.has_char "e" s).
  - destruct (PyText.split_char "e" s) as [|a [|b [|? ?]]]; try discriminate.
    pose proof (pad_zeros_width (length b + 1)
                  (if PyStr.has_char "." a then a else a ++ ".")) as Hp.
    revert Hp. generalize (pad_zeros WIDTH (length b + 1)
                  (if PyStr.has_char "." a then a else a ++ ".")).
    intros p Hp [= <-]. rewrite length_app. cbn [append length]. lia.
  - destruct (PyStr.has_char "." s).
    + pose proof (pad_zeros_width 0 s) as Hp.
      revert Hp. generalize (pad_zeros WIDTH 0 s). intros p Hp [= <-]. lia.
    + pose proof (pad_zeros_width 0
                    (if (length s <? WIDTH)%nat then s ++ "." else s)) as Hp.
      revert Hp.
      generalize (pad_zeros WIDTH 0 (if (length s <? WIDTH)%nat then s ++ "." else s)).
      intros p Hp [= <-]. lia.
Qed.

(** A text with no exponent mark is always formatted. *)
Lemma liberty_float_text_plain (s : string) :
  PyStr.has_char "e" s = false -> exists r, liberty_float_text s = Ok r.
Proof.
  intros He. unfold liberty_float_text. rewrite He.
  destruct (PyStr.has_char "." s); eexists; reflexivity.
Qed.

(** So is a text with one exponent mark. *)
Lemma liberty_float_text_exp (a b : string) :
  PyStr.has_char "e" a = false -> PyStr.has_char "e" b = false ->
  exists r, liberty_float_text (a ++ String "e" b) = Ok r.
Proof.
  intros Ha Hb. unfold liberty_float_text.
  rewrite has_char_app. simpl. rewrite orb_true_r.
  rewrite (split_char_once "e" a b Ha Hb). eexists; reflexivity.
Qed.

Lemma has_char_exp_str (e : Z) : PyStr.has_char "e" (PyText.exp_str e) = false.
Proof.
  unfold PyText.exp_str.
  assert (Ha : PyStr.has_char "e" (PyText.int_str (Z.abs e)) = false)
    by (apply has_char_int_str; [reflexivity | discriminate]).
  rewrite has_char_app.
  destruct (e <? 0)%Z; destruct (length (PyText.int_str (Z.abs e)) <? 2)%nat;
    cbn [append PyStr.has_char]; rewrite Ha; reflexivity.
Qed.

(** The [json.dumps] text of a float is always formatted. *)
Lemma liberty_float_of_float (f : pyfloat) :
  exists r, liberty_float (VFloat f) = Ok r.
Proof.
  unfold liberty_float. cbn [PyText.json_dumps].
  destruct f as [neg d p|neg|]; cbn [PyText.json_float];
    [|destruct neg; eexists; vm_compute; reflexivity
     |eexists; vm_compute; reflexivity].
  unfold PyText.finite_repr.
  assert (Hds : PyStr.has_char "e" (PyText.digits_str d) = false)
    by (apply has_char_digits; reflexivity).
  assert (Hsign : PyStr.has_char "e" (if neg then "-" else "") = false)
    by (destruct neg; reflexivity).
  set (sign := if neg then "-" else "") in *.
  destruct ((p <=? -4) || (16 <? p))%Z.
  - set (m := match PyText.digits_str d with
              | String c EmptyString => PyText.digits_str d
              | String c r => String c ("." ++ r)
              | EmptyString => "0"
              end).
    assert (Hm : PyStr.has_char "e" m = false).
    { subst m. destruct (PyText.digits_str d) as [|c [|c2 r]];
        [reflexivity | exact Hds |].
      cbn [PyStr.has_char append] in *.
      apply orb_false_iff in Hds as [Hc Hr]. now rewrite Hc, Hr. }
    change ("e" ++ PyText.exp_str (p - 1))
      with (String "e" (PyText.exp_str (p - 1))).
    rewrite <- string_app_assoc.
    apply liberty_float_text_exp; [|apply has_char_exp_str].
    now rewrite has_char_app, Hsign, Hm.
  - apply liberty_float_text_plain. rewrite has_char_app, Hsign.
    destruct (p <=? 0)%Z; [|destruct (p <? _)%Z].
    + cbn [append PyStr.has_char orb].
      change (("e" =? "0")%char || (("e" =? ".")%char || ?x)) with x.
      rewrite has_char_app, Hds, has_char_repeat_zero by discriminate.
      reflexivity.
    + destruct (has_char_split_at "e" (Z.to_nat p) (PyText.digits_str d) Hds)
        as [Hx Hy].
      destruct (PyText.split_at (Z.to_nat p) (PyText.digits_str d)) as [x y].
      cbn [fst snd] in *. rewrite has_char_app, Hx. cbn [append PyStr.has_char].
      rewrite Hy. reflexivity.
    + rewrite !has_char_app, Hds, has_char_repeat_zero by discriminate.
      reflexivity.
Qed.

(** An integer gains the point and the zeros only when its text is
    shorter than [WIDTH]. *)
Lemma liberty_float_of_int (z : Z) :
  liberty_float (VInt z)
  = Ok (if (length (PyText.int_str z) <? WIDTH)%nat
        then PyText.int_str z ++ "."
             ++ PyStr.repeat "0" (WIDTH - S (length (PyText.int_str z)))
        else PyText.int_str z).
Proof.
  unfold liberty_float, liberty_float_text. cbn [PyText.json_dumps].
  rewrite !has_char_int_str by (reflexivity || discriminate).
  f_equal. rewrite pad_zeros_eq by lia.
  destruct (Nat.ltb_spec (length (PyText.int_str z)) WIDTH) as [Hlt|Hge].
  - rewrite length_app. cbn [length].
    rewrite string_app_assoc. do 3 f_equal. lia.
  - replace (WIDTH - (length (PyText.int_str z) + 0)) with 0 by lia.
    cbn [PyStr.repeat]. generalize (PyText.int_str z).
    induction s; simpl; congruence.
Qed.

(** C4, as stated, fails: an integer of twelve digits is returned without
    a decimal point. *)
Lemma liberty_float_long_int_has_no_point :
  ~ (forall z : Z, exists k : nat,
        liberty_float (VInt z)
        = Ok (PyText.int_str z ++ "." ++ PyStr.repeat "0" k)).
Proof.
  intros H. destruct (H 123456789012%Z) as [k Hk].
  vm_compute in Hk. discriminate Hk.
Qed.

(** C4, amended. [WIDTH] is 12; every float, finite or not, and every
    integer is formatted to a text at least [WIDTH] long; an integer whose
    decimal text is shorter than [WIDTH] gains a point and then zeros up to
    [WIDTH], a longer one is returned as it is; and the three examples. *)
Theorem liberty_float_width :
  WIDTH = 12
  /\ (forall f : pyfloat,
         exists r, liberty_float (VFloat f) = Ok r /\ WIDTH <= length r)
  /\ (forall z : Z,
         exists r, liberty_float (VInt z) = Ok r /\ WIDTH <= length r
                   /\ r = if (length (PyText.int_str z) <? WIDTH)%nat
                          then PyText.int_str z ++ "."
                               ++ PyStr.repeat "0"
                                    (WIDTH - S (length (PyText.int_str z)))
                          else PyText.int_str z)
  /\ liberty_float (flt 15 1) = Ok "1.5000000000"
  /\ liberty_float (flt 1 21) = Ok "1.000000e+20"
  /\ liberty_float (VInt 1) = Ok "1.0000000000".
Proof.
  split; [reflexivity|]. split; [|split; [|repeat split; reflexivity]].
  - intros f. destruct (liberty_float_of_float f) as [r Hr].
    exists r. split; [exact Hr|].
    exact (liberty_float_text_width _ _ Hr).
  - intros z. eexists. split; [apply liberty_float_of_int|]. split; [|reflexivity].
    exact (liberty_float_text_width _ _ (liberty_float_of_int z)).
Qed.

(** ** The list joiner *)

Lemma count_type_le (ty : pytype) (l : list value) :
  count_type ty l <= List.length l.
Proof.
  induction l as [|x l IH]; simpl; [lia|].
  destruct (pytype_eqb (type_of x) ty); lia.
Qed.

Lemma count_type_pos (ty : pytype) (l : list value) :
  (0 <? count_type ty l)%nat
  = existsb (fun x => pytype_eqb (type_of x) ty) l.
Proof.
  induction l as [|x l IH]; simpl; [reflexivity|].
  destruct (pytype_eqb (type_of x) ty); simpl; [reflexivity | exact IH].
Qed.

Lemma count_type_all (ty : pytype) (l : list value) :
  (count_type ty l =? List.length l)%nat
  = forallb (fun x => pytype_eqb (type_of x) ty) l.
Proof.
  induction l as [|x l IH]; simpl; [reflexivity|].
  pose proof (count_type_le ty l) as Hle.
  destruct (pytype_eqb (type_of x) ty); simpl; [exact IH|].
  apply Nat.eqb_neq. lia.
Qed.

Lemma count_numbers_all (l : list value) :
  (count_type TFloat l + count_type TInt l =? List.length l)%nat
  = forallb is_number l.
Proof.
  induction l as [|x l IH]; [reflexivity|].
  assert (Hle : count_type TFloat l + count_type TInt l <= List.length l).
  { clear. induction l as [|y l IH]; simpl; [lia|]. destruct y; simpl; lia. }
  cbn [count_type forallb List.length]. unfold is_number at 1, is_float, is_int.
  rewrite <- IH.
  destruct x; cbn [type_of pytype_eqb orb andb];
    first [ apply Nat.eqb_neq; lia
          | destruct (Nat.eqb_spec (count_type TFloat l + count_type TInt l)
                        (List.length l));
            [apply Nat.eqb_eq | apply Nat.eqb_neq]; lia ].
Qed.

(** The counting test of [liberty_join], read on the elements. *)
Lemma liberty_join_cases (l : list value) :
  liberty_join l
  = if existsb is_float l
    then (if forallb is_number l then Ok JoinFloat else Err AssertionError)
    else if existsb is_int l
         then (if forallb is_int l then Ok JoinInt else Err AssertionError)
         else Err ValueError.
Proof.
  unfold liberty_join.
  rewrite !count_type_pos, count_numbers_all, count_type_all.
  fold is_float. fold is_int.
  change (existsb (fun x => pytype_eqb (type_of x) TFloat) l)
    with (existsb is_float l).
  change (existsb (fun x => pytype_eqb (type_of x) TInt) l)
    with (existsb is_int l).
  change (forallb (fun x => pytype_eqb (type_of x) TInt) l)
    with (forallb is_int l).
  destruct (existsb is_float l); [destruct (forallb is_number l); reflexivity|].
  destruct (existsb is_int l); [destruct (forallb is_int l); reflexivity|].
  reflexivity.
Qed.

(** The float formatter accepts every number. *)
Lemma liberty_float_numbers (l : list value) :
  forallb is_number l = true ->
  exists parts, mapM liberty_float l = Ok parts
                /\ Forall2 (fun x p => liberty_float x = Ok p) l parts.
Proof.
  induction l as [|x l IH]; intros H.
  - exists []. split; [reflexivity | constructor].
  - cbn [forallb] in H. apply andb_true_iff in H as [Hx Hl].
    destruct (IH Hl) as (parts & Hm & HF).
    assert (Hp : exists p, liberty_float x = Ok p).
    { destruct x; try discriminate Hx.
      - eexists. apply liberty_float_of_int.
      - apply liberty_float_of_float. }
    destruct Hp as [p Hp]. exists (p :: parts).
    split; [|constructor; assumption].
    cbn [mapM]. rewrite Hp. cbn [bind]. rewrite Hm. reflexivity.
Qed.

Lemma forallb_is_int_map (zs : list Z) : forallb is_int (map VInt zs) = true.
Proof. induction zs; simpl; auto. Qed.

Lemma existsb_is_float_ints (zs : list Z) : existsb is_float (map VInt zs) = false.
Proof. induction zs; simpl; auto. Qed.

Lemma liberty_join_ints (zs : list Z) :
  zs <> [] -> liberty_join (map VInt zs) = Ok JoinInt.
Proof.
  intros Hne. rewrite liberty_join_cases, existsb_is_float_ints, forallb_is_int_map.
  destruct zs; [congruence | reflexivity].
Qed.

(** C8. The joiner tells three cases by the kinds of the elements: with a
    float among them all must be floats or ints, and then each element is
    rendered by the float formatter; with ints only they are rendered as
    plain integers, comma separated; anything else is an error. *)
Theorem liberty_join_homogeneity :
  (forall l,
      liberty_join l
      = if existsb is_float l
        then (if forallb is_number l then Ok JoinFloat else Err AssertionError)
        else if existsb is_int l
             then (if forallb is_int l then Ok JoinInt else Err AssertionError)
             else Err ValueError)
  /\ (forall l,
         existsb is_float l = true -> forallb is_number l = true ->
         exists parts,
           Forall2 (fun x p => liberty_float x = Ok p) l parts
           /\ (j <- liberty_join l ;; run_join j (VList l))
              = Ok (PyStr.join ", " parts))
  /\ (forall zs,
         zs <> [] ->
         (j <- liberty_join (map VInt zs) ;; run_join j (VList (map VInt zs)))
         = Ok (PyStr.join ", " (map PyText.int_str zs))).
Proof.
  split; [exact liberty_join_cases|]. split.
  - intros l Hf Hn. destruct (liberty_float_numbers l Hn) as (parts & Hm & HF).
    exists parts. split; [exact HF|].
    rewrite liberty_join_cases, Hf, Hn. cbn [bind run_join py_iter].
    rewrite Hm. reflexivity.
  - intros zs Hne. rewrite (liberty_join_ints zs Hne).
    cbn [bind run_join py_iter]. rewrite map_map. reflexivity.
Qed.

Lemma liberty_join_homogeneity_witness :
  (exists parts,
      Forall2 (fun x p => liberty_float x = Ok p)
        [VInt 5; flt 1 1; VInt 10] parts
      /\ (j <- liberty_join [VInt 5; flt 1 1; VInt 10] ;;
          run_join j (VList [VInt 5; flt 1 1; VInt 10]))
         = Ok (PyStr.join ", " parts))
  /\ (j <- liberty_join (map VInt [1; 5; 8]%Z) ;;
      run_join j (VList (map VInt [1; 5; 8]%Z)))
     = Ok (PyStr.join ", " (map PyText.int_str [1; 5; 8]%Z)).
Proof.
  split.
  - apply (proj1 (proj2 liberty_join_homogeneity)); reflexivity.
  - apply (proj2 (proj2 liberty_join_homogeneity)). discriminate.
Defined.

(** ** Multi-line list blocks *)

Lemma liberty_float_error (v : value) (e : exn) :
  liberty_float v = Err e -> e = ValueError.
Proof.
  unfold liberty_float, liberty_float_text.
  destruct (PyStr.has_char "e" _).
  - destruct (PyText.split_char "e" _) as [|a [|b [|? ?]]]; congruence.
  - destruct (PyStr.has_char "." _); discriminate.
Qed.

Lemma mapM_error {A B : Type} (f : A -> result B) (l : list A) (e e0 : exn) :
  (forall x e', In x l -> f x = Err e' -> e' = e0) ->
  mapM f l = Err e -> e = e0.
Proof.
  induction l as [|x l IH]; intros Hf; [discriminate|].
  cbn [mapM]. destruct (f x) eqn:Hx; cbn [bind].
  - destruct (mapM f l); cbn [bind]; [discriminate|].
    intros [= <-]. apply IH; [|reflexivity].
    intros y e' Hy. apply Hf. now right.
  - intros [= <-]. apply (Hf x); [now left | exact Hx].
Qed.

Lemma mapM_ok_length {A B : Type} (f : A -> result B) (l : list A) :
  (forall x, In x l -> exists y, f x = Ok y) ->
  exists ys, mapM f l = Ok ys /\ List.length ys = List.length l.
Proof.
  induction l as [|x l IH]; intros Hf.
  - exists []. now split.
  - destruct (Hf x) as [y Hy]; [now left|].
    destruct IH as (ys & Hys & Hlen); [intros z Hz; apply Hf; now right|].
    exists (y :: ys).
    cbn [mapM]. rewrite Hy. cbn [bind]. rewrite Hys. cbn [bind List.length].
    split; congruence.
Qed.

Lemma in_rows (x : value) (first : list value) (rows : list (list value)) :
  In x (VList first :: map VList rows) -> exists r, x = VList r.
Proof.
  intros [<-|Hin]; [now exists first|].
  apply in_map_iff in Hin as (r & <- & _). now exists r.
Qed.

Lemma update_last_length (f : string -> string) (o : list string) :
  List.length (update_last f o) = List.length o.
Proof.
  induction o as [|x [|y o] IH]; [reflexivity | reflexivity |].
  change (update_last f (x :: y :: o)) with (x :: update_last f (y :: o)).
  cbn [List.length] in *. now rewrite IH.
Qed.

(** ** The attribute ordering key *)

Lemma all_digits_uint (d : Decimal.uint) :
  AttrOrder.all_digits (NilEmpty.string_of_uint d) = true.
Proof. induction d; simpl; auto. Qed.

Lemma to_uint_nonnil (n : N) : N.to_uint n <> Decimal.Nil.
Proof.
  destruct n as [|p]; [discriminate|].
  apply DecimalPos.Unsigned.to_uint_nonnil.
Qed.

Lemma decimal_eq (n : N) :
  PyText.decimal n = NilEmpty.string_of_uint (N.to_uint n).
Proof.
  unfold PyText.decimal. pose proof (to_uint_nonnil n) as Hn.
  now destruct (N.to_uint n).
Qed.

Lemma all_digits_decimal (n : N) : AttrOrder.all_digits (PyText.decimal n) = true.
Proof. rewrite decimal_eq. apply all_digits_uint. Qed.

Lemma decimal_nonempty (n : N) : PyText.decimal n <> "".
Proof.
  rewrite decimal_eq. pose proof (to_uint_nonnil n) as Hn.
  destruct (N.to_uint n); simpl; congruence.
Qed.

Lemma float_of_decimal (n : N) :
  AttrOrder.float_of_digits (PyText.decimal n) = Ok (AttrOrder.float_of_N n).
Proof.
  unfold AttrOrder.float_of_digits, PyText.decimal.
  rewrite NilZero.usu by apply to_uint_nonnil.
  now rewrite DecimalN.Unsigned.of_to.
Qed.

(** Below [2^53] the conversion to a float is exact. *)
Lemma float_of_N_exact (n : N) :
  (n < 2 ^ 53)%N -> AttrOrder.float_of_N n = AttrOrder.FK n.
Proof.
  intros Hn. unfold AttrOrder.float_of_N.
  destruct (N.leb_spec (N.size n) 53) as [Hle|Hgt]; [reflexivity|].
  exfalso. pose proof (N.size_le n) as Hs.
  assert (H54 : (2 ^ 54 <= 2 ^ N.size n)%N) by (apply N.pow_le_mono_r; lia).
  rewrite N.succ_double_spec in Hs.
  change (2 ^ 54)%N with (2 * 2 ^ 53)%N in H54. lia.
Qed.

Lemma has_char_all_digits (c : ascii) (s : string) :
  AttrOrder.is_digit c = false -> AttrOrder.all_digits s = true ->
  PyStr.has_char c s = false.
Proof.
  intros Hc. induction s as [|a s IH]; [reflexivity|].
  cbn [AttrOrder.all_digits PyStr.has_char]. intros H.
  apply andb_true_iff in H as [Ha Hs]. rewrite (IH Hs), orb_false_r.
  apply Ascii.eqb_neq. intros ->. congruence.
Qed.

Lemma take_digits_all (s : string) :
  AttrOrder.all_digits s = true -> AttrOrder.take_digits s = s.
Proof.
  induction s as [|a s IH]; [reflexivity|].
  cbn [AttrOrder.all_digits AttrOrder.take_digits]. intros H.
  apply andb_true_iff in H as [Ha Hs]. now rewrite Ha, IH.
Qed.

(** A run of digits alone holds no underscore to match at. *)
Lemma re_liberty_list_digits (s : string) :
  AttrOrder.all_digits s = true -> AttrOrder.re_liberty_list s = None.
Proof.
  induction s as [|a s IH]; [reflexivity|].
  cbn [AttrOrder.all_digits AttrOrder.re_liberty_list]. intros H.
  apply andb_true_iff in H as [Ha Hs]. rewrite (IH Hs).
  assert (Hn : Ascii.eqb a AttrOrder.newline = false)
    by (apply Ascii.eqb_neq; intros ->; discriminate Ha).
  assert (Hu : Ascii.eqb a "_" = false)
    by (apply Ascii.eqb_neq; intros ->; discriminate Ha).
  now rewrite Hn, Hu.
Qed.

(** The match splits an indexed name at its last underscore. *)
Lemma re_liberty_list_indexed (base ds : string) :
  PyStr.has_char AttrOrder.newline base = false ->
  AttrOrder.all_digits ds = true -> ds <> "" ->
  AttrOrder.re_liberty_list (base ++ "_" ++ ds) = Some (base, ds).
Proof.
  intros Hb Hd Hne. change ("_" ++ ds) with (String "_" ds).
  induction base as [|a base IH].
  - cbn [append AttrOrder.re_liberty_list].
    rewrite (re_liberty_list_digits ds Hd), (take_digits_all ds Hd).
    change (Ascii.eqb "_" AttrOrder.newline) with false.
    change (Ascii.eqb "_" "_") with true. cbv iota.
    destruct ds; congruence.
  - cbn [PyStr.has_char] in Hb. apply orb_false_iff in Hb as [Ha Hb].
    cbn [append AttrOrder.re_liberty_list]. now rewrite Ha, (IH Hb).
Qed.

Lemma fkey_ltb_irrefl (a : AttrOrder.fkey) : AttrOrder.fkey_ltb a a = false.
Proof. destruct a; simpl; [apply N.ltb_irrefl | reflexivity]. Qed.

Lemma fkey_eqb_refl (a : AttrOrder.fkey) : AttrOrder.fkey_eqb a a = true.
Proof. destruct a; simpl; [apply N.eqb_refl | reflexivity]. Qed.

Lemma liberty_attribute_order_indexed (base : string) (n : N) :
  PyStr.has_char ":" base = false ->
  PyStr.has_char AttrOrder.newline base = false ->
  AttrOrder.liberty_attribute_order (base ++ "_" ++ PyText.decimal n)
  = Ok (match AttrOrder.truthy (AttrOrder._lookup_attribute_pos base) with
        | Some i => i
        | None => AttrOrder.FKInf
        end, AttrOrder.float_of_N n).
Proof.
  intros Hc Hn. unfold AttrOrder.liberty_attribute_order.
  assert (Hcolon : PyStr.has_char ":" (base ++ "_" ++ PyText.decimal n) = false).
  { rewrite !has_char_app, Hc.
    rewrite (has_char_all_digits ":" _ eq_refl (all_digits_decimal n)).
    reflexivity. }
  rewrite Hcolon. cbn [negb py_assert bind].
  rewrite (re_liberty_list_indexed base _ Hn (all_digits_decimal n)
             (decimal_nonempty n)).
  rewrite float_of_decimal. reflexivity.
Qed.

(** C3, as stated, fails: a base name with a colon is refused, past
    [2^53] two suffixes meet in one float, and a base name holding a
    newline is not matched as an indexed name at all. *)
Lemma indexed_order_fails_outside_domain :
  ~ (forall (base : string) (m n : N),
        (0 < m)%N -> (m < n)%N ->
        exists i,
          AttrOrder.liberty_attribute_order (base ++ "_" ++ PyText.decimal m)
          = Ok (i, AttrOrder.FK m)
          /\ AttrOrder.liberty_attribute_order (base ++ "_" ++ PyText.decimal n)
             = Ok (i, AttrOrder.FK n)
          /\ AttrOrder.key_ltb (i, AttrOrder.FK m) (i, AttrOrder.FK n) = true)
  /\ AttrOrder.liberty_attribute_order "a:b_1" = Err AssertionError
  /\ AttrOrder.liberty_attribute_order "index_9007199254740993"
     = AttrOrder.liberty_attribute_order "index_9007199254740992"
  /\ AttrOrder.liberty_attribute_order ("a" ++ String AttrOrder.newline "b_1")
     = AttrOrder.liberty_attribute_order ("a" ++ String AttrOrder.newline "b_2").
Proof.
  split; [|repeat split; vm_compute; reflexivity].
  intros H. destruct (H "a:b" 1%N 2%N) as (i & H1 & _); try reflexivity.
  vm_compute in H1. discriminate H1.
Qed.

(** C3, amended. For a base name with no colon and no newline and for
    [m < n < 2^53], the names base_m and base_n get keys with the same
    primary component and the secondary components [m] and [n], so the
    first key is strictly below the second. *)
Theorem indexed_attributes_sort_numerically (base : string) (m n : N) :
  PyStr.has_char ":" base = false ->
  PyStr.has_char AttrOrder.newline base = false ->
  (m < n)%N -> (n < 2 ^ 53)%N ->
  exists i,
    AttrOrder.liberty_attribute_order (base ++ "_" ++ PyText.decimal m)
    = Ok (i, AttrOrder.FK m)
    /\ AttrOrder.liberty_attribute_order (base ++ "_" ++ PyText.decimal n)
       = Ok (i, AttrOrder.FK n)
    /\ AttrOrder.key_ltb (i, AttrOrder.FK m) (i, AttrOrder.FK n) = true.
Proof.
  intros Hc Hnl Hmn Hn. eexists. split; [|split].
  - rewrite (liberty_attribute_order_indexed base m Hc Hnl).
    rewrite float_of_N_exact by lia. reflexivity.
  - rewrite (liberty_attribute_order_indexed base n Hc Hnl).
    rewrite float_of_N_exact by lia. reflexivity.
  - unfold AttrOrder.key_ltb. cbn [fst snd].
    rewrite fkey_ltb_irrefl, fkey_eqb_refl. cbn [orb andb AttrOrder.fkey_ltb].
    now apply N.ltb_lt.
Qed.

Lemma indexed_attributes_sort_numerically_witness :
  exists i,
    AttrOrder.liberty_attribute_order "index_2" = Ok (i, AttrOrder.FK 2)
    /\ AttrOrder.liberty_attribute_order "index_10" = Ok (i, AttrOrder.FK 10)
    /\ AttrOrder.key_ltb (i, AttrOrder.FK 2) (i, AttrOrder.FK 10) = true.
Proof.
  apply (indexed_attributes_sort_numerically "index" 2 10); reflexivity.
Defined.

(** ** Dictionaries *)

Lemma dict_has_get (k : string) (d : dict) :
  dict_has k d = false <-> dict_get k d = None.
Proof. unfold dict_has. destruct (dict_get k d); split; congruence. Qed.

Lemma dict_get_app (k : string) (a b : dict) :
  dict_get k (a ++ b)%list
  = match dict_get k a with Some v => Some v | None => dict_get k b end.
Proof.
  induction a as [|[k' v'] a IH]; [reflexivity|].
  cbn [app dict_get]. destruct (k' =? k); [reflexivity | exact IH].
Qed.

Lemma dict_has_app (k : string) (a b : dict) :
  dict_has k (a ++ b)%list = dict_has k a || dict_has k b.
Proof.
  unfold dict_has. rewrite dict_get_app. now destruct (dict_get k a).
Qed.

Lemma dict_has_cons (k k' : string) (v : value) (d : dict) :
  dict_has k ((k', v) :: d) = (k' =? k) || dict_has k d.
Proof. unfold dict_has. cbn [dict_get]. now destruct (k' =? k). Qed.

Lemma dict_get_set_same (k : string) (v : value) (d : dict) :
  dict_get k (dict_set k v d) = Some v.
Proof.
  induction d as [|[k' v'] d IH]; cbn [dict_set dict_get].
  - now rewrite String.eqb_refl.
  - destruct (k' =? k) eqn:E; cbn [dict_get].
    + now rewrite String.eqb_refl.
    + now rewrite E.
Qed.

Lemma dict_get_set_other (k k' : string) (v : value) (d : dict) :
  k <> k' -> dict_get k' (dict_set k v d) = dict_get k' d.
Proof.
  intros Hne. induction d as [|[k0 v0] d IH]; cbn [dict_set dict_get].
  - apply String.eqb_neq in Hne. now rewrite Hne.
  - destruct (String.eqb_spec k0 k) as [->|Hk0]; cbn [dict_get].
    + apply String.eqb_neq in Hne. now rewrite Hne.
    + now rewrite IH.
Qed.

Lemma dict_set_fresh (k : string) (v : value) (d : dict) :
  dict_has k d = false -> dict_set k v d = (d ++ [(k, v)])%list.
Proof.
  induction d as [|[k' v'] d IH]; [reflexivity|].
  rewrite dict_has_cons. intros H. apply orb_false_iff in H as [Hk Hd].
  cbn [dict_set app]. now rewrite Hk, (IH Hd).
Qed.

Lemma dict_set_app_hit (k : string) (v v0 : value) (a b : dict) :
  dict_has k a = false ->
  dict_set k v (a ++ (k, v0) :: b)%list = (a ++ (k, v) :: b)%list.
Proof.
  induction a as [|[k' v'] a IH]; cbn [app dict_set].
  - now rewrite String.eqb_refl.
  - rewrite dict_has_cons. intros H. apply orb_false_iff in H as [Hk Ha].
    now rewrite Hk, (IH Ha).
Qed.

Lemma dict_del_fresh (k : string) (d : dict) :
  dict_has k d = false -> dict_del k d = d.
Proof.
  induction d as [|[k' v'] d IH]; [reflexivity|].
  rewrite dict_has_cons. intros H. apply orb_false_iff in H as [Hk Hd].
  unfold dict_del in *. cbn [filter fst]. now rewrite Hk, (IH Hd).
Qed.

Lemma dict_del_app_hit (k : string) (v0 : value) (a b : dict) :
  dict_has k a = false -> dict_has k b = false ->
  dict_del k (a ++ (k, v0) :: b)%list = (a ++ b)%list.
Proof.
  intros Ha Hb. unfold dict_del. rewrite filter_app. cbn [filter fst].
  rewrite String.eqb_refl. cbn [negb].
  fold (dict_del k a). fold (dict_del k b).
  now rewrite (dict_del_fresh k a Ha), (dict_del_fresh k b Hb).
Qed.

(** ** The merge of the top record over the common record *)

Lemma load_common_ok (items acc : dict) :
  unique_keys items = true ->
  forallb (fun kv => negb (dict_has (fst kv) acc)) items = true ->
  load_common items acc = Ok (acc ++ items)%list.
Proof.
  revert acc. induction items as [|[k v] r IH]; intros acc Hu Hd.
  - cbn [load_common]. now rewrite app_nil_r.
  - cbn [unique_keys] in Hu. apply andb_true_iff in Hu as [Hk Hu].
    cbn [forallb fst] in Hd. apply andb_true_iff in Hd as [Hka Hd].
    cbn [load_common]. rewrite Hka. cbn [py_assert bind].
    apply negb_true_iff in Hka. rewrite (dict_set_fresh k v acc Hka).
    rewrite IH; [now rewrite <- app_assoc | exact Hu |].
    apply forallb_forall. intros [k' v'] Hin. cbn [fst].
    rewrite forallb_forall in Hd. specialize (Hd _ Hin). cbn [fst] in Hd.
    rewrite dict_has_app, dict_has_cons.
    apply negb_true_iff in Hd. rewrite Hd. cbn [orb dict_has dict_get].
    rewrite orb_false_r. apply negb_true_iff.
    destruct (String.eqb_spec k k') as [->|]; [|reflexivity].
    apply negb_true_iff in Hk. unfold dict_has in Hk.
    clear -Hin Hk. induction r as [|[k0 v0] r IH]; [destruct Hin|].
    cbn [dict_get] in Hk. destruct Hin as [[= -> ->]|Hin].
    + now rewrite String.eqb_refl in Hk.
    + destruct (k0 =? k'); [discriminate | now apply IH].
Qed.

Lemma merge_top_get (k : string) (items common : dict) (log : list overwrite) :
  unique_keys items = true ->
  dict_get k (fst (merge_top items common log))
  = match dict_get k items with
    | Some v => Some v
    | None => dict_get k common
    end.
Proof.
  revert common log. induction items as [|[k0 v0] r IH]; intros common log Hu.
  - reflexivity.
  - cbn [unique_keys] in Hu. apply andb_true_iff in Hu as [Hk Hu].
    apply negb_true_iff, dict_has_get in Hk.
    cbn [merge_top dict_get]. rewrite (IH _ _ Hu).
    destruct (String.eqb_spec k0 k) as [->|Hne].
    + now rewrite Hk, dict_get_set_same.
    + now rewrite (dict_get_set_other k0 k v0 common Hne).
Qed.

Lemma merge_top_log (items common : dict) (log : list overwrite) :
  unique_keys items = true ->
  snd (merge_top items common log) = (log ++ overwrites_of items common)%list.
Proof.
  revert common log. induction items as [|[k0 v0] r IH]; intros common log Hu.
  - cbn. now rewrite app_nil_r.
  - cbn [unique_keys] in Hu. apply andb_true_iff in Hu as [Hk Hu].
    apply negb_true_iff, dict_has_get in Hk.
    cbn [merge_top]. rewrite (IH _ _ Hu).
    unfold overwrites_of. cbn [flat_map fst snd].
    assert (Hr : flat_map
                   (fun kv => match dict_get (fst kv) (dict_set k0 v0 common) with
                              | Some old => [Overwriting (fst kv) (snd kv) old]
                              | None => []
                              end) r
                 = flat_map
                     (fun kv => match dict_get (fst kv) common with
                                | Some old => [Overwriting (fst kv) (snd kv) old]
                                | None => []
                                end) r).
    { clear IH Hu. induction r as [|[k1 v1] r IHr]; [reflexivity|].
      cbn [dict_get] in Hk. cbn [flat_map fst snd].
      destruct (String.eqb_spec k1 k0) as [->|Hne]; [discriminate|].
      rewrite (IHr Hk).
      rewrite (dict_get_set_other k0 k1 v0 common) by congruence.
      reflexivity. }
    rewrite Hr. destruct (dict_get k0 common); [|reflexivity].
    now rewrite <- app_assoc.
Qed.

(** C7. With the two record files in place, the merge step of [generate]
    always returns: the merged record gives each key of the top record the
    top record's value and each other key the common record's value, and
    one overwrite line is reported for each key held by both. *)
Theorem merge_top_over_common
    (fs : string -> option value) (lib corner : string)
    (icorner_type : TimingType.t) (common top : dict) :
  TimingType.singular icorner_type = true ->
  fs ("timing/" ++ lib ++ "__common.lib.json") = Some (VDict common) ->
  fs ("timing/" ++ lib ++ "__" ++ corner ++ TimingType.file icorner_type
      ++ ".lib.json") = Some (VDict top) ->
  unique_keys common = true ->
  unique_keys top = true ->
  exists merged,
    load_merged fs lib corner icorner_type
    = Ok (merged, overwrites_of top common)
    /\ (forall k,
           dict_get k merged
           = match dict_get k top with
             | Some v => Some v
             | None => dict_get k common
             end)
    /\ (forall k, dict_has k top = true -> dict_has k common = true ->
                  In k (map ow_key (overwrites_of top common))).
Proof.
  intros Hs Hc Ht Huc Hut.
  exists (fst (merge_top top common [])). split; [|split].
  - unfold load_merged, load_dict, load_json, top_corner_file, assert_singular.
    rewrite Hc. cbn [bind].
    rewrite (load_common_ok common [] Huc)
      by (apply forallb_forall; intros; reflexivity).
    rewrite Hs. cbn [py_assert bind app]. rewrite Ht. cbn [bind].
    f_equal. rewrite (surjective_pairing (merge_top top common [])).
    f_equal. now rewrite merge_top_log.
  - intros k. now apply merge_top_get.
  - intros k Hkt Hkc. unfold overwrites_of, dict_has in *.
    clear -Hkt Hkc. induction top as [|[k0 v0] r IH]; [discriminate|].
    cbn [dict_get] in Hkt. cbn [flat_map fst snd]. rewrite map_app.
    apply in_or_app.
    destruct (String.eqb_spec k0 k) as [->|Hne].
    + left. destruct (dict_get k common); [now left | discriminate].
    + right. now apply IH.
Qed.

(** ** Stripping the ccsnoise data *)

Lemma dict_has_in (k : string) (d : dict) :
  dict_has k d = true <-> In k (keys d).
Proof.
  induction d as [|[k' v'] d IH]; [split; [discriminate | intros []]|].
  rewrite dict_has_cons. cbn [keys map fst In]. fold (keys d).
  rewrite orb_true_iff, IH, String.eqb_eq. reflexivity.
Qed.

Lemma unique_keys_NoDup (d : dict) : unique_keys d = true -> NoDup (keys d).
Proof.
  induction d as [|[k v] d IH]; intros H; [constructor|].
  cbn [unique_keys] in H. apply andb_true_iff in H as [Hk Hu].
  cbn [keys map fst]. constructor; [|now apply IH].
  intros Hin. apply dict_has_in in Hin. now rewrite Hin in Hk.
Qed.

(** Looking a key up after a filter on keys. *)
Lemma dict_get_filter (p : string -> bool) (k : string) (d : dict) :
  dict_get k (filter (fun kv => p (fst kv)) d)
  = if p k then dict_get k d else None.
Proof.
  induction d as [|[k' v'] d IH]; [now destruct (p k)|].
  cbn [filter fst]. destruct (p k') eqn:Hp'; cbn [dict_get];
    destruct (String.eqb_spec k' k) as [E|E]; subst;
    rewrite ?IH, ?Hp'; reflexivity.
Qed.

Lemma dict_has_filter (p : string -> bool) (k : string) (d : dict) :
  dict_has k (filter (fun kv => p (fst kv)) d) = p k && dict_has k d.
Proof. unfold dict_has. rewrite dict_get_filter. now destruct (p k). Qed.

Lemma unique_keys_filter (p : string -> bool) (d : dict) :
  unique_keys d = true -> unique_keys (filter (fun kv => p (fst kv)) d) = true.
Proof.
  induction d as [|[k v] d IH]; intros H; [reflexivity|].
  cbn [unique_keys] in H. apply andb_true_iff in H as [Hk Hu].
  cbn [filter fst]. destruct (p k); [|now apply IH].
  cbn [unique_keys]. rewrite (IH Hu), dict_has_filter.
  apply negb_true_iff in Hk. rewrite Hk. now rewrite andb_false_r.
Qed.

Lemma ccsn_keys_of_strs (ks : list string) :
  ccsn_keys_of (map VStr ks)
  = Ok (filter (fun k => PyStr.startswith k "ccsn_") ks).
Proof.
  induction ks as [|k ks IH]; [reflexivity|].
  cbn [map ccsn_keys_of filter]. rewrite IH. cbn [bind].
  now destruct (PyStr.startswith k "ccsn_").
Qed.

(** Deleting a set of present keys one after the other. *)
Lemma delete_keys (ks : list string) (d : dict) :
  NoDup ks -> (forall k, In k ks -> dict_has k d = true) ->
  fold_left (fun acc pk => c' <- acc ;; py_delitem c' pk) ks (Ok (VDict d))
  = Ok (VDict (filter (fun kv => negb (existsb (String.eqb (fst kv)) ks)) d)).
Proof.
  revert d. induction ks as [|k ks IH]; intros d Hnd Hin.
  - cbn [fold_left]. do 2 f_equal.
    clear. induction d as [|kv d IHd]; simpl in *; congruence.
  - inversion Hnd as [|? ? Hk Hnd']; subst.
    cbn [fold_left bind py_delitem]. rewrite (Hin k) by now left.
    rewrite IH; [|exact Hnd'|].
    + do 2 f_equal. unfold dict_del. clear.
      induction d as [|[k' v'] d IHd]; [reflexivity|].
      cbn [filter fst existsb].
      destruct (k' =? k); cbn [negb orb filter fst]; now rewrite IHd.
    + intros k' Hk'. unfold dict_del.
      rewrite (dict_has_filter (fun x => negb (x =? k))), (Hin k') by now right.
      rewrite andb_true_r. apply negb_true_iff, String.eqb_neq.
      intros ->. contradiction.
Qed.

Lemma strip_ccsn_keys_dict (d : dict) :
  unique_keys d = true ->
  strip_ccsn_keys (VDict d) = Ok (VDict (without_ccsn d)).
Proof.
  intros Hu. unfold strip_ccsn_keys. cbn [py_iter bind].
  rewrite ccsn_keys_of_strs. cbn [bind].
  assert (Hnd : NoDup (filter (fun k => PyStr.startswith k "ccsn_") (keys d)))
    by (apply NoDup_filter, unique_keys_NoDup, Hu).
  rewrite (nodup_fixed_point string_dec Hnd).
  rewrite delete_keys; [|exact Hnd|].
  - do 2 f_equal. unfold without_ccsn. apply filter_ext_in.
    intros [k v] Hkv. cbn [fst]. f_equal.
    destruct (PyStr.startswith k "ccsn_") eqn:Hsw.
    + apply existsb_exists. exists k. split; [|apply String.eqb_refl].
      apply filter_In. split; [|exact Hsw].
      apply in_map_iff. now exists (k, v).
    + destruct (existsb _ _) eqn:He; [|reflexivity].
      apply existsb_exists in He as (x & Hx & Heq).
      apply String.eqb_eq in Heq. subst x.
      apply filter_In in Hx as [_ Hx]. congruence.
  - intros k Hk. apply filter_In in Hk as [Hk _]. now apply dict_has_in.
Qed.

Lemma strip_timing_list (ts : list value) :
  forallb shaped_timing ts = true ->
  mapM strip_ccsn_keys ts = Ok (map stripped_timing ts).
Proof.
  induction ts as [|t ts IH]; intros H; [reflexivity|].
  cbn [forallb] in H. apply andb_true_iff in H as [Ht Hts].
  destruct t; try discriminate Ht. cbn [shaped_timing] in Ht.
  cbn [mapM map stripped_timing]. rewrite (strip_ccsn_keys_dict _ Ht).
  cbn [bind]. now rewrite (IH Hts).
Qed.

Lemma map_timing_absent (d : dict) :
  dict_has "timing" d = false -> map stripped_timing_entry d = d.
Proof.
  induction d as [|[k v] d IH]; [reflexivity|].
  rewrite dict_has_cons. intros H. apply orb_false_iff in H as [Hk Hd].
  cbn [map]. unfold stripped_timing_entry at 1. cbn [fst].
  now rewrite Hk, (IH Hd).
Qed.

Lemma set_timing_as_map (d : dict) (ts : list value) :
  unique_keys d = true -> dict_get "timing" d = Some (VList ts) ->
  dict_set "timing" (VList (map stripped_timing ts)) d
  = map stripped_timing_entry d.
Proof.
  induction d as [|[k v] d IH]; intros Hu Hg; [discriminate|].
  cbn [unique_keys] in Hu. apply andb_true_iff in Hu as [Hk Hu].
  cbn [dict_get] in Hg. cbn [dict_set map].
  unfold stripped_timing_entry at 1. cbn [fst snd].
  destruct (String.eqb_spec k "timing") as [->|Hne].
  - injection Hg as ->. f_equal. symmetry. apply map_timing_absent.
    now apply negb_true_iff in Hk.
  - now rewrite (IH Hu Hg).
Qed.

Lemma strip_pin_shaped (v : value) :
  shaped_pin v = true ->
  exists pd, v = VDict pd /\ strip_pin v = Ok (VDict (stripped_pin pd)).
Proof.
  destruct v as [| | | | |l|pd]; try discriminate. cbn [shaped_pin].
  intros H. apply andb_true_iff in H as [Hu Ht].
  exists pd. split; [reflexivity|].
  unfold strip_pin. cbn [py_contains bind].
  assert (H1 : (if dict_has "input_voltage" pd
                then py_delitem (VDict pd) "input_voltage"
                else Ok (VDict pd))
               = Ok (VDict (dict_del "input_voltage" pd))).
  { cbn [py_delitem]. destruct (dict_has "input_voltage" pd) eqn:E;
      [reflexivity|]. now rewrite dict_del_fresh. }
  rewrite H1. cbn [bind].
  assert (Hu1 : unique_keys (dict_del "input_voltage" pd) = true)
    by (apply (unique_keys_filter (fun x => negb (x =? "input_voltage"))), Hu).
  rewrite (strip_ccsn_keys_dict _ Hu1). cbn [bind py_contains].
  set (pd2 := without_ccsn (dict_del "input_voltage" pd)).
  assert (Hu2 : unique_keys pd2 = true)
    by (apply (unique_keys_filter
                 (fun x => negb (PyStr.startswith x "ccsn_"))), Hu1).
  assert (Hg : dict_get "timing" pd2 = dict_get "timing" pd).
  { subst pd2. unfold without_ccsn, dict_del.
    rewrite (dict_get_filter (fun x => negb (PyStr.startswith x "ccsn_"))).
    rewrite (dict_get_filter (fun x => negb (x =? "input_voltage"))).
    reflexivity. }
  unfold stripped_pin. fold pd2.
  unfold dict_has. rewrite Hg.
  destruct (dict_get "timing" pd) as [t|] eqn:Eg.
  - destruct t as [| | | | |ts|]; try discriminate Ht.
    cbn [negb py_getitem]. rewrite Hg. cbn [bind py_iter].
    rewrite (strip_timing_list ts Ht). cbn [bind].
    now rewrite (set_timing_as_map pd2 ts Hu2 Hg).
  - cbn [negb]. rewrite map_timing_absent; [reflexivity|].
    now apply dict_has_get.
Qed.

Lemma remove_loop_shaped (items done : dict) :
  unique_keys items = true ->
  forallb (fun kv => negb (dict_has (fst kv) done)) items = true ->
  forallb shaped_item items = true ->
  remove_loop items (done ++ items)%list
  = Ok (done ++ stripped_record items)%list.
Proof.
  revert done. induction items as [|[k v] r IH]; intros done Hu Hd Hs.
  - reflexivity.
  - cbn [unique_keys] in Hu. apply andb_true_iff in Hu as [Hk Hu].
    apply negb_true_iff in Hk.
    cbn [forallb fst] in Hd. apply andb_true_iff in Hd as [Hkd Hd].
    apply negb_true_iff in Hkd.
    cbn [forallb] in Hs. apply andb_true_iff in Hs as [Hsk Hs].
    unfold shaped_item in Hsk. cbn [fst snd] in Hsk.
    assert (Hnext : forall v' : value,
               forallb (fun kv => negb (dict_has (fst kv)
                                          (done ++ [(k, v')])%list)) r = true).
    { intros v'. apply forallb_forall. intros [k' w] Hin. cbn [fst].
      rewrite forallb_forall in Hd. specialize (Hd _ Hin). cbn [fst] in Hd.
      apply negb_true_iff in Hd. rewrite dict_has_app, Hd, dict_has_cons.
      cbn [orb dict_has dict_get]. rewrite orb_false_r.
      apply negb_true_iff, String.eqb_neq. intros ->.
      assert (Hin' : In k' (keys r)) by (apply in_map_iff; now exists (k', w)).
      apply dict_has_in in Hin'. congruence. }
    cbn [remove_loop stripped_record flat_map fst snd].
    fold (stripped_record r).
    destruct (PyStr.contains k "ccsn_").
    + rewrite (dict_del_app_hit k v done r Hkd Hk). cbn [app].
      now apply IH.
    + destruct (PyStr.startswith k "pin "); cbn [negb].
      * cbn [py_getitem]. rewrite dict_get_app.
        apply dict_has_get in Hkd. rewrite Hkd. cbn [dict_get].
        rewrite String.eqb_refl. cbn [bind].
        destruct (strip_pin_shaped v Hsk) as (pd & -> & Hp).
        rewrite Hp. cbn [bind].
        apply dict_has_get in Hkd.
        rewrite (dict_set_app_hit k _ (VDict pd) done r Hkd).
        change (done ++ (k, VDict (stripped_pin pd)) :: r)%list
          with (done ++ [(k, VDict (stripped_pin pd))] ++ r)%list.
        rewrite app_assoc, (IH _ Hu (Hnext _) Hs), <- app_assoc.
        reflexivity.
      * change (done ++ (k, v) :: r)%list with (done ++ [(k, v)] ++ r)%list.
        rewrite app_assoc, (IH _ Hu (Hnext _) Hs), <- app_assoc.
        reflexivity.
Qed.

(** On a well-shaped record the loop computes the expected record. *)
Lemma remove_ccsnoise_shaped (d : dict) :
  shaped_record d = true ->
  remove_ccsnoise (VDict d) = Ok (VDict (stripped_record d)).
Proof.
  intros H. apply andb_true_iff in H as [Hu Hs].
  cbn [remove_ccsnoise].
  pose proof (remove_loop_shaped d [] Hu) as Hl. cbn [app] in Hl.
  rewrite Hl; [reflexivity | | exact Hs].
  apply forallb_forall. intros; reflexivity.
Qed.

Lemma stripped_record_cons (k : string) (v : value) (d : dict) :
  stripped_record ((k, v) :: d)
  = ((if PyStr.contains k "ccsn_" then []
      else if PyStr.startswith k "pin "
           then [(k, match v with
                     | VDict pd => VDict (stripped_pin pd)
                     | _ => v
                     end)]
           else [(k, v)]) ++ stripped_record d)%list.
Proof. reflexivity. Qed.

Lemma dict_get_stripped_record (k : string) (d : dict) :
  dict_get k (stripped_record d)
  = if PyStr.contains k "ccsn_" then None
    else if PyStr.startswith k "pin "
         then option_map (fun v => match v with
                                   | VDict pd => VDict (stripped_pin pd)
                                   | _ => v
                                   end) (dict_get k d)
         else dict_get k d.
Proof.
  induction d as [|[k' v'] d IH].
  - cbn. now destruct (PyStr.contains k "ccsn_"), (PyStr.startswith k "pin ").
  - rewrite stripped_record_cons. cbn [dict_get].
    destruct (String.eqb_spec k' k) as [->|Hne].
    + destruct (PyStr.contains k "ccsn_") eqn:Hc;
        [cbn [app]; exact IH|].
      destruct (PyStr.startswith k "pin "); cbn [app dict_get option_map];
        now rewrite String.eqb_refl.
    + apply String.eqb_neq in Hne.
      destruct (PyStr.contains k' "ccsn_"); [exact IH|].
      destruct (PyStr.startswith k' "pin "); cbn [app dict_get];
        now rewrite Hne, IH.
Qed.

Lemma dict_get_map_timing (k : string) (d : dict) :
  dict_get k (map stripped_timing_entry d)
  = if k =? "timing"
    then option_map (fun v => match v with
                              | VList ts => VList (map stripped_timing ts)
                              | _ => v
                              end) (dict_get k d)
    else dict_get k d.
Proof.
  induction d as [|[k' v'] d IH]; [now destruct (k =? "timing")|].
  cbn [map]. unfold stripped_timing_entry at 1. cbn [fst snd].
  destruct (String.eqb_spec k' "timing") as [->|Hne]; cbn [dict_get].
  - destruct (String.eqb_spec "timing" k) as [<-|Hk]; [reflexivity|].
    rewrite IH. reflexivity.
  - destruct (String.eqb_spec k' k) as [->|Hk].
    + apply String.eqb_neq in Hne. now rewrite Hne.
    + exact IH.
Qed.

Lemma dict_get_stripped_pin (pk : string) (pd : dict) :
  dict_get pk (stripped_pin pd)
  = if (pk =? "input_voltage") || PyStr.startswith pk "ccsn_" then None
    else if pk =? "timing"
         then option_map (fun v => match v with
                                   | VList ts => VList (map stripped_timing ts)
                                   | _ => v
                                   end) (dict_get pk pd)
         else dict_get pk pd.
Proof.
  unfold stripped_pin, without_ccsn, dict_del.
  rewrite dict_get_map_timing.
  rewrite (dict_get_filter (fun x => negb (PyStr.startswith x "ccsn_"))).
  rewrite (dict_get_filter (fun x => negb (x =? "input_voltage"))).
  destruct (pk =? "input_voltage"), (PyStr.startswith pk "ccsn_"),
    (pk =? "timing"); reflexivity.
Qed.

Lemma dict_get_without_ccsn (tk : string) (t : dict) :
  dict_get tk (without_ccsn t)
  = if PyStr.startswith tk "ccsn_" then None else dict_get tk t.
Proof.
  unfold without_ccsn.
  rewrite (dict_get_filter (fun x => negb (PyStr.startswith x "ccsn_"))).
  now destruct (PyStr.startswith tk "ccsn_").
Qed.

(** C2, as stated, fails: a top-level key that merely contains [ccsn_] is
    deleted although [ccsn_] is not its prefix; and a top-level
    [input_voltage] key is kept. *)
Lemma remove_ccsnoise_drops_infix_key :
  ~ (forall (d d' : dict) (k : string),
        remove_ccsnoise (VDict d) = Ok (VDict d') ->
        PyStr.startswith k "ccsn_" = false ->
        PyStr.startswith k "pin " = false ->
        k <> "input_voltage" ->
        dict_get k d' = dict_get k d)
  /\ remove_ccsnoise (VDict [("input_voltage", VStr "GENERAL")])
     = Ok (VDict [("input_voltage", VStr "GENERAL")]).
Proof.
  split; [|reflexivity].
  intros H.
  specialize (H [("lu_table_template ccsn_dc", VDict [])] []
                "lu_table_template ccsn_dc").
  discriminate H; try reflexivity. discriminate.
Qed.

(** C2, amended. On a well-shaped record stripping returns a record in
    which: no top-level key containing [ccsn_] is left; every other
    top-level key that does not begin with [pin ] keeps its value; every
    pin has lost [input_voltage] and its keys prefixed [ccsn_], keeps its
    other keys, and each mapping of its [timing] list has lost exactly its
    keys prefixed [ccsn_].  [generate] applies it whenever the output
    variant is not [ccsnoise]. *)
Theorem remove_ccsnoise_strips (d : dict) :
  shaped_record d = true ->
  exists d',
    remove_ccsnoise (VDict d) = Ok (VDict d')
    /\ (forall otype, otype <> TimingType.ccsnoise ->
                      strip_for otype (VDict d) = Ok (VDict d'))
    /\ (forall k, PyStr.contains k "ccsn_" = true -> dict_get k d' = None)
    /\ (forall k, PyStr.contains k "ccsn_" = false ->
                  PyStr.startswith k "pin " = false ->
                  dict_get k d' = dict_get k d)
    /\ (forall k pd,
           PyStr.contains k "ccsn_" = false ->
           PyStr.startswith k "pin " = true ->
           dict_get k d = Some (VDict pd) ->
           exists pd',
             dict_get k d' = Some (VDict pd')
             /\ dict_get "input_voltage" pd' = None
             /\ (forall pk, PyStr.startswith pk "ccsn_" = true ->
                            dict_get pk pd' = None)
             /\ (forall pk, PyStr.startswith pk "ccsn_" = false ->
                            pk <> "input_voltage" -> pk <> "timing" ->
                            dict_get pk pd' = dict_get pk pd)
             /\ (forall ts,
                    dict_get "timing" pd = Some (VList ts) ->
                    exists ts',
                      dict_get "timing" pd' = Some (VList ts')
                      /\ List.length ts' = List.length ts
                      /\ forall i t,
                           nth_error ts i = Some (VDict t) ->
                           exists t',
                             nth_error ts' i = Some (VDict t')
                             /\ forall tk,
                                  dict_get tk t'
                                  = if PyStr.startswith tk "ccsn_" then None
                                    else dict_get tk t)).
Proof.
  intros Hs. exists (stripped_record d).
  pose proof (remove_ccsnoise_shaped d Hs) as Hr.
  split; [exact Hr|]. split; [|split; [|split]].
  - intros otype Ho. unfold strip_for.
    apply N.eqb_neq in Ho. now rewrite Ho.
  - intros k Hc. now rewrite dict_get_stripped_record, Hc.
  - intros k Hc Hp. now rewrite dict_get_stripped_record, Hc, Hp.
  - intros k pd Hc Hp Hg. exists (stripped_pin pd).
    split; [now rewrite dict_get_stripped_record, Hc, Hp, Hg|].
    split; [now rewrite dict_get_stripped_pin|].
    split; [|split].
    + intros pk Hpk. now rewrite dict_get_stripped_pin, Hpk, orb_true_r.
    + intros pk Hpk Hiv Ht. rewrite dict_get_stripped_pin, Hpk.
      apply String.eqb_neq in Hiv, Ht. now rewrite Hiv, Ht.
    + intros ts Hts. exists (map stripped_timing ts).
      split; [now rewrite dict_get_stripped_pin, Hts|].
      split; [apply length_map|].
      intros i t Hi. exists (without_ccsn t).
      split; [now rewrite nth_error_map, Hi|].
      intros tk. apply dict_get_without_ccsn.
Qed.

Lemma remove_ccsnoise_strips_witness :
  exists d', remove_ccsnoise (VDict sample_cell) = Ok (VDict d').
Proof.
  destruct (remove_ccsnoise_strips sample_cell eq_refl) as (d' & Hd & _).
  exists d'. exact Hd.
Defined.

Lemma merge_top_over_common_witness :
  exists merged,
    load_merged sample_fs "lib" "tt" TimingType.ccsnoise
    = Ok (merged, overwrites_of sample_top sample_common).
Proof.
  destruct (merge_top_over_common sample_fs "lib" "tt" TimingType.ccsnoise
              sample_common sample_top eq_refl eq_refl eq_refl eq_refl eq_refl)
    as (merged & Hm & _).
  exists merged. exact Hm.
Defined.

(** ** The choice of the input variant *)

Lemma mapM_ext {A B : Type} (f g : A -> result B) (l : list A) :
  (forall x, f x = g x) -> mapM f l = mapM g l.
Proof.
  intros H. induction l as [|x l IH]; [reflexivity|].
  cbn [mapM]. now rewrite H, IH.
Qed.

Lemma top_corner_file_ok (lib corner : string) (t : TimingType.t) :
  TimingType.singular t = true ->
  top_corner_file lib corner t
  = Ok ("timing/" ++ lib ++ "__" ++ corner ++ TimingType.file t ++ ".lib.json").
Proof.
  intros H. unfold top_corner_file, assert_singular. now rewrite H.
Qed.

Lemma cell_corner_file_ok (parse_size : string -> option string)
    (lib cell_with_size corner : string) (t : TimingType.t) :
  TimingType.singular t = true ->
  cell_corner_file parse_size lib cell_with_size corner t
  = Ok ("cells/" ++ cell_base parse_size cell_with_size ++ "/" ++ lib ++ "__"
        ++ cell_with_size ++ "__" ++ corner ++ TimingType.file t ++ ".lib.json").
Proof.
  intros H. unfold cell_corner_file, assert_singular. now rewrite H.
Qed.

(** [generate] with both file names resolved. *)
Lemma generate_singular
    (parse_size : string -> option string) (fs : string -> option value)
    (liberty_dict : string -> string -> value -> list string
                    -> result (list string))
    (lib corner : string) (otype itype : TimingType.t) (cells : list string) :
  TimingType.singular otype = true ->
  TimingType.singular itype = true ->
  generate parse_size fs liberty_dict lib corner otype itype cells
  = (merged <- load_merged fs lib corner itype ;;
     data <- strip_for otype (VDict (fst merged)) ;;
     header <- library_header liberty_dict lib corner data ;;
     groups <- mapM (fun c =>
                       cell_data <- load_json fs
                         ("cells/" ++ cell_base parse_size c ++ "/" ++ lib
                          ++ "__" ++ c ++ "__" ++ corner
                          ++ TimingType.file itype ++ ".lib.json") ;;
                       cell_data <- strip_for otype cell_data ;;
                       cell_text liberty_dict lib c cell_data) cells ;;
     Ok ((header ++ List.concat groups ++ [""; "}"])%list, snd merged)).
Proof.
  intros Ho Hi. unfold generate.
  rewrite (top_corner_file_ok lib corner _ Ho). cbn [bind].
  destruct (load_merged fs lib corner itype) as [merged|e];
    cbn [bind]; [|reflexivity].
  destruct (strip_for otype (VDict (fst merged))) as [data|e];
    cbn [bind]; [|reflexivity].
  destruct (library_header liberty_dict lib corner data) as [header|e];
    cbn [bind]; [|reflexivity].
  erewrite mapM_ext; [reflexivity|].
  intros c. unfold cell_group.
  rewrite (cell_corner_file_ok parse_size lib c corner _ Hi). reflexivity.
Qed.

Example generate_basic_from_ccsnoise :
  main_corner sample_parse_size sample_fs sample_serializer "lib" "tt"
    TimingType.basic
    (TimingType.union TimingType.basic TimingType.ccsnoise, ["inv_1"])
  = Ok (Some (["library (lib__tt) {"; "";
               "cell (lib__inv_1) {" ++ String AttrOrder.newline "}"; ""; "}"],
              [Overwriting "date" (VStr "2021") (VStr "2020")])).
Proof. vm_compute. reflexivity. Qed.

(** ** Composite attributes *)

Example liberty_composite_doctest :
  liberty_composite "capacitive_load_unit" (VList [flt 1 1; VStr "pf"]) []
  = Ok ["capacitive_load_unit(1.0000000000, " ++ PyText.dq ++ "pf" ++ PyText.dq ++ ");"]
  /\ liberty_composite "voltage_map"
       (VList [VList [VStr "vpwr"; flt 195 1]; VList [VStr "vss"; flt 0 1]]) []
     = Ok ["voltage_map(" ++ PyText.dq ++ "vpwr" ++ PyText.dq ++ ", 1.9500000000);";
           "voltage_map(" ++ PyText.dq ++ "vss" ++ PyText.dq ++ ", 0.0000000000);"]
  /\ liberty_composite "library_features" (VStr "report_delay_calculation") []
     = Ok ["library_features(" ++ PyText.dq ++ "report_delay_calculation"
           ++ PyText.dq ++ ");"].
Proof. repeat split; vm_compute; reflexivity. Qed.

(** ** More on the timing variants *)

Lemma string_app_nil_r (s : string) : s ++ "" = s.
Proof. induction s as [|c s IH]; simpl; congruence. Qed.

(** X1. Parsing an identifier loses nothing: the base name followed by the
    file suffix of the variant found is the identifier again, the variant is
    one of the three file selectors, and the top file named from the parsed
    pair carries the identifier unchanged. *)
Theorem parse_file_roundtrip (name : string) :
  fst (TimingType.parse name) ++ TimingType.file (snd (TimingType.parse name))
  = name
  /\ (snd (TimingType.parse name) = TimingType.basic
      \/ snd (TimingType.parse name) = TimingType.ccsnoise
      \/ snd (TimingType.parse name) = TimingType.leakage)
  /\ forall lib,
       top_corner_file lib (fst (TimingType.parse name))
         (snd (TimingType.parse name))
       = Ok ("timing/" ++ lib ++ "__" ++ name ++ ".lib.json").
Proof.
  assert (Hcases :
            (exists p, name = p ++ "_ccsnoise"
                       /\ TimingType.parse name = (p, TimingType.ccsnoise))
            \/ (exists p, name = p ++ "_pwrlkg"
                          /\ TimingType.parse name = (p, TimingType.leakage))
            \/ TimingType.parse name = (name, TimingType.basic)).
  { unfold TimingType.parse.
    destruct (PyStr.endswith name "_ccsnoise") eqn:E1.
    - left. apply endswith_inv in E1 as [p ->]. exists p. split; [reflexivity|].
      f_equal. now apply drop_end_app.
    - destruct (PyStr.endswith name "_pwrlkg") eqn:E2.
      + right; left. apply endswith_inv in E2 as [p ->]. exists p.
        split; [reflexivity|]. f_equal. now apply drop_end_app.
      + right; right. reflexivity. }
  destruct Hcases as [(p & -> & Hp)|[(p & -> & Hp)|Hp]]; rewrite Hp;
    cbn [fst snd].
  - split; [reflexivity|]. split; [auto|]. intros lib.
    rewrite top_corner_file_ok by reflexivity.
    f_equal. change (TimingType.file TimingType.ccsnoise) with "_ccsnoise".
    now rewrite !string_app_assoc.
  - split; [reflexivity|]. split; [auto|]. intros lib.
    rewrite top_corner_file_ok by reflexivity.
    f_equal. change (TimingType.file TimingType.leakage) with "_pwrlkg".
    now rewrite !string_app_assoc.
  - split; [apply string_app_nil_r|]. split; [auto|]. intros lib.
    rewrite top_corner_file_ok by reflexivity. reflexivity.
Qed.

(** X2. [describe] is empty exactly when the value holds neither
    [ccsnoise] nor [leakage]; among the unions of members that is [basic]
    alone. *)
Theorem describe_empty_iff_plain (t : TimingType.t) :
  (TimingType.describe t = ""
   <-> TimingType.contains t TimingType.ccsnoise = false
       /\ TimingType.contains t TimingType.leakage = false)
  /\ (TimingType.member_union t ->
      (TimingType.describe t = "" <-> t = TimingType.basic)).
Proof.
  split.
  - unfold TimingType.describe.
    destruct (TimingType.contains t TimingType.ccsnoise),
      (TimingType.contains t TimingType.leakage);
      cbn; split; try discriminate; try tauto; intros [? ?]; discriminate.
  - intros H. apply member_union_values in H. simpl in H.
    repeat match goal with
           | H : _ \/ _ |- _ => destruct H
           | H : False |- _ => destruct H
           end; subst; vm_compute; split; intros H;
      try discriminate; reflexivity.
Qed.

Lemma describe_empty_iff_plain_witness :
  TimingType.describe
    (TimingType.union TimingType.basic TimingType.leakage) = ""
  <-> TimingType.union TimingType.basic TimingType.leakage = TimingType.basic.
Proof.
  apply (describe_empty_iff_plain
           (TimingType.union TimingType.basic TimingType.leakage)).
  apply TimingType.mu_union; apply TimingType.mu_member; simpl; auto.
Defined.

(** X3. Whatever member union a corner advertises, the input variant that
    [main] picks for a supported output variant is singular and is itself
    advertised by the corner, so naming its files cannot fail. *)
Theorem main_input_variant_usable (caps output : TimingType.t) :
  TimingType.member_union caps ->
  output = TimingType.basic \/ output = TimingType.ccsnoise
  \/ output = TimingType.leakage ->
  TimingType.contains caps output = true ->
  TimingType.singular (select_input output caps) = true
  /\ TimingType.contains caps (select_input output caps) = true
  /\ forall lib corner,
       top_corner_file lib corner (select_input output caps)
       = Ok ("timing/" ++ lib ++ "__" ++ corner
             ++ TimingType.file (select_input output caps) ++ ".lib.json").
Proof.
  intros Hc Ho Hin.
  assert (Hs : TimingType.singular (select_input output caps) = true
               /\ TimingType.contains caps (select_input output caps) = true).
  { apply member_union_values in Hc. simpl in Hc.
    repeat match goal with
           | H : _ \/ _ |- _ => destruct H
           | H : False |- _ => destruct H
           end; subst; try discriminate Hin; split; reflexivity. }
  destruct Hs as [Hs1 Hs2]. split; [exact Hs1|]. split; [exact Hs2|].
  intros lib corner. now apply top_corner_file_ok.
Qed.

Lemma main_input_variant_usable_witness :
  TimingType.singular
    (select_input TimingType.basic
       (TimingType.union TimingType.ccsnoise TimingType.leakage)) = true.
Proof.
  apply (main_input_variant_usable
           (TimingType.union TimingType.ccsnoise TimingType.leakage)
           TimingType.basic).
  - apply TimingType.mu_union; apply TimingType.mu_member; simpl; auto.
  - auto.
  - reflexivity.
Defined.

(** ** More on the numeric formatter *)

Lemma split_char_nonempty (c : ascii) (s : string) : PyText.split_char c s <> [].
Proof.
  induction s as [|x s IH]; [discriminate|].
  cbn [PyText.split_char]. destruct (PyText.split_char c s); [congruence|].
  destruct (Ascii.eqb x c); discriminate.
Qed.

Lemma split_char_one (c : ascii) (s b : string) :
  PyText.split_char c s = [b] -> s = b /\ PyStr.has_char c b = false.
Proof.
  revert b. induction s as [|x s IH]; intros b H.
  - injection H as <-. now split.
  - cbn [PyText.split_char] in H.
    destruct (PyText.split_char c s) as [|h t] eqn:E; [discriminate|].
    destruct (Ascii.eqb x c) eqn:Ex; [discriminate|].
    injection H as <- ->. destruct (IH h eq_refl) as [-> Hh].
    split; [reflexivity|]. cbn [PyStr.has_char]. now rewrite Ex, Hh.
Qed.

Lemma split_char_two (c : ascii) (s a b : string) :
  PyText.split_char c s = [a; b] ->
  s = a ++ String c b
  /\ PyStr.has_char c a = false /\ PyStr.has_char c b = false.
Proof.
  revert a. induction s as [|x s IH]; intros a H; [discriminate|].
  cbn [PyText.split_char] in H.
  destruct (PyText.split_char c s) as [|h t] eqn:E; [discriminate|].
  destruct (Ascii.eqb_spec x c) as [->|Hx].
  - injection H as <- -> ->. destruct (split_char_one c s b E) as [-> Hb].
    now repeat split.
  - injection H as <- ->. destruct (IH h eq_refl) as (-> & Hh & Hb).
    repeat split; [| exact Hb].
    cbn [PyStr.has_char]. rewrite Hh, orb_false_r.
    now apply Ascii.eqb_neq.
Qed.

(** X4. The formatter only pads: without an exponent the result is the
    [json.dumps] text, then a point if the text has none and is shorter
    than [WIDTH], then zeros; with an exponent the mantissa gains a point
    if it has none, then zeros, and the exponent is kept as it is. *)
Theorem liberty_float_only_pads (v : value) (r : string) :
  liberty_float v = Ok r ->
  (PyStr.has_char "e" (PyText.json_dumps v) = false
   /\ exists n,
        r = PyText.json_dumps v
            ++ (if PyStr.has_char "." (PyText.json_dumps v)
                   || (WIDTH <=? length (PyText.json_dumps v))%nat
                then "" else ".")
            ++ PyStr.repeat "0" n)
  \/ (exists a b n,
         PyText.json_dumps v = a ++ "e" ++ b
         /\ PyStr.has_char "e" a = false /\ PyStr.has_char "e" b = false
         /\ r = a ++ (if PyStr.has_char "." a then "" else ".")
                ++ PyStr.repeat "0" n ++ "e" ++ b).
Proof.
  unfold liberty_float, liberty_float_text.
  generalize (PyText.json_dumps v). intros s.
  destruct (PyStr.has_char "e" s) eqn:He.
  - destruct (PyText.split_char "e" s) as [|a [|b [|? ?]]] eqn:Es;
      try discriminate.
    destruct (split_char_two _ _ _ _ Es) as (-> & Ha & Hb).
    rewrite pad_zeros_eq by lia.
    match goal with |- context [PyStr.repeat "0" ?k] => generalize k end.
    intros n [= <-].
    right. exists a, b, n. repeat split; try assumption.
    destruct (PyStr.has_char "." a); cbn [append];
      now rewrite !string_app_assoc.
  - intros H. left. split; [reflexivity|].
    rewrite !pad_zeros_eq in H by lia. revert H.
    destruct (PyStr.has_char "." s); cbn [orb].
    + match goal with |- context [PyStr.repeat "0" ?k] => generalize k end.
      intros n [= <-]. exists n. reflexivity.
    + match goal with |- context [PyStr.repeat "0" ?k] => generalize k end.
      intros n [= <-]. exists n.
      destruct (Nat.ltb_spec (length s) WIDTH) as [Hlt|Hge].
      * destruct (Nat.leb_spec WIDTH (length s)); [lia|].
        now rewrite string_app_assoc.
      * destruct (Nat.leb_spec WIDTH (length s)); [|lia].
        reflexivity.
Qed.

Lemma liberty_float_only_pads_witness :
  (PyStr.has_char "e" (PyText.json_dumps (VInt 1)) = false
   /\ exists n,
        "1.0000000000"
        = PyText.json_dumps (VInt 1)
          ++ (if PyStr.has_char "." (PyText.json_dumps (VInt 1))
                 || (WIDTH <=? length (PyText.json_dumps (VInt 1)))%nat
              then "" else ".")
          ++ PyStr.repeat "0" n)
  \/ (exists a b n,
         PyText.json_dumps (VInt 1) = a ++ "e" ++ b
         /\ PyStr.has_char "e" a = false /\ PyStr.has_char "e" b = false
         /\ "1.0000000000"
            = a ++ (if PyStr.has_char "." a then "" else ".")
              ++ PyStr.repeat "0" n ++ "e" ++ b).
Proof. apply (liberty_float_only_pads (VInt 1) "1.0000000000"). reflexivity. Defined.

(** X5. Alignment: a value whose [json.dumps] text is shorter than
    [WIDTH] is formatted to exactly [WIDTH] characters, and a text of
    [WIDTH] characters or more that has no exponent is returned as it is. *)
Theorem liberty_float_exact_width (v : value) (r : string) :
  liberty_float v = Ok r ->
  ((length (PyText.json_dumps v) < WIDTH)%nat -> length r = WIDTH)
  /\ ((WIDTH <= length (PyText.json_dumps v))%nat ->
      PyStr.has_char "e" (PyText.json_dumps v) = false ->
      r = PyText.json_dumps v).
Proof.
  assert (Hinj : forall x y : string, Ok x = Ok y -> x = y)
    by (intros x y H; now injection H).
  unfold liberty_float, liberty_float_text.
  generalize (PyText.json_dumps v). intros s.
  destruct (PyStr.has_char "e" s) eqn:He.
  - destruct (PyText.split_char "e" s) as [|a [|b [|? ?]]] eqn:Es;
      try discriminate.
    destruct (split_char_two _ _ _ _ Es) as (-> & Ha & Hb).
    rewrite pad_zeros_eq by lia. intros H. apply Hinj in H. subst r.
    split; [|discriminate]. intros Hlen.
    rewrite length_app in Hlen. cbn [length] in Hlen.
    rewrite !length_app, length_repeat_zero. cbn [append length].
    destruct (PyStr.has_char "." a); rewrite ?length_app; cbn [length]; lia.
  - destruct (PyStr.has_char "." s).
    + rewrite pad_zeros_eq by lia. intros H. apply Hinj in H. subst r. split.
      * intros Hlen. rewrite length_app, length_repeat_zero. lia.
      * intros Hlen _.
        replace (WIDTH - (length s + 0)) with 0 by lia.
        apply string_app_nil_r.
    + rewrite pad_zeros_eq by lia. intros H. apply Hinj in H. subst r. split.
      * intros Hlen. destruct (Nat.ltb_spec (length s) WIDTH); [|lia].
        rewrite !length_app, length_repeat_zero. cbn [length]. lia.
      * intros Hlen _. destruct (Nat.ltb_spec (length s) WIDTH); [lia|].
        replace (WIDTH - (length s + 0)) with 0 by lia.
        apply string_app_nil_r.
Qed.

Lemma liberty_float_exact_width_witness : length "1.5000000000" = WIDTH.
Proof.
  apply (liberty_float_exact_width (flt 15 1) "1.5000000000");
    [reflexivity | vm_compute; lia].
Defined.

(** ** More on list blocks *)

Lemma liberty_join_float_numbers (l : list value) :
  liberty_join l = Ok JoinFloat -> forallb is_number l = true.
Proof.
  rewrite liberty_join_cases.
  destruct (existsb is_float l).
  - destruct (forallb is_number l); [reflexivity | discriminate].
  - destruct (existsb is_int l); [|discriminate].
    destruct (forallb is_int l); discriminate.
Qed.

Lemma run_join_checked (j : joiner) (l : list value) :
  liberty_join l = Ok j -> exists s, run_join j (VList l) = Ok s.
Proof.
  intros Hj. destruct j; cbn [run_join py_iter bind].
  - destruct (liberty_float_numbers l (liberty_join_float_numbers l Hj))
      as (parts & Hp & _).
    rewrite Hp. eexists; reflexivity.
  - eexists; reflexivity.
Qed.

(** X6. A flat sequence is emitted exactly when the homogeneity check
    accepts it, and then on one line: the key, and the joined elements
    between double quotes; when the check fails, the emitter fails with
    the same error. *)
Theorem liberty_list_flat (k : string) (x : value) (r : list value)
    (i : list string) :
  type_of x <> TList ->
  (forall j, liberty_join (x :: r) = Ok j ->
             exists s,
               run_join j (VList (x :: r)) = Ok s
               /\ liberty_list k (x :: r) i
                  = Ok [PyStr.repeat INDENT (List.length i) ++ k ++ "("
                        ++ PyText.dq ++ s ++ PyText.dq ++ ");"])
  /\ (forall e, liberty_join (x :: r) = Err e ->
                liberty_list k (x :: r) i = Err e).
Proof.
  intros Hx.
  assert (Hl : liberty_list k (x :: r) i
               = (join <- liberty_join (x :: r) ;;
                  s <- run_join join (VList (x :: r)) ;;
                  Ok [PyStr.repeat INDENT (List.length i) ++ k ++ "("
                      ++ PyText.dq ++ s ++ PyText.dq ++ ");"])).
  { destruct x; try reflexivity. now contradiction Hx. }
  split.
  - intros j Hj. destruct (run_join_checked j _ Hj) as [s Hs].
    exists s. split; [exact Hs|]. rewrite Hl, Hj. cbn [bind].
    rewrite Hs. reflexivity.
  - intros e He. rewrite Hl, He. reflexivity.
Qed.

Lemma liberty_list_flat_witness :
  exists s,
    run_join JoinInt (VList [VInt 1; VInt 5; VInt 8]) = Ok s
    /\ liberty_list "index_1" [VInt 1; VInt 5; VInt 8] []
       = Ok [PyStr.repeat INDENT (List.length (@nil string)) ++ "index_1" ++ "("
             ++ PyText.dq ++ s ++ PyText.dq ++ ");"].
Proof.
  apply (proj1 (liberty_list_flat "index_1" (VInt 1) [VInt 5; VInt 8] []
                  ltac:(discriminate))).
  reflexivity.
Defined.

Lemma mapM_post {A B C : Type} (f : A -> result B) (g : B -> C) (l : list A) :
  mapM (fun x => y <- f x ;; Ok (g y)) l
  = (ys <- mapM f l ;; Ok (map g ys)).
Proof.
  induction l as [|x l IH]; [reflexivity|].
  cbn [mapM]. destruct (f x) as [y|e]; cbn [bind]; [|reflexivity].
  rewrite IH. destruct (mapM f l); reflexivity.
Qed.

Lemma mapM_length {A B : Type} (f : A -> result B) (l : list A) (ys : list B) :
  mapM f l = Ok ys -> List.length ys = List.length l.
Proof.
  revert ys. induction l as [|x l IH]; intros ys.
  - intros [= <-]. reflexivity.
  - cbn [mapM]. destruct (f x); cbn [bind]; [|discriminate].
    destruct (mapM f l) as [zs|]; cbn [bind]; [|discriminate].
    intros [= <-]. cbn [List.length]. now rewrite (IH zs eq_refl).
Qed.

Lemma lstrip_indent (m : nat) (rest : string) :
  PyText.lstrip (PyStr.repeat INDENT m ++ PyText.dq ++ rest)
  = PyText.dq ++ rest.
Proof.
  induction m as [|m IH]; [reflexivity|].
  cbn [PyStr.repeat]. rewrite string_app_assoc.
  unfold INDENT at 1. cbn [append PyText.lstrip].
  change (PyText.is_space " ") with true. cbv iota. exact IH.
Qed.

Lemma update_last_map (f : string -> string) (g : string -> string)
    (l : list string) :
  l <> [] ->
  update_last f (map g l)
  = (map g (removelast l) ++ [f (g (last l ""))])%list.
Proof.
  induction l as [|x [|y l] IH]; intros Hne; [congruence | reflexivity |].
  change (update_last f (map g (x :: y :: l)))
    with (g x :: update_last f (map g (y :: l))).
  rewrite IH by discriminate. reflexivity.
Qed.

(** The block branch of [liberty_list], with the rows laid out. *)
Lemma liberty_list_block (k : string) (first : list value)
    (rest : list value) (i : list string) :
  liberty_list k (VList first :: rest) i
  = (j <- liberty_join first ;;
     rows <- mapM (run_join j) (VList first :: rest) ;;
     Ok (expected_block k (List.length i) rows)).
Proof.
  unfold liberty_list.
  destruct (liberty_join first) as [j|e]; cbn [bind]; [|reflexivity].
  rewrite (mapM_post (run_join j)
             (fun r => PyStr.repeat INDENT (List.length i + 1)
                       ++ PyText.dq ++ r ++ PyText.dq ++ ", " ++ PyText.bs)).
  destruct (mapM (run_join j) (VList first :: rest)) as [rows|e] eqn:Hm;
    cbn [bind]; [|reflexivity].
  pose proof (mapM_length _ _ _ Hm) as Hlen.
  destruct rows as [|s0 ss]; [discriminate Hlen|].
  cbn [map]. f_equal.
  rewrite lstrip_indent. rewrite Nat.add_1_r.
  assert (Hclose : forall x : string,
             PyStr.drop_end 3 (x ++ ", " ++ PyText.bs) ++ ");" = x ++ ");").
  { intros x.
    pose proof (drop_end_app x (", " ++ PyText.bs) ltac:(discriminate)) as H.
    change (length (", " ++ PyText.bs)) with 3 in H. now rewrite H. }
  destruct ss as [|s1 ss].
  - cbn [update_last expected_block].
    replace ((PyStr.repeat INDENT (List.length i) ++ k ++ "(")
             ++ PyText.dq ++ s0 ++ PyText.dq ++ ", " ++ PyText.bs)
      with ((PyStr.repeat INDENT (List.length i) ++ k ++ "("
             ++ PyText.dq ++ s0 ++ PyText.dq) ++ ", " ++ PyText.bs)
      by (now rewrite !string_app_assoc).
    rewrite Hclose. now rewrite !string_app_assoc.
  - change (update_last ?f (?a :: map ?g (s1 :: ss)))
      with (a :: update_last f (map g (s1 :: ss))).
    rewrite update_last_map by discriminate.
    unfold expected_block, block_row. f_equal.
    + now rewrite !string_app_assoc.
    + f_equal.
      * apply map_ext. intros x. now rewrite !string_app_assoc.
      * f_equal.
        replace (PyStr.repeat INDENT (S (List.length i)) ++ PyText.dq
                 ++ last (s1 :: ss) "" ++ PyText.dq ++ ", " ++ PyText.bs)
          with ((PyStr.repeat INDENT (S (List.length i)) ++ PyText.dq
                 ++ last (s1 :: ss) "" ++ PyText.dq) ++ ", " ++ PyText.bs)
          by (now rewrite !string_app_assoc).
        apply Hclose.
Qed.

(** X7. The layout of a block of rows: the rows are joined with the
    formatter chosen on the first row; the first line carries the key and
    the first row, every line but the last ends with a comma and a
    backslash, later rows are indented one level deeper, and the last line
    closes the block.  One row gives a single closed line. *)
Theorem liberty_list_block_layout (k : string) (first : list value)
    (rest : list value) (i : list string) :
  liberty_list k (VList first :: rest) i
  = (j <- liberty_join first ;;
     rows <- mapM (run_join j) (VList first :: rest) ;;
     Ok (expected_block k (List.length i) rows)).
Proof. exact (liberty_list_block k first rest i). Qed.

(** ** Blocks of rows and the first row *)

Lemma mapM_map {A B C : Type} (g : A -> B) (f : B -> result C) (l : list A) :
  mapM f (map g l) = mapM (fun x => f (g x)) l.
Proof.
  induction l as [|x l IH]; [reflexivity|].
  cbn [map mapM]. now rewrite IH.
Qed.

Lemma mapM_pure {A B : Type} (g : A -> B) (l : list A) :
  mapM (fun x => Ok (g x)) l = Ok (map g l).
Proof.
  induction l as [|x l IH]; [reflexivity|].
  cbn [mapM bind map]. now rewrite IH.
Qed.

Lemma removelast_length_cons {A : Type} (x : A) (l : list A) :
  List.length (removelast (x :: l)) = List.length l.
Proof.
  revert x. induction l as [|y l IH]; intros x; [reflexivity|].
  change (removelast (x :: y :: l)) with (x :: removelast (y :: l)).
  cbn [List.length]. now rewrite IH.
Qed.

Lemma expected_block_length (k : string) (depth : nat) (rows : list string) :
  List.length (expected_block k depth rows) = List.length rows.
Proof.
  destruct rows as [|r [|r1 rest]]; [reflexivity | reflexivity |].
  unfold expected_block. cbn [List.length].
  rewrite List.length_app, List.length_map, removelast_length_cons.
  cbn [List.length]. lia.
Qed.

(** A block whose first row holds ints only: every row is joined with
    [str]. *)
Lemma liberty_list_int_block (k : string) (zs : list Z)
    (rows : list (list value)) (i : list string) :
  zs <> [] ->
  liberty_list k (VList (map VInt zs) :: map VList rows) i
  = Ok (expected_block k (List.length i)
          (map (fun r => PyStr.join ", " (map PyText.py_str r))
             (map VInt zs :: rows))).
Proof.
  intros Hne. rewrite liberty_list_block, (liberty_join_ints zs Hne).
  cbn [bind].
  change (VList (map VInt zs) :: map VList rows)
    with (map VList (map VInt zs :: rows)).
  rewrite mapM_map.
  change (fun x : list value => run_join JoinInt (VList x))
    with (fun x : list value => Ok (PyStr.join ", " (map PyText.py_str x))).
  now rewrite mapM_pure.
Qed.

(** C10. In a block of rows only the first row meets the homogeneity
    check, and the formatter it selects is the one every row is joined
    with.  When the check fails on the first row the block fails with its
    error; when it returns a formatter, the lines of the block are the
    rows joined with that formatter, the later rows unchecked: after a
    first row of ints every row, whatever it holds, is joined with [str];
    after a first row selecting the float formatter every element of
    every row goes through [liberty_float], so no later row can raise the
    check's [AssertionError].  A later row that the check turns down as a
    flat sequence is emitted in a block after a row of ints. *)
Theorem liberty_list_checks_first_row_only :
  (forall k first rest i e,
      liberty_join first = Err e ->
      liberty_list k (VList first :: rest) i = Err e)
  /\ (forall k first rest i j,
         liberty_join first = Ok j ->
         liberty_list k (VList first :: rest) i
         = (rows <- mapM (run_join j) (VList first :: rest) ;;
            Ok (expected_block k (List.length i) rows)))
  /\ (forall k zs rows i,
         zs <> [] ->
         liberty_list k (VList (map VInt zs) :: map VList rows) i
         = Ok (expected_block k (List.length i)
                 (map (fun r => PyStr.join ", " (map PyText.py_str r))
                    (map VInt zs :: rows))))
  /\ (forall k first rows i,
         liberty_join first = Ok JoinFloat ->
         liberty_list k (VList first :: map VList rows) i
         = (texts <- mapM (fun r => parts <- mapM liberty_float r ;;
                                    Ok (PyStr.join ", " parts))
                       (first :: rows) ;;
            Ok (expected_block k (List.length i) texts))
         /\ liberty_list k (VList first :: map VList rows) i
            <> Err AssertionError)
  /\ (forall k zs rows row i,
         zs <> [] -> In row rows ->
         match row with VList _ :: _ => False | _ => True end ->
         liberty_join row = Err AssertionError ->
         liberty_list k row i = Err AssertionError
         /\ exists o,
              liberty_list k (VList (map VInt zs) :: map VList rows) i = Ok o
              /\ List.length o = S (List.length rows))
  /\ liberty_list "values"
       [VList [VInt 1; VInt 2]; VList [VInt 3; VStr "x"]] []
     = Ok ["values(" ++ PyText.dq ++ "1, 2" ++ PyText.dq ++ ", " ++ PyText.bs;
           "    " ++ PyText.dq ++ "3, x" ++ PyText.dq ++ ");"]
  /\ liberty_list "values" [VInt 3; VStr "x"] [] = Err AssertionError
  /\ liberty_list "values"
       [VList [flt 15 1; VInt 2]; VList [VInt 3; VInt 4]] []
     = Ok ["values(" ++ PyText.dq ++ "1.5000000000, 2.0000000000" ++ PyText.dq
           ++ ", " ++ PyText.bs;
           "    " ++ PyText.dq ++ "3.0000000000, 4.0000000000" ++ PyText.dq
           ++ ");"].
Proof.
  assert (Hfloat : forall k first rows i,
             liberty_join first = Ok JoinFloat ->
             liberty_list k (VList first :: map VList rows) i
             = (texts <- mapM (fun r => parts <- mapM liberty_float r ;;
                                        Ok (PyStr.join ", " parts))
                           (first :: rows) ;;
                Ok (expected_block k (List.length i) texts))).
  { intros k first rows i Hj. rewrite liberty_list_block, Hj. cbn [bind].
    change (VList first :: map VList rows) with (map VList (first :: rows)).
    now rewrite mapM_map. }
  split; [|split; [|split; [|split; [|split; [|split; [|split]]]]]].
  - intros k first rest i e He. unfold liberty_list. now rewrite He.
  - intros k first rest i j Hj. now rewrite liberty_list_block, Hj.
  - intros k zs rows i Hne. now apply liberty_list_int_block.
  - intros k first rows i Hj. split; [now apply Hfloat|].
    rewrite (Hfloat k first rows i Hj).
    destruct (mapM _ (first :: rows)) as [texts|e] eqn:Hm; cbn [bind];
      [discriminate|].
    intros [= ->].
    apply (mapM_error _ _ _ ValueError) in Hm; [discriminate|].
    intros r e' _. destruct (mapM liberty_float r) as [parts|e0] eqn:Hr;
      cbn [bind]; [discriminate|].
    intros [= <-].
    apply (mapM_error liberty_float r e0 ValueError); [|exact Hr].
    intros y e'' _. apply liberty_float_error.
  - intros k zs rows row i Hne Hin Hflat Hj. split.
    + destruct row as [|x r]; [discriminate Hj|].
      destruct x; try contradiction; unfold liberty_list; now rewrite Hj.
    + rewrite (liberty_list_int_block k zs rows i Hne).
      eexists. split; [reflexivity|].
      rewrite expected_block_length, length_map. reflexivity.
  - reflexivity.
  - reflexivity.
  - vm_compute. reflexivity.
Qed.

Lemma liberty_list_checks_first_row_only_witness :
  liberty_list "values"
    (VList (map VInt [1; 2]%Z) :: map VList [[VInt 3; VStr "x"]]) []
  = Ok (expected_block "values" 0 ["1, 2"; "3, x"]).
Proof.
  apply (proj1 (proj2 (proj2 liberty_list_checks_first_row_only))).
  discriminate.
Defined.

(** ** More on composite attributes *)

Lemma composite_part_ok (x : value) :
  composite_ok x = true -> exists p, composite_part x = Ok p.
Proof.
  destruct x; try discriminate; intros H; cbn [composite_part].
  - eexists. apply liberty_float_of_int.
  - apply liberty_float_of_float.
  - cbn [composite_ok] in H. rewrite H. eexists; reflexivity.
Qed.

Lemma composite_parts_ok (l : list value) :
  forallb composite_ok l = true ->
  exists parts, mapM composite_part l = Ok parts
                /\ Forall2 (fun x p => composite_part x = Ok p) l parts.
Proof.
  induction l as [|x l IH]; intros H.
  - exists []. split; [reflexivity | constructor].
  - cbn [forallb] in H. apply andb_true_iff in H as [Hx Hl].
    destruct (composite_part_ok x Hx) as [p Hp].
    destruct (IH Hl) as (parts & Hm & HF).
    exists (p :: parts). split; [|constructor; assumption].
    cbn [mapM]. rewrite Hp. cbn [bind]. rewrite Hm. reflexivity.
Qed.

Lemma liberty_composite_flat (k : string) (x : value) (r : list value)
    (i : list string) :
  type_of x <> TList ->
  liberty_composite k (VList (x :: r)) i = composite_line k (x :: r) i.
Proof. intros Hx. destruct x; try reflexivity. now contradiction Hx. Qed.

Lemma liberty_composite_flat_ok (k : string) (l : list value)
    (i : list string) :
  l <> [] -> forallb composite_ok l = true ->
  exists parts,
    Forall2 (fun x p => composite_part x = Ok p) l parts
    /\ liberty_composite k (VList l) i
       = Ok [PyStr.repeat INDENT (List.length i) ++ k ++ "("
             ++ PyStr.join ", " parts ++ ");"].
Proof.
  intros Hne Hok.
  destruct (composite_parts_ok l Hok) as (parts & Hm & HF).
  exists parts. split; [exact HF|].
  destruct l as [|x r]; [congruence|].
  rewrite liberty_composite_flat.
  - unfold composite_line. rewrite Hm. reflexivity.
  - cbn [forallb] in Hok. apply andb_true_iff in Hok as [Hx _].
    destruct x; discriminate.
Qed.

(** X8. A non-empty sequence of ints, floats and quote-free strings is
    rendered on exactly one line: the key, then the parts between
    parentheses, numbers through the float formatter and strings between
    double quotes.  A single such value is rendered as the sequence
    holding it alone. *)
Theorem liberty_composite_one_line (k : string) (l : list value)
    (i : list string) :
  l <> [] -> forallb composite_ok l = true ->
  (exists parts,
      Forall2 (fun x p => composite_part x = Ok p) l parts
      /\ liberty_composite k (VList l) i
         = Ok [PyStr.repeat INDENT (List.length i) ++ k ++ "("
               ++ PyStr.join ", " parts ++ ");"])
  /\ (forall x, In x l ->
                liberty_composite k x i = liberty_composite k (VList [x]) i).
Proof.
  intros Hne Hok. split; [now apply liberty_composite_flat_ok|].
  intros x Hx. rewrite forallb_forall in Hok. specialize (Hok x Hx).
  destruct x; try discriminate; reflexivity.
Qed.

Lemma liberty_composite_one_line_witness :
  exists parts,
    Forall2 (fun x p => composite_part x = Ok p) [flt 1 1; VStr "pf"] parts
    /\ liberty_composite "capacitive_load_unit" (VList [flt 1 1; VStr "pf"]) []
       = Ok [PyStr.repeat INDENT (List.length (@nil string))
             ++ "capacitive_load_unit" ++ "("
             ++ PyStr.join ", " parts ++ ");"].
Proof.
  apply (proj1 (liberty_composite_one_line "capacitive_load_unit"
                  [flt 1 1; VStr "pf"] [] ltac:(discriminate) eq_refl)).
Defined.

Lemma composite_parts_quote (l : list value) (s : string) :
  In (VStr s) l -> PyStr.has_char (ascii_of_nat 34) s = true ->
  exists e, mapM composite_part l = Err e.
Proof.
  intros Hin Hq. induction l as [|x l IH]; [destruct Hin|].
  cbn [mapM]. destruct (composite_part x) as [p|e] eqn:Hx; cbn [bind];
    [|eexists; reflexivity].
  destruct Hin as [->|Hin].
  - cbn [composite_part] in Hx. rewrite Hq in Hx. discriminate Hx.
  - destruct (IH Hin) as [e He]. rewrite He. eexists; reflexivity.
Qed.

(** X9. A string with a double quote is never written out: a flat
    sequence holding one is refused, with [AssertionError] when the values
    before it are ints, floats and quote-free strings. *)
Theorem liberty_composite_refuses_quote (k : string) (before after : list value)
    (s : string) (i : list string) :
  PyStr.has_char (ascii_of_nat 34) s = true ->
  match before with VList _ :: _ => False | _ => True end ->
  (exists e, liberty_composite k (VList (before ++ VStr s :: after)) i = Err e)
  /\ (forallb composite_ok before = true ->
      liberty_composite k (VList (before ++ VStr s :: after)) i
      = Err AssertionError).
Proof.
  intros Hq Hflat.
  assert (Hl : liberty_composite k (VList (before ++ VStr s :: after)) i
               = composite_line k (before ++ VStr s :: after) i).
  { destruct before as [|x r]; [reflexivity|].
    cbn [app]. apply liberty_composite_flat. destruct x; try discriminate.
    destruct Hflat. }
  rewrite Hl. unfold composite_line. split.
  - destruct (composite_parts_quote (before ++ VStr s :: after) s) as [e He];
      [apply in_or_app; right; now left | exact Hq |].
    exists e. now rewrite He.
  - intros Hok. clear Hl Hflat.
    induction before as [|x r IH].
    + cbn [app mapM composite_part]. rewrite Hq. reflexivity.
    + cbn [forallb] in Hok. apply andb_true_iff in Hok as [Hx Hr].
      destruct (composite_part_ok x Hx) as [p Hp].
      cbn [app mapM]. rewrite Hp. cbn [bind].
      specialize (IH Hr).
      destruct (mapM composite_part (r ++ VStr s :: after)) as [ps|e];
        cbn [bind] in *; [discriminate IH | exact IH].
Qed.

Lemma liberty_composite_refuses_quote_witness :
  exists e,
    liberty_composite "comment"
      (VList ([VInt 1] ++ VStr (PyText.dq ++ "x") :: [])) [] = Err e.
Proof.
  apply (liberty_composite_refuses_quote "comment" [VInt 1] []
           (PyText.dq ++ "x") []); [reflexivity | exact I].
Defined.

(** X10. A sequence of rows gives one line per row, each written as the
    row would be on its own. *)
Theorem liberty_composite_rows (k : string) (rows : list (list value))
    (i : list string) :
  rows <> [] ->
  Forall (fun l => l <> [] /\ forallb composite_ok l = true) rows ->
  exists lines,
    liberty_composite k (VList (map VList rows)) i = Ok lines
    /\ Forall2 (fun l line => liberty_composite k (VList l) i = Ok [line])
         rows lines.
Proof.
  intros Hne Hrows.
  assert (Heach : exists lines,
             (fix each (l : list value) : result (list string) :=
                match l with
                | [] => Ok []
                | x :: r =>
                    o <- liberty_composite k x i ;;
                    os <- each r ;;
                    Ok (o ++ os)%list
                end) (map VList rows) = Ok lines
             /\ Forall2 (fun l line => liberty_composite k (VList l) i = Ok [line])
                  rows lines).
  { clear Hne. induction Hrows as [|l rows [Hl Hok] _ IH].
    - exists []. split; [reflexivity | constructor].
    - destruct IH as (lines & He & HF).
      destruct (liberty_composite_flat_ok k l i Hl Hok)
        as (parts & _ & Hline).
      eexists (_ :: lines). split; [|constructor; [exact Hline | exact HF]].
      cbn [map]. rewrite Hline. cbn [bind]. rewrite He. reflexivity. }
  destruct rows as [|h t]; [congruence|]. exact Heach.
Qed.

Lemma liberty_composite_rows_witness :
  exists lines,
    liberty_composite "voltage_map"
      (VList (map VList [[VStr "vpwr"; flt 195 1]; [VStr "vss"; flt 0 1]])) []
    = Ok lines
    /\ Forall2 (fun l line => liberty_composite "voltage_map" (VList l) []
                              = Ok [line])
         [[VStr "vpwr"; flt 195 1]; [VStr "vss"; flt 0 1]] lines.
Proof.
  apply (liberty_composite_rows "voltage_map"
           [[VStr "vpwr"; flt 195 1]; [VStr "vss"; flt 0 1]] []).
  - discriminate.
  - repeat constructor; discriminate.
Defined.

(** ** More on the attribute ordering key *)

Lemma all_digits_take (s : string) :
  AttrOrder.all_digits (AttrOrder.take_digits s) = true.
Proof.
  induction s as [|a s IH]; [reflexivity|].
  cbn [AttrOrder.take_digits]. destruct (AttrOrder.is_digit a) eqn:Ha;
    [|reflexivity].
  cbn [AttrOrder.all_digits]. now rewrite Ha, IH.
Qed.

(** The second group of a match is a non-empty run of digits. *)
Lemma re_liberty_list_digits_group (s k n : string) :
  AttrOrder.re_liberty_list s = Some (k, n) ->
  n <> "" /\ AttrOrder.all_digits n = true.
Proof.
  revert k. induction s as [|a s IH]; intros k; [discriminate|].
  cbn [AttrOrder.re_liberty_list].
  destruct (if Ascii.eqb a AttrOrder.newline then None
            else AttrOrder.re_liberty_list s) as [[k' n']|] eqn:E.
  - intros [= <- <-]. destruct (Ascii.eqb a AttrOrder.newline);
      [discriminate|]. exact (IH _ E).
  - destruct (Ascii.eqb a "_"); [|discriminate].
    pose proof (all_digits_take s) as Hd.
    destruct (AttrOrder.take_digits s) as [|c t]; [discriminate|].
    intros [= <- <-]. split; [discriminate | exact Hd].
Qed.

Lemma uint_of_digit_string (n : string) :
  AttrOrder.all_digits n = true ->
  exists d, NilEmpty.uint_of_string n = Some d.
Proof.
  induction n as [|a n IH]; intros H; [now exists Decimal.Nil|].
  cbn [AttrOrder.all_digits] in H. apply andb_true_iff in H as [Ha Hn].
  destruct (IH Hn) as [d Hd]. cbn [NilEmpty.uint_of_string]. rewrite Hd.
  destruct a as [[] [] [] [] [] [] [] []]; try discriminate Ha;
    eexists; reflexivity.
Qed.

Lemma float_of_digit_string (n : string) :
  n <> "" -> AttrOrder.all_digits n = true ->
  exists f, AttrOrder.float_of_digits n = Ok f.
Proof.
  intros Hne Hd. destruct (uint_of_digit_string n Hd) as [d Hu].
  unfold AttrOrder.float_of_digits, NilZero.uint_of_string.
  destruct n; [congruence|]. rewrite Hu. eexists; reflexivity.
Qed.

Lemma truthy_nonzero (x : option AttrOrder.fkey) (i : AttrOrder.fkey) :
  AttrOrder.truthy x = Some i -> i <> AttrOrder.FK 0.
Proof.
  destruct x as [[[|p]|]|]; cbn; intros H; try discriminate;
    injection H as <-; discriminate.
Qed.

Lemma index_bound (p s : string) (m : nat) :
  index 0 p s = Some m -> m <= length s.
Proof.
  revert m. induction s as [|b s IH]; intros m; cbn [index].
  - destruct p; [intros [= <-]; cbn; lia | discriminate].
  - destruct (prefix p (String b s)); [intros [= <-]; lia|].
    destruct (index 0 p s) as [n|]; [|discriminate].
    intros [= <-]. specialize (IH n eq_refl). cbn [length]. lia.
Qed.

(** A looked-up position is a whole number inside the skeleton. *)
Lemma lookup_position_finite (name : string) (f : AttrOrder.fkey) :
  AttrOrder._lookup_attribute_pos name = Some f ->
  exists i, f = AttrOrder.FK i
            /\ (i <= N.of_nat (length AttrOrder.LIBERTY_ATTRIBUTE_ORDER))%N.
Proof.
  unfold AttrOrder._lookup_attribute_pos, PyStr.find.
  destruct (index 0 _ AttrOrder.LIBERTY_ATTRIBUTE_ORDER) as [pos|] eqn:E;
    [|discriminate].
  apply index_bound in E. intros [= <-]. exists (N.of_nat pos).
  assert (Hle : (N.of_nat pos
                 <= N.of_nat (length AttrOrder.LIBERTY_ATTRIBUTE_ORDER))%N) by lia.
  split; [|exact Hle]. apply float_of_N_exact.
  eapply N.le_lt_trans; [exact Hle|]. now vm_compute.
Qed.

Lemma truthy_finite (name : string) (i : AttrOrder.fkey) :
  AttrOrder.truthy (AttrOrder._lookup_attribute_pos name) = Some i ->
  i <> AttrOrder.FK 0 /\ i <> AttrOrder.FKInf.
Proof.
  intros Ht. split; [exact (truthy_nonzero _ _ Ht)|].
  destruct (AttrOrder._lookup_attribute_pos name) as [f|] eqn:El;
    [|discriminate].
  destruct (lookup_position_finite _ _ El) as (x & -> & _).
  destruct x; cbn in Ht; [discriminate|]. injection Ht as <-. discriminate.
Qed.

(** X11. The ordering key fails only on a name with a colon.  For every
    other name it returns a key whose primary component is never the
    position zero, and a name that does not match as an indexed name gets
    the secondary component 0 when it is ranked and the key (inf, inf)
    when it is not. *)
Theorem liberty_attribute_order_total (name : string) :
  (PyStr.has_char ":" name = true ->
   AttrOrder.liberty_attribute_order name = Err AssertionError)
  /\ (PyStr.has_char ":" name = false ->
      exists p s,
        AttrOrder.liberty_attribute_order name = Ok (p, s)
        /\ p <> AttrOrder.FK 0
        /\ (AttrOrder.re_liberty_list name = None ->
            (p <> AttrOrder.FKInf /\ s = AttrOrder.FK 0)
            \/ (p = AttrOrder.FKInf /\ s = AttrOrder.FKInf))).
Proof.
  unfold AttrOrder.liberty_attribute_order. split; intros Hc; rewrite Hc;
    [reflexivity|].
  cbn [negb py_assert bind].
  destruct (AttrOrder.re_liberty_list name) as [[k n]|] eqn:Hre.
  - destruct (re_liberty_list_digits_group _ _ _ Hre) as [Hne Hd].
    destruct (float_of_digit_string n Hne Hd) as [f Hf]. rewrite Hf.
    cbn [bind]. eexists _, f. split; [reflexivity|]. split; [|discriminate].
    destruct (AttrOrder.truthy (AttrOrder._lookup_attribute_pos k)) eqn:Et;
      [exact (truthy_nonzero _ _ Et) | discriminate].
  - destruct (AttrOrder.truthy (AttrOrder._lookup_attribute_pos name))
      as [i|] eqn:Et.
    + exists i, (AttrOrder.FK 0). split; [reflexivity|].
      destruct (truthy_finite _ _ Et) as [H0 Hinf].
      split; [exact H0|]. intros _. left. now split.
    + match goal with
      | |- context [AttrOrder.truthy (AttrOrder._lookup_attribute_pos ?x)] =>
          destruct (AttrOrder.truthy (AttrOrder._lookup_attribute_pos x))
            as [i|] eqn:Et2
      end.
      * exists i, (AttrOrder.FK 0). split; [reflexivity|].
        destruct (truthy_finite _ _ Et2) as [H0 Hinf].
        split; [exact H0|]. intros _. left. now split.
      * exists AttrOrder.FKInf, AttrOrder.FKInf.
        split; [reflexivity|]. split; [discriminate|]. intros _. now right.
Qed.

Lemma liberty_attribute_order_total_witness :
  exists p s,
    AttrOrder.liberty_attribute_order "voltage_map" = Ok (p, s)
    /\ p <> AttrOrder.FK 0
    /\ (AttrOrder.re_liberty_list "voltage_map" = None ->
        (p <> AttrOrder.FKInf /\ s = AttrOrder.FK 0)
        \/ (p = AttrOrder.FKInf /\ s = AttrOrder.FKInf)).
Proof.
  apply (proj2 (liberty_attribute_order_total "voltage_map")). reflexivity.
Defined.

(** X12. When no exact position is found for a name that is not indexed,
    the fallback classes are tried with a fixed precedence: a name holding
    [k_] takes the place of the [k_...] entry, else one holding [_unit]
    that of [..._unit], else one holding [default_] that of
    [default_...]; only a name in none of the classes is looked up once
    more without its argument list, and is unranked if that fails too. *)
Theorem liberty_attribute_order_fallback (name : string) :
  PyStr.has_char ":" name = false ->
  AttrOrder.re_liberty_list name = None ->
  AttrOrder.truthy (AttrOrder._lookup_attribute_pos name) = None ->
  AttrOrder.liberty_attribute_order name
  = Ok (if PyStr.contains name "k_" then (AttrOrder.FK 1355, AttrOrder.FK 0)
        else if PyStr.contains name "_unit"
             then (AttrOrder.FK 357, AttrOrder.FK 0)
        else if PyStr.contains name "default_"
             then (AttrOrder.FK 743, AttrOrder.FK 0)
        else match AttrOrder.truthy
                     (AttrOrder._lookup_attribute_pos
                        (if PyStr.has_char "(" name
                         then AttrOrder.before_char "(" name else name)) with
             | Some i => (i, AttrOrder.FK 0)
             | None => (AttrOrder.FKInf, AttrOrder.FKInf)
             end).
Proof.
  intros Hc Hre Ht. unfold AttrOrder.liberty_attribute_order.
  rewrite Hc, Hre, Ht. cbn [negb py_assert bind].
  assert (Hk : AttrOrder.truthy (AttrOrder._lookup_attribute_pos "k_...")
               = Some (AttrOrder.FK 1355)) by (vm_compute; reflexivity).
  assert (Hu : AttrOrder.truthy (AttrOrder._lookup_attribute_pos "..._unit")
               = Some (AttrOrder.FK 357)) by (vm_compute; reflexivity).
  assert (Hd : AttrOrder.truthy (AttrOrder._lookup_attribute_pos "default_...")
               = Some (AttrOrder.FK 743)) by (vm_compute; reflexivity).
  destruct (PyStr.contains name "k_"); [now rewrite Hk|].
  destruct (PyStr.contains name "_unit"); [now rewrite Hu|].
  destruct (PyStr.contains name "default_"); [now rewrite Hd|].
  destruct (AttrOrder.truthy
              (AttrOrder._lookup_attribute_pos
                 (if PyStr.has_char "(" name
                  then AttrOrder.before_char "(" name else name)));
    reflexivity.
Qed.

Lemma liberty_attribute_order_fallback_witness :
  AttrOrder.liberty_attribute_order "default_k_unit"
  = Ok (AttrOrder.FK 1355, AttrOrder.FK 0).
Proof.
  apply (liberty_attribute_order_fallback "default_k_unit");
    vm_compute; reflexivity.
Defined.

(** X13. An indexed name is a liberty list exactly when its base name is
    [variable], [index] or [values], whatever the number. *)
Theorem is_liberty_list_indexed (base : string) (n : N) :
  PyStr.has_char AttrOrder.newline base = false ->
  AttrOrder.is_liberty_list (base ++ "_" ++ PyText.decimal n)
  = (base =? "variable") || (base =? "index") || (base =? "values").
Proof.
  intros Hn. unfold AttrOrder.is_liberty_list.
  now rewrite (re_liberty_list_indexed base _ Hn (all_digits_decimal n)
                 (decimal_nonempty n)).
Qed.

Lemma is_liberty_list_indexed_witness :
  AttrOrder.is_liberty_list ("index" ++ "_" ++ PyText.decimal 12)
  = ("index" =? "variable") || ("index" =? "index") || ("index" =? "values").
Proof. apply (is_liberty_list_indexed "index" 12). reflexivity. Defined.

(** ** More on stripping *)

Lemma filter_all {A : Type} (p : A -> bool) (l : list A) :
  forallb p l = true -> filter p l = l.
Proof.
  induction l as [|x l IH]; [reflexivity|].
  cbn [forallb filter]. intros H. apply andb_true_iff in H as [Hx Hl].
  now rewrite Hx, IH.
Qed.

Lemma forallb_filter {A : Type} (p : A -> bool) (l : list A) :
  forallb p (filter p l) = true.
Proof.
  induction l as [|x l IH]; [reflexivity|].
  cbn [filter]. destruct (p x) eqn:Hx; [|exact IH].
  cbn [forallb]. now rewrite Hx, IH.
Qed.

Lemma forallb_filter_keep {A : Type} (p q : A -> bool) (l : list A) :
  forallb q l = true -> forallb q (filter p l) = true.
Proof.
  induction l as [|x l IH]; [reflexivity|].
  cbn [forallb filter]. intros H. apply andb_true_iff in H as [Hx Hl].
  destruct (p x); [|now apply IH]. cbn [forallb]. now rewrite Hx, IH.
Qed.

Lemma dict_get_unique (k : string) (v : value) (d : dict) :
  unique_keys d = true -> In (k, v) d -> dict_get k d = Some v.
Proof.
  induction d as [|[k' v'] d IH]; intros Hu Hin; [destruct Hin|].
  cbn [unique_keys] in Hu. apply andb_true_iff in Hu as [Hk Hu].
  cbn [dict_get]. destruct Hin as [[= -> ->]|Hin].
  - now rewrite String.eqb_refl.
  - destruct (String.eqb_spec k' k) as [->|Hne]; [|now apply IH].
    apply negb_true_iff in Hk.
    assert (Hin' : In k (keys d)) by (apply in_map_iff; now exists (k, v)).
    apply dict_has_in in Hin'. congruence.
Qed.

Lemma clean_timing_shaped (t : value) :
  clean_timing t = true -> shaped_timing t = true /\ stripped_timing t = t.
Proof.
  destruct t; try discriminate. cbn [clean_timing shaped_timing stripped_timing].
  intros H. apply andb_true_iff in H as [Hu Hc]. split; [exact Hu|].
  f_equal. unfold without_ccsn. now apply filter_all.
Qed.

Lemma clean_timings (ts : list value) :
  forallb clean_timing ts = true ->
  forallb shaped_timing ts = true /\ map stripped_timing ts = ts.
Proof.
  induction ts as [|t ts IH]; intros H; [now split|].
  cbn [forallb] in H. apply andb_true_iff in H as [Ht Hts].
  destruct (clean_timing_shaped t Ht) as [Hs He].
  destruct (IH Hts) as [Hss Hes].
  cbn [forallb map]. now rewrite Hs, Hss, He, Hes.
Qed.

Lemma clean_pin_shaped (v : value) :
  clean_pin v = true ->
  shaped_pin v = true
  /\ match v with VDict pd => stripped_pin pd = pd | _ => True end.
Proof.
  destruct v as [| | | | | |pd]; try discriminate. cbn [clean_pin shaped_pin].
  intros H. apply andb_true_iff in H as [H Ht].
  apply andb_true_iff in H as [Hu Hk].
  assert (Hshape : match dict_get "timing" pd with
                   | Some (VList ts) => forallb shaped_timing ts
                   | Some _ => false
                   | None => true
                   end = true).
  { destruct (dict_get "timing" pd) as [[| | | | |ts|]|]; try discriminate;
      [|reflexivity]. now apply clean_timings. }
  split; [now rewrite Hu, Hshape|].
  unfold stripped_pin, dict_del, without_ccsn.
  rewrite (filter_all (fun kv => negb (fst kv =? "input_voltage")) pd).
  2:{ apply forallb_forall. intros kv Hin. rewrite forallb_forall in Hk.
      specialize (Hk kv Hin). now apply andb_true_iff in Hk as [Hk _]. }
  rewrite (filter_all (fun kv => negb (PyStr.startswith (fst kv) "ccsn_")) pd).
  2:{ apply forallb_forall. intros kv Hin. rewrite forallb_forall in Hk.
      specialize (Hk kv Hin). now apply andb_true_iff in Hk as [_ Hk]. }
  rewrite <- (map_id pd) at 2. apply map_ext_in. intros [k v] Hin.
  unfold stripped_timing_entry. cbn [fst snd].
  destruct (String.eqb_spec k "timing") as [->|]; [|reflexivity].
  rewrite (dict_get_unique "timing" v pd Hu Hin) in Ht.
  destruct v as [| | | | |ts|]; try discriminate Ht.
  f_equal. f_equal. now apply clean_timings.
Qed.

Lemma clean_record_shaped (d : dict) :
  clean_record d = true -> shaped_record d = true /\ stripped_record d = d.
Proof.
  unfold clean_record, shaped_record. intros H.
  apply andb_true_iff in H as [Hu Hc]. rewrite Hu. cbn [andb].
  clear Hu. induction d as [|[k v] d IH]; [now split|].
  cbn [forallb] in Hc. apply andb_true_iff in Hc as [Hkv Hd].
  destruct (IH Hd) as [Hs He].
  unfold clean_item in Hkv. cbn [fst snd] in Hkv.
  apply andb_true_iff in Hkv as [Hcc Hp]. apply negb_true_iff in Hcc.
  rewrite stripped_record_cons, He. cbn [forallb].
  unfold shaped_item at 1. cbn [fst snd]. rewrite Hcc, Hs.
  destruct (PyStr.startswith k "pin "); [|now split].
  destruct (clean_pin_shaped v Hp) as [Hsp Hep]. rewrite Hsp.
  split; [reflexivity|]. cbn [app]. do 2 f_equal.
  destruct v; try reflexivity. now rewrite Hep.
Qed.

(** X14. A record that holds no ccsnoise data is returned as it is: when
    no top-level key contains [ccsn_], no pin has an [input_voltage] or a
    key prefixed [ccsn_], and no timing entry has a key prefixed
    [ccsn_], stripping changes nothing. *)
Theorem remove_ccsnoise_clean_unchanged (d : dict) :
  clean_record d = true -> remove_ccsnoise (VDict d) = Ok (VDict d).
Proof.
  intros H. destruct (clean_record_shaped d H) as [Hs He].
  rewrite (remove_ccsnoise_shaped d Hs). now rewrite He.
Qed.

Lemma remove_ccsnoise_clean_unchanged_witness :
  remove_ccsnoise (VDict sample_common) = Ok (VDict sample_common).
Proof. apply (remove_ccsnoise_clean_unchanged sample_common). reflexivity. Defined.

Lemma dict_has_stripped_record (k : string) (d : dict) :
  dict_has k (stripped_record d)
  = negb (PyStr.contains k "ccsn_") && dict_has k d.
Proof.
  unfold dict_has. rewrite dict_get_stripped_record.
  destruct (PyStr.contains k "ccsn_"), (PyStr.startswith k "pin "),
    (dict_get k d); reflexivity.
Qed.

Lemma unique_keys_stripped_record (d : dict) :
  unique_keys d = true -> unique_keys (stripped_record d) = true.
Proof.
  induction d as [|[k v] d IH]; intros Hu; [reflexivity|].
  cbn [unique_keys] in Hu. apply andb_true_iff in Hu as [Hk Hu].
  rewrite stripped_record_cons.
  assert (Hfresh : negb (dict_has k (stripped_record d)) = true).
  { rewrite dict_has_stripped_record. apply negb_true_iff in Hk.
    rewrite Hk. now rewrite andb_false_r. }
  destruct (PyStr.contains k "ccsn_"); [now apply IH|].
  destruct (PyStr.startswith k "pin "); cbn [app unique_keys];
    now rewrite Hfresh, IH.
Qed.

Lemma dict_has_map_timing (k : string) (d : dict) :
  dict_has k (map stripped_timing_entry d) = dict_has k d.
Proof.
  unfold dict_has. rewrite dict_get_map_timing.
  destruct (k =? "timing"), (dict_get k d); reflexivity.
Qed.

Lemma unique_keys_map_timing (d : dict) :
  unique_keys (map stripped_timing_entry d) = unique_keys d.
Proof.
  induction d as [|[k v] d IH]; [reflexivity|].
  cbn [map]. unfold stripped_timing_entry at 1. cbn [fst snd].
  destruct (k =? "timing"); cbn [unique_keys];
    now rewrite dict_has_map_timing, IH.
Qed.

Lemma forallb_keys_map_timing (p : string -> bool) (d : dict) :
  forallb (fun kv => p (fst kv)) (map stripped_timing_entry d)
  = forallb (fun kv => p (fst kv)) d.
Proof.
  induction d as [|[k v] d IH]; [reflexivity|].
  cbn [map forallb]. unfold stripped_timing_entry at 1. cbn [fst snd].
  destruct (k =? "timing"); cbn [fst]; now rewrite IH.
Qed.

Lemma stripped_timing_clean (t : value) :
  shaped_timing t = true -> clean_timing (stripped_timing t) = true.
Proof.
  destruct t; try discriminate. cbn [shaped_timing stripped_timing clean_timing].
  intros Hu. unfold without_ccsn.
  rewrite (unique_keys_filter (fun x => negb (PyStr.startswith x "ccsn_")) _ Hu).
  apply (forallb_filter (fun kv => negb (PyStr.startswith (fst kv) "ccsn_"))).
Qed.

Lemma stripped_pin_clean (pd : dict) :
  shaped_pin (VDict pd) = true -> clean_pin (VDict (stripped_pin pd)) = true.
Proof.
  cbn [shaped_pin clean_pin]. intros H. apply andb_true_iff in H as [Hu Ht].
  assert (Hu2 : unique_keys (without_ccsn (dict_del "input_voltage" pd)) = true).
  { apply (unique_keys_filter (fun x => negb (PyStr.startswith x "ccsn_"))).
    apply (unique_keys_filter (fun x => negb (x =? "input_voltage"))), Hu. }
  apply andb_true_iff. split; [apply andb_true_iff; split|].
  - unfold stripped_pin. now rewrite unique_keys_map_timing.
  - unfold stripped_pin.
    rewrite (forallb_keys_map_timing
               (fun k => negb (k =? "input_voltage")
                         && negb (PyStr.startswith k "ccsn_"))).
    apply forallb_forall. intros kv Hin. unfold without_ccsn, dict_del in Hin.
    apply filter_In in Hin as [Hin Hc]. apply filter_In in Hin as [_ Hiv].
    now rewrite Hiv, Hc.
  - rewrite dict_get_stripped_pin. cbn [orb].
    change ("timing" =? "input_voltage") with false.
    change (PyStr.startswith "timing" "ccsn_") with false.
    change ("timing" =? "timing") with true. cbn [orb].
    destruct (dict_get "timing" pd) as [[| | | | |ts|]|]; try discriminate;
      [|reflexivity].
    cbn [option_map]. clear -Ht.
    induction ts as [|t ts IH]; [reflexivity|].
    cbn [forallb] in Ht. apply andb_true_iff in Ht as [Ht Hts].
    cbn [map forallb]. now rewrite (stripped_timing_clean t Ht), (IH Hts).
Qed.

Lemma stripped_record_clean (d : dict) :
  shaped_record d = true -> clean_record (stripped_record d) = true.
Proof.
  unfold shaped_record, clean_record. intros H.
  apply andb_true_iff in H as [Hu Hs].
  rewrite (unique_keys_stripped_record d Hu). cbn [andb]. clear Hu.
  induction d as [|[k v] d IH]; [reflexivity|].
  cbn [forallb] in Hs. apply andb_true_iff in Hs as [Hkv Hd].
  rewrite stripped_record_cons. unfold shaped_item in Hkv. cbn [fst snd] in Hkv.
  destruct (PyStr.contains k "ccsn_") eqn:Hc; [now apply IH|].
  destruct (PyStr.startswith k "pin ") eqn:Hp; cbn [app forallb];
    rewrite (IH Hd), andb_true_r; unfold clean_item; cbn [fst snd];
    rewrite Hc, Hp; cbn [negb andb]; [|reflexivity].
  destruct v; try discriminate Hkv. now apply stripped_pin_clean.
Qed.

(** X15. Stripping is idempotent on well-shaped records: what it returns
    is again well shaped, holds no ccsnoise data, and is returned
    unchanged by a second pass. *)
Theorem remove_ccsnoise_idempotent (d : dict) :
  shaped_record d = true ->
  exists d',
    remove_ccsnoise (VDict d) = Ok (VDict d')
    /\ shaped_record d' = true
    /\ clean_record d' = true
    /\ remove_ccsnoise (VDict d') = Ok (VDict d').
Proof.
  intros Hs. exists (stripped_record d).
  pose proof (stripped_record_clean d Hs) as Hc.
  split; [now apply remove_ccsnoise_shaped|].
  split; [now apply clean_record_shaped|].
  split; [exact Hc|].
  destruct (clean_record_shaped _ Hc) as [Hs' He].
  rewrite (remove_ccsnoise_shaped _ Hs'). now rewrite He.
Qed.

Lemma remove_ccsnoise_idempotent_witness :
  exists d',
    remove_ccsnoise (VDict sample_cell) = Ok (VDict d')
    /\ remove_ccsnoise (VDict d') = Ok (VDict d').
Proof.
  destruct (remove_ccsnoise_idempotent sample_cell eq_refl)
    as (d' & H1 & _ & _ & H2).
  exists d'. now split.
Defined.

Lemma keys_stripped_record (d : dict) :
  keys (stripped_record d)
  = filter (fun k => negb (PyStr.contains k "ccsn_")) (keys d).
Proof.
  induction d as [|[k v] d IH]; [reflexivity|].
  rewrite stripped_record_cons. unfold keys in *. rewrite map_app, IH.
  cbn [map fst filter].
  destruct (PyStr.contains k "ccsn_"); [reflexivity|].
  destruct (PyStr.startswith k "pin "); reflexivity.
Qed.

(** X16. Stripping keeps the order of the record: the keys of the result
    are the keys of the input, in their order, without those that contain
    [ccsn_]; no key is added or repeated. *)
Theorem remove_ccsnoise_keeps_key_order (d : dict) :
  shaped_record d = true ->
  exists d',
    remove_ccsnoise (VDict d) = Ok (VDict d')
    /\ keys d' = filter (fun k => negb (PyStr.contains k "ccsn_")) (keys d)
    /\ unique_keys d' = true.
Proof.
  intros Hs. exists (stripped_record d).
  split; [now apply remove_ccsnoise_shaped|].
  split; [apply keys_stripped_record|].
  apply andb_true_iff in Hs as [Hu _]. now apply unique_keys_stripped_record.
Qed.

Lemma remove_ccsnoise_keeps_key_order_witness :
  exists d',
    remove_ccsnoise (VDict sample_cell) = Ok (VDict d')
    /\ keys d' = filter (fun k => negb (PyStr.contains k "ccsn_"))
                   (keys sample_cell)
    /\ unique_keys d' = true.
Proof. apply (remove_ccsnoise_keeps_key_order sample_cell). reflexivity. Defined.

(** ** The records handed to the serializer *)

Lemma dict_has_set (k k' : string) (v : value) (d : dict) :
  dict_has k' (dict_set k v d) = (k =? k') || dict_has k' d.
Proof.
  unfold dict_has. destruct (String.eqb_spec k k') as [->|Hne].
  - now rewrite dict_get_set_same.
  - now rewrite dict_get_set_other.
Qed.

Lemma unique_keys_set (k : string) (v : value) (d : dict) :
  unique_keys d = true -> unique_keys (dict_set k v d) = true.
Proof.
  induction d as [|[k' v'] d IH]; intros Hu; [reflexivity|].
  cbn [unique_keys] in Hu. apply andb_true_iff in Hu as [Hk Hu].
  cbn [dict_set]. destruct (String.eqb_spec k' k) as [->|Hne];
    cbn [unique_keys].
  - now rewrite Hk, Hu.
  - rewrite dict_has_set, (IH Hu). apply negb_true_iff in Hk. rewrite Hk.
    assert (Hkk : (k =? k') = false) by (apply String.eqb_neq; congruence).
    now rewrite Hkk.
Qed.

Lemma shaped_items_set (k : string) (v : value) (d : dict) :
  shaped_item (k, v) = true -> forallb shaped_item d = true ->
  forallb shaped_item (dict_set k v d) = true.
Proof.
  intros Hv. induction d as [|[k' v'] d IH]; intros Hd.
  - cbn [dict_set forallb]. now rewrite Hv.
  - cbn [forallb] in Hd. apply andb_true_iff in Hd as [Hkv Hd].
    cbn [dict_set]. destruct (k' =? k); cbn [forallb].
    + now rewrite Hv, Hd.
    + now rewrite Hkv, (IH Hd).
Qed.

Lemma merge_top_shaped (items common : dict) (log : list overwrite) :
  forallb shaped_item items = true ->
  shaped_record common = true ->
  shaped_record (fst (merge_top items common log)) = true.
Proof.
  revert common log. induction items as [|[k v] r IH];
    intros common log Hi Hc; [exact Hc|].
  cbn [forallb] in Hi. apply andb_true_iff in Hi as [Hkv Hr].
  cbn [merge_top]. apply IH; [exact Hr|].
  unfold shaped_record in *. apply andb_true_iff in Hc as [Hu Hs].
  now rewrite (unique_keys_set k v common Hu), (shaped_items_set k v common Hkv Hs).
Qed.

Lemma mapM_ext_in {A B : Type} (f g : A -> result B) (l : list A) :
  (forall x, In x l -> f x = g x) -> mapM f l = mapM g l.
Proof.
  induction l as [|x l IH]; intros H; [reflexivity|].
  cbn [mapM]. rewrite (H x) by now left.
  rewrite IH; [reflexivity|]. intros y Hy. apply H. now right.
Qed.

(** X17. End to end: when the common record, the corner's ccsnoise top
    record and the ccsnoise record of every cell are in place and well
    shaped, a basic run fed from them hands to the serializer exactly the
    stripped merged record and the stripped cell records, none of which
    holds ccsnoise data any more, and reports the overwritten keys. *)
Theorem generate_basic_serializes_stripped
    (parse_size : string -> option string) (fs : string -> option value)
    (liberty_dict : string -> string -> value -> list string
                    -> result (list string))
    (lib corner : string) (cells : list string)
    (common top : dict) (cell_record : string -> dict) :
  fs ("timing/" ++ lib ++ "__common.lib.json") = Some (VDict common) ->
  fs ("timing/" ++ lib ++ "__" ++ corner ++ "_ccsnoise.lib.json")
  = Some (VDict top) ->
  shaped_record common = true ->
  shaped_record top = true ->
  (forall c, In c cells ->
             fs ("cells/" ++ cell_base parse_size c ++ "/" ++ lib ++ "__" ++ c
                 ++ "__" ++ corner ++ "_ccsnoise.lib.json")
             = Some (VDict (cell_record c))
             /\ shaped_record (cell_record c) = true) ->
  generate parse_size fs liberty_dict lib corner
    TimingType.basic TimingType.ccsnoise cells
  = (header <- library_header liberty_dict lib corner
                 (VDict (stripped_record (fst (merge_top top common [])))) ;;
     groups <- mapM (fun c => cell_text liberty_dict lib c
                                (VDict (stripped_record (cell_record c))))
                 cells ;;
     Ok ((header ++ List.concat groups ++ [""; "}"])%list,
         overwrites_of top common))
  /\ clean_record (stripped_record (fst (merge_top top common []))) = true
  /\ (forall c, In c cells ->
                clean_record (stripped_record (cell_record c)) = true).
Proof.
  intros Hfc Hft Hsc Hst Hcells.
  assert (Huc : unique_keys common = true)
    by (now apply andb_true_iff in Hsc as [Hu _]).
  assert (Hut : unique_keys top = true /\ forallb shaped_item top = true)
    by (now apply andb_true_iff in Hst).
  destruct Hut as [Hut Hit].
  pose proof (merge_top_shaped top common [] Hit Hsc) as Hsm.
  split; [|split].
  - rewrite generate_singular by reflexivity.
    unfold load_merged, load_dict, load_json. rewrite Hfc. cbn [bind].
    rewrite (load_common_ok common [] Huc)
      by (apply forallb_forall; intros; reflexivity).
    rewrite (top_corner_file_ok lib corner TimingType.ccsnoise eq_refl).
    cbn [bind app].
    change (TimingType.file TimingType.ccsnoise ++ ".lib.json")
      with "_ccsnoise.lib.json".
    rewrite Hft. cbn [bind].
    change (strip_for TimingType.basic) with remove_ccsnoise.
    rewrite (remove_ccsnoise_shaped _ Hsm). cbn [bind].
    rewrite (merge_top_log top common [] Hut). cbn [app].
    destruct (library_header liberty_dict lib corner _) as [header|e];
      cbn [bind]; [|reflexivity].
    erewrite mapM_ext_in; [reflexivity|].
    intros c Hc. destruct (Hcells c Hc) as [Hf Hs].
    change (TimingType.file TimingType.ccsnoise ++ ".lib.json")
      with "_ccsnoise.lib.json".
    rewrite Hf. cbn [bind].
    now rewrite (remove_ccsnoise_shaped _ Hs).
  - now apply stripped_record_clean.
  - intros c Hc. destruct (Hcells c Hc) as [_ Hs].
    now apply stripped_record_clean.
Qed.

Lemma generate_basic_serializes_stripped_witness :
  clean_record (stripped_record (fst (merge_top sample_top sample_common [])))
  = true.
Proof.
  apply (generate_basic_serializes_stripped sample_parse_size sample_fs
           sample_serializer "lib" "tt" ["inv_1"] sample_common sample_top
           (fun _ => sample_cell)); try reflexivity.
  intros c [<-|[]]. split; reflexivity.
Defined.

(** ** From the request to the serializer *)

(** [generate] fed from the ccsnoise files of a corner, once they are
    read. *)
Lemma generate_from_ccsnoise_files
    (parse_size : string -> option string) (fs : string -> option value)
    (liberty_dict : string -> string -> value -> list string
                    -> result (list string))
    (lib corner : string) (otype : TimingType.t) (cells : list string)
    (common top : dict) (cell_record : string -> dict) :
  TimingType.singular otype = true ->
  fs ("timing/" ++ lib ++ "__common.lib.json") = Some (VDict common) ->
  fs ("timing/" ++ lib ++ "__" ++ corner ++ "_ccsnoise.lib.json")
  = Some (VDict top) ->
  unique_keys common = true ->
  unique_keys top = true ->
  (forall c, In c cells ->
             fs ("cells/" ++ cell_base parse_size c ++ "/" ++ lib ++ "__" ++ c
                 ++ "__" ++ corner ++ "_ccsnoise.lib.json")
             = Some (VDict (cell_record c))) ->
  generate parse_size fs liberty_dict lib corner otype TimingType.ccsnoise cells
  = (data <- strip_for otype (VDict (fst (merge_top top common []))) ;;
     header <- library_header liberty_dict lib corner data ;;
     groups <- mapM (fun c =>
                       cell_data <- strip_for otype (VDict (cell_record c)) ;;
                       cell_text liberty_dict lib c cell_data) cells ;;
     Ok ((header ++ List.concat groups ++ [""; "}"])%list,
         overwrites_of top common)).
Proof.
  intros Ho Hfc Hft Huc Hut Hcells.
  rewrite (generate_singular parse_size fs liberty_dict lib corner otype
             TimingType.ccsnoise cells Ho eq_refl).
  unfold load_merged, load_dict, load_json. rewrite Hfc. cbn [bind].
  rewrite (load_common_ok common [] Huc)
    by (apply forallb_forall; intros; reflexivity).
  rewrite (top_corner_file_ok lib corner TimingType.ccsnoise eq_refl).
  cbn [bind app].
  change (TimingType.file TimingType.ccsnoise ++ ".lib.json")
    with "_ccsnoise.lib.json".
  rewrite Hft. cbn [bind].
  rewrite (merge_top_log top common [] Hut). cbn [app].
  destruct (strip_for otype _) as [data|e]; cbn [bind]; [|reflexivity].
  destruct (library_header liberty_dict lib corner data) as [header|e];
    cbn [bind]; [|reflexivity].
  erewrite mapM_ext_in; [reflexivity|].
  intros c Hc.
  change (TimingType.file TimingType.ccsnoise ++ ".lib.json")
    with "_ccsnoise.lib.json".
  rewrite (Hcells c Hc). reflexivity.
Qed.

(** C1. For a corner whose capabilities hold [basic] and [ccsnoise], a
    [basic] request makes [main] choose [ccsnoise] as input variant.  With
    the common record, the corner's [_ccsnoise] top record and the
    [_ccsnoise] record of every cell in place and well shaped, that run
    reads these files and what it hands to the serializer is the stripped
    merged record and the stripped record of each cell, in which no
    ccsnoise data is left.  A [ccsnoise] or [leakage] request keeps the
    input variant equal to the output variant, and the [ccsnoise] run
    hands the same records to the serializer as they were loaded. *)
Theorem basic_output_from_ccsnoise_input
    (parse_size : string -> option string) (fs : string -> option value)
    (liberty_dict : string -> string -> value -> list string
                    -> result (list string))
    (lib corner : string) (caps : TimingType.t) (cells : list string)
    (common top : dict) (cell_record : string -> dict) :
  TimingType.contains caps TimingType.basic = true ->
  TimingType.contains caps TimingType.ccsnoise = true ->
  fs ("timing/" ++ lib ++ "__common.lib.json") = Some (VDict common) ->
  fs ("timing/" ++ lib ++ "__" ++ corner ++ "_ccsnoise.lib.json")
  = Some (VDict top) ->
  shaped_record common = true ->
  shaped_record top = true ->
  (forall c, In c cells ->
             fs ("cells/" ++ cell_base parse_size c ++ "/" ++ lib ++ "__" ++ c
                 ++ "__" ++ corner ++ "_ccsnoise.lib.json")
             = Some (VDict (cell_record c))
             /\ shaped_record (cell_record c) = true) ->
  select_input TimingType.basic caps = TimingType.ccsnoise
  /\ main_corner parse_size fs liberty_dict lib corner TimingType.basic
       (caps, cells)
     = (header <- library_header liberty_dict lib corner
                    (VDict (stripped_record (fst (merge_top top common [])))) ;;
        groups <- mapM (fun c => cell_text liberty_dict lib c
                                   (VDict (stripped_record (cell_record c))))
                    cells ;;
        Ok (Some ((header ++ List.concat groups ++ [""; "}"])%list,
                  overwrites_of top common)))
  /\ clean_record (stripped_record (fst (merge_top top common []))) = true
  /\ (forall c, In c cells ->
                clean_record (stripped_record (cell_record c)) = true)
  /\ select_input TimingType.ccsnoise caps = TimingType.ccsnoise
  /\ select_input TimingType.leakage caps = TimingType.leakage
  /\ main_corner parse_size fs liberty_dict lib corner TimingType.ccsnoise
       (caps, cells)
     = (header <- library_header liberty_dict lib corner
                    (VDict (fst (merge_top top common []))) ;;
        groups <- mapM (fun c => cell_text liberty_dict lib c
                                   (VDict (cell_record c)))
                    cells ;;
        Ok (Some ((header ++ List.concat groups ++ [""; "}"])%list,
                  overwrites_of top common))).
Proof.
  intros Hb Hc Hfc Hft Hsc Hst Hcells.
  assert (Hsel : select_input TimingType.basic caps = TimingType.ccsnoise)
    by (unfold select_input; now rewrite Hc).
  assert (Huc : unique_keys common = true)
    by (now apply andb_true_iff in Hsc as [Hu _]).
  assert (Hut : unique_keys top = true /\ forallb shaped_item top = true)
    by (now apply andb_true_iff in Hst).
  destruct Hut as [Hut Hit].
  pose proof (merge_top_shaped top common [] Hit Hsc) as Hsm.
  assert (Hfiles : forall c, In c cells ->
             fs ("cells/" ++ cell_base parse_size c ++ "/" ++ lib ++ "__" ++ c
                 ++ "__" ++ corner ++ "_ccsnoise.lib.json")
             = Some (VDict (cell_record c)))
    by (intros c Hin; now destruct (Hcells c Hin)).
  split; [exact Hsel|]. split; [|split; [|split; [|split; [|split]]]].
  - unfold main_corner. rewrite Hb, Hsel. cbn [negb].
    rewrite (generate_from_ccsnoise_files parse_size fs liberty_dict lib corner
               TimingType.basic cells common top cell_record
               eq_refl Hfc Hft Huc Hut Hfiles).
    change (strip_for TimingType.basic) with remove_ccsnoise.
    rewrite (remove_ccsnoise_shaped _ Hsm). cbn [bind].
    destruct (library_header liberty_dict lib corner _) as [header|e];
      cbn [bind]; [|reflexivity].
    rewrite (mapM_ext_in
               (fun c => cell_data <- remove_ccsnoise (VDict (cell_record c)) ;;
                         cell_text liberty_dict lib c cell_data)
               (fun c => cell_text liberty_dict lib c
                           (VDict (stripped_record (cell_record c)))) cells).
    + destruct (mapM _ cells); reflexivity.
    + intros c Hin. destruct (Hcells c Hin) as [_ Hs].
      now rewrite (remove_ccsnoise_shaped _ Hs).
  - now apply stripped_record_clean.
  - intros c Hin. destruct (Hcells c Hin) as [_ Hs].
    now apply stripped_record_clean.
  - reflexivity.
  - reflexivity.
  - unfold main_corner. rewrite Hc. cbn [negb].
    change (select_input TimingType.ccsnoise caps) with TimingType.ccsnoise.
    rewrite (generate_from_ccsnoise_files parse_size fs liberty_dict lib corner
               TimingType.ccsnoise cells common top cell_record
               eq_refl Hfc Hft Huc Hut Hfiles).
    change (strip_for TimingType.ccsnoise) with (fun d : value => Ok d).
    cbn [bind].
    destruct (library_header liberty_dict lib corner _) as [header|e];
      cbn [bind]; [|reflexivity].
    destruct (mapM _ cells); reflexivity.
Qed.

Lemma basic_output_from_ccsnoise_input_witness :
  select_input TimingType.basic
    (TimingType.union TimingType.basic TimingType.ccsnoise)
  = TimingType.ccsnoise
  /\ main_corner sample_parse_size sample_fs sample_serializer "lib" "tt"
       TimingType.basic
       (TimingType.union TimingType.basic TimingType.ccsnoise, ["inv_1"])
     = (header <- library_header sample_serializer "lib" "tt"
                    (VDict (stripped_record
                              (fst (merge_top sample_top sample_common [])))) ;;
        groups <- mapM (fun c => cell_text sample_serializer "lib" c
                                   (VDict (stripped_record sample_cell)))
                    ["inv_1"] ;;
        Ok (Some ((header ++ List.concat groups ++ [""; "}"])%list,
                  overwrites_of sample_top sample_common))).
Proof.
  destruct (basic_output_from_ccsnoise_input sample_parse_size sample_fs
              sample_serializer "lib" "tt"
              (TimingType.union TimingType.basic TimingType.ccsnoise)
              ["inv_1"] sample_common sample_top (fun _ => sample_cell)
              eq_refl eq_refl eq_refl eq_refl eq_refl eq_refl)
    as (Hsel & Hrun & _).
  - intros c [<-|[]]. split; reflexivity.
  - split; [exact Hsel | exact Hrun].
Defined.

(** ** The inventory collector *)

Example collect_sample :
  collect sample_paths
  = Ok (Collected "lib"
          [("tt", (TimingType.ccsnoise, ["buf_2"; "inv_1"]));
           ("ff", (TimingType.leakage, ["buf_2"]))]
          ["buf_2"; "inv_1"]
          [("ff", ["inv_1"])]).
Proof. vm_compute. reflexivity. Qed.

Lemma leb_neq_ltb (x y : string) :
  String.leb x y = true -> x <> y -> String.ltb x y = true.
Proof.
  unfold String.leb, String.ltb. intros Hle Hne.
  destruct (String.compare x y) eqn:E; try reflexivity; try discriminate.
  apply String.compare_eq_iff in E. contradiction.
Qed.

Lemma leb_false_ltb (x y : string) :
  String.leb x y = false -> String.ltb y x = true.
Proof.
  unfold String.leb, String.ltb. intros Hle.
  rewrite String.compare_antisym.
  destruct (String.compare x y); try discriminate. reflexivity.
Qed.

Lemma in_insert_sorted (x y : string) (l : list string) :
  In y (insert_sorted x l) <-> y = x \/ In y l.
Proof.
  induction l as [|z l IH]; cbn [insert_sorted].
  - cbn. intuition.
  - destruct (String.leb x z); cbn [In]; [intuition|].
    rewrite IH. intuition.
Qed.

Lemma in_py_sorted (y : string) (l : list string) :
  In y (py_sorted l) <-> In y l.
Proof.
  induction l as [|x l IH]; [reflexivity|].
  cbn [py_sorted fold_right]. fold (py_sorted l).
  rewrite in_insert_sorted, IH. cbn [In]. intuition.
Qed.

Lemma insert_sorted_strict (x : string) (l : list string) :
  Sorted str_lt l -> ~ In x l -> Sorted str_lt (insert_sorted x l).
Proof.
  induction l as [|y l IH]; intros Hs Hn; cbn [insert_sorted].
  - repeat constructor.
  - destruct (String.leb x y) eqn:E.
    + constructor; [exact Hs|]. constructor.
      apply leb_neq_ltb; [exact E|]. intros ->. apply Hn. now left.
    + inversion Hs as [|? ? Hs' Hhd]; subst.
      constructor; [apply IH; [exact Hs'|]; intros Hin; apply Hn; now right|].
      destruct l as [|z l]; cbn [insert_sorted].
      * constructor. now apply leb_false_ltb.
      * destruct (String.leb x z); constructor.
        -- now apply leb_false_ltb.
        -- now inversion Hhd.
Qed.

Lemma py_sorted_strict (l : list string) :
  NoDup l -> Sorted str_lt (py_sorted l).
Proof.
  induction 1 as [|x l Hx _ IH]; [constructor|].
  cbn [py_sorted fold_right]. fold (py_sorted l).
  apply insert_sorted_strict; [exact IH|]. now rewrite in_py_sorted.
Qed.

Lemma in_set_add (x y : string) (l : list string) :
  In y (set_add x l) <-> y = x \/ In y l.
Proof.
  unfold set_add. destruct (existsb (String.eqb x) l) eqn:E.
  - split; [now right|]. intros [->|H]; [|exact H].
    apply existsb_exists in E as (z & Hz & Heq).
    apply String.eqb_eq in Heq. now subst.
  - rewrite in_app_iff. cbn [In]. intuition.
Qed.

Lemma NoDup_set_add (x : string) (l : list string) :
  NoDup l -> NoDup (set_add x l).
Proof.
  intros Hl. unfold set_add. destruct (existsb (String.eqb x) l) eqn:E;
    [exact Hl|].
  apply NoDup_app; [exact Hl | repeat constructor; intros [] |].
  intros y Hy Hin. destruct Hin as [Heq|[]]. subst y.
  assert (Ht : existsb (String.eqb x) l = true)
    by (apply existsb_exists; exists x; split;
        [exact Hy | apply String.eqb_refl]).
  congruence.
Qed.

Lemma assoc_get_set_same {A : Type} (k : string) (v : A) (l : list (string * A)) :
  assoc_get k (assoc_set k v l) = Some v.
Proof.
  induction l as [|[k' v'] l IH]; cbn [assoc_set assoc_get].
  - now rewrite String.eqb_refl.
  - destruct (k' =? k) eqn:E; cbn [assoc_get].
    + now rewrite String.eqb_refl.
    + now rewrite E.
Qed.

Lemma assoc_get_set_other {A : Type} (k k' : string) (v : A)
    (l : list (string * A)) :
  k <> k' -> assoc_get k' (assoc_set k v l) = assoc_get k' l.
Proof.
  intros Hne. induction l as [|[k0 v0] l IH]; cbn [assoc_set assoc_get].
  - apply String.eqb_neq in Hne. now rewrite Hne.
  - destruct (String.eqb_spec k0 k) as [->|Hk0]; cbn [assoc_get].
    + apply String.eqb_neq in Hne. now rewrite Hne.
    + now rewrite IH.
Qed.

Lemma assoc_get_in {A : Type} (k : string) (v : A) (l : list (string * A)) :
  assoc_get k l = Some v -> In (k, v) l.
Proof.
  induction l as [|[k' v'] l IH]; [discriminate|].
  cbn [assoc_get]. destruct (String.eqb_spec k' k) as [->|].
  - intros [= ->]. now left.
  - intros H. right. now apply IH.
Qed.

Lemma in_assoc_set {A : Type} (k : string) (v : A) (l : list (string * A))
    (item : string * A) :
  In item (assoc_set k v l) -> item = (k, v) \/ In item l.
Proof.
  induction l as [|[k' v'] l IH]; cbn [assoc_set].
  - intros [<-|[]]. now left.
  - destruct (k' =? k); cbn [In].
    + intros [<-|H]; [now left | right; now right].
    + intros [<-|H]; [right; now left|].
      destruct (IH H) as [->|H']; [now left | right; now right].
Qed.

Lemma keys_assoc_set {A : Type} (k : string) (v : A) (l : list (string * A)) :
  NoDup (map fst l) -> NoDup (map fst (assoc_set k v l)).
Proof.
  induction l as [|[k' v'] l IH]; intros Hn; cbn [assoc_set].
  - repeat constructor. intros [].
  - inversion Hn as [|? ? Hk Hl]; subst.
    destruct (String.eqb_spec k' k) as [->|Hne]; cbn [map fst].
    + now constructor.
    + constructor; [|now apply IH].
      intros Hin. apply in_map_iff in Hin as ([k0 v0] & Hk0 & Hin).
      cbn [fst] in Hk0. subst k0.
      apply in_assoc_set in Hin as [[= -> ->]|Hin]; [congruence|].
      apply Hk. apply in_map_iff. now exists (k', v0).
Qed.

Lemma union_contains_l (a b x : TimingType.t) :
  TimingType.contains a x = true ->
  TimingType.contains (TimingType.union a b) x = true.
Proof.
  unfold TimingType.contains, TimingType.union.
  intros H. apply N.eqb_eq in H. apply N.eqb_eq.
  apply N.bits_inj. intros n. apply (f_equal (fun z => N.testbit z n)) in H.
  rewrite N.land_spec in *. rewrite N.lor_spec.
  destruct (N.testbit x n), (N.testbit a n), (N.testbit b n);
    cbn in *; congruence.
Qed.

Lemma union_contains_r (a b : TimingType.t) :
  TimingType.contains (TimingType.union a b) b = true.
Proof.
  unfold TimingType.contains, TimingType.union. apply N.eqb_eq.
  apply N.bits_inj. intros n. rewrite N.land_spec, N.lor_spec.
  destruct (N.testbit a n), (N.testbit b n); reflexivity.
Qed.

Lemma parse_member (name : string) :
  TimingType.member_union (snd (TimingType.parse name)).
Proof.
  unfold TimingType.parse.
  destruct (PyStr.endswith name "_ccsnoise");
    [|destruct (PyStr.endswith name "_pwrlkg")];
    apply TimingType.mu_member; cbn; auto.
Qed.

(** What one round of the loop does to the state. *)
Lemma collect_step_inv (st st' : inventory) (p : string) :
  collect_step st p = Ok st' ->
  (PyStr.contains p "timing" = true /\ st' = st)
  \/ (PyStr.contains p "timing" = false
      /\ exists fname ext libname cell corner,
           split_first "." (basename p) = Some (fname, ext)
           /\ split_dunder fname = [libname; cell; corner]
           /\ (inv_lib st = None \/ inv_lib st = Some libname)
           /\ st' = Inventory (Some libname)
                      (assoc_set (fst (TimingType.parse corner))
                         (TimingType.union
                            (fst match assoc_get (fst (TimingType.parse corner))
                                         (inv_corners st) with
                                 | None => (snd (TimingType.parse corner), [])
                                 | Some e => e
                                 end)
                            (snd (TimingType.parse corner)),
                          set_add cell
                            (snd match assoc_get (fst (TimingType.parse corner))
                                         (inv_corners st) with
                                 | None => (snd (TimingType.parse corner), [])
                                 | Some e => e
                                 end))
                         (inv_corners st))
                      (set_add cell (inv_cells st))).
Proof.
  unfold collect_step.
  destruct (PyStr.contains p "timing"); [intros [= <-]; now left|].
  destruct (split_first "." (basename p)) as [[fname ext]|] eqn:Hf;
    [|discriminate].
  destruct (split_dunder fname) as [|libname [|cell [|corner [|? ?]]]] eqn:Hd;
    try discriminate.
  intros H. right. split; [reflexivity|].
  exists fname, ext, libname, cell, corner.
  split; [reflexivity|]. split; [exact Hd|].
  destruct (TimingType.parse corner) as [cn ct] eqn:Hp. cbn [fst snd].
  destruct (inv_lib st) as [l|] eqn:Hl.
  - destruct (String.eqb_spec l libname) as [->|Hne];
      cbn [py_assert bind] in H; [|discriminate].
    injection H as <-. split; [now right | reflexivity].
  - rewrite String.eqb_refl in H. cbn [py_assert bind] in H.
    injection H as <-. split; [now left | reflexivity].
Qed.

Lemma collect_step_ok (st st' : inventory) (p : string) :
  collect_step st p = Ok st' ->
  inventory_ok (inv_corners st) (inv_cells st) ->
  inventory_ok (inv_corners st') (inv_cells st').
Proof.
  intros Hstep (Hc & Hn & Hall).
  destruct (collect_step_inv _ _ _ Hstep) as [[_ ->]|(_ & H)];
    [exact (conj Hc (conj Hn Hall))|].
  destruct H as (fname & ext & libname & cell & corner & _ & _ & _ & ->).
  cbn [inv_corners inv_cells].
  set (cn := fst (TimingType.parse corner)).
  set (ct := snd (TimingType.parse corner)).
  set (entry := match assoc_get cn (inv_corners st) with
                | None => (ct, [])
                | Some e => e
                end).
  assert (Hentry : NoDup (snd entry) /\ incl (snd entry) (inv_cells st)
                   /\ TimingType.member_union (fst entry)).
  { subst entry. destruct (assoc_get cn (inv_corners st)) as [[t cs]|] eqn:E.
    - apply assoc_get_in in E. destruct (Hall _ _ _ E) as (H1 & H2 & _ & H4).
      now repeat split.
    - cbn [fst snd]. repeat split; [constructor | intros x [] |].
      apply parse_member. }
  destruct Hentry as (He1 & He2 & He3).
  split; [now apply NoDup_set_add|]. split; [now apply keys_assoc_set|].
  intros c t cs Hin. apply in_assoc_set in Hin as [[= -> -> ->]|Hin].
  - split; [now apply NoDup_set_add|]. split; [|split].
    + intros x Hx. apply in_set_add in Hx as [->|Hx]; apply in_set_add;
        [now left | right; now apply He2].
    + intros Hnil.
      assert (Hin : In cell (set_add cell (snd entry)))
        by (apply in_set_add; now left).
      rewrite Hnil in Hin. destruct Hin.
    + apply TimingType.mu_union; [exact He3 | apply parse_member].
  - destruct (Hall _ _ _ Hin) as (H1 & H2 & H3 & H4).
    repeat split; try assumption.
    intros x Hx. apply in_set_add. right. now apply H2.
Qed.

Lemma collect_step_records (st st' : inventory) (p : string) :
  collect_step st p = Ok st' ->
  (PyStr.contains p "timing" = false ->
   recorded (inv_lib st') (inv_corners st') (inv_cells st') p)
  /\ (forall q, recorded (inv_lib st) (inv_corners st) (inv_cells st) q ->
                recorded (inv_lib st') (inv_corners st') (inv_cells st') q).
Proof.
  intros Hstep.
  destruct (collect_step_inv _ _ _ Hstep) as [[Ht ->]|(Ht & H)].
  - split; [congruence | auto].
  - destruct H as (fname & ext & libname & cell & corner & Hf & Hd & Hl & ->).
    cbn [inv_lib inv_corners inv_cells]. split.
    + intros _. exists fname, ext, libname, cell, corner.
      repeat (split; [assumption || reflexivity|]).
      eexists _, _. rewrite assoc_get_set_same.
      split; [reflexivity|]. split; [apply union_contains_r|].
      split; apply in_set_add; now left.
    + intros q (fname' & ext' & libname' & cell' & corner' & Hf' & Hd' & Hl'
                & t & cs & Hg & Hc & Hin & Hall).
      exists fname', ext', libname', cell', corner'.
      split; [exact Hf'|]. split; [exact Hd'|].
      split; [destruct Hl as [Hl|Hl]; congruence|].
      destruct (String.eqb_spec (fst (TimingType.parse corner))
                  (fst (TimingType.parse corner'))) as [Heq|Hne].
      * rewrite <- Heq in *. rewrite Hg. cbn [fst snd].
        eexists _, _. rewrite assoc_get_set_same.
        split; [reflexivity|]. split; [now apply union_contains_l|].
        split; apply in_set_add; now right.
      * exists t, cs. rewrite assoc_get_set_other by exact Hne.
        split; [exact Hg|]. split; [exact Hc|]. split; [exact Hin|].
        apply in_set_add. now right.
Qed.

Lemma collect_loop_facts (paths : list string) (st st' : inventory) :
  collect_loop st paths = Ok st' ->
  (inventory_ok (inv_corners st) (inv_cells st) ->
   inventory_ok (inv_corners st') (inv_cells st'))
  /\ (forall q, recorded (inv_lib st) (inv_corners st) (inv_cells st) q ->
                recorded (inv_lib st') (inv_corners st') (inv_cells st') q)
  /\ (forall p, In p paths -> PyStr.contains p "timing" = false ->
                recorded (inv_lib st') (inv_corners st') (inv_cells st') p).
Proof.
  revert st. induction paths as [|p r IH]; intros st.
  - intros [= <-]. split; [auto|]. split; [auto|]. intros p [].
  - cbn [collect_loop]. destruct (collect_step st p) as [st1|] eqn:Hs;
      cbn [bind]; [|discriminate].
    intros Hl. destruct (IH _ Hl) as (Hok & Hmono & Hrec).
    destruct (collect_step_records _ _ _ Hs) as [Hp Hq].
    split; [|split].
    + intros H. apply Hok. now apply (collect_step_ok _ _ _ Hs).
    + intros q Hq'. apply Hmono. now apply Hq.
    + intros p' [<-|Hin] Ht; [apply Hmono; now apply Hp | now apply Hrec].
Qed.

Lemma assoc_get_map {A B : Type} (g : A -> B) (k : string)
    (l : list (string * A)) :
  assoc_get k (map (fun item => (fst item, g (snd item))) l)
  = option_map g (assoc_get k l).
Proof.
  induction l as [|[k' v'] l IH]; [reflexivity|].
  cbn [map assoc_get fst snd]. destruct (k' =? k); [reflexivity | exact IH].
Qed.

(** What a successful [collect] is made of. *)
Lemma collect_inv (paths : list string) (r : collected) :
  collect paths = Ok r ->
  exists st,
    collect_loop (Inventory None [] []) paths = Ok st
    /\ inv_lib st = Some (col_lib r) /\ col_lib r <> ""
    /\ inv_corners st <> []
    /\ col_corners r
       = map (fun item => (fst item, (fun e => (fst e, py_sorted (snd e)))
                                       (snd item))) (inv_corners st)
    /\ col_cells r = py_sorted (inv_cells st)
    /\ col_missing r = missing_report (col_corners r) (col_cells r).
Proof.
  unfold collect.
  destruct (collect_loop (Inventory None [] []) paths) as [st|] eqn:Hl;
    cbn [bind]; [|discriminate].
  rewrite length_map.
  destruct (inv_corners st) as [|c0 cs0] eqn:Hc; [discriminate|].
  cbn [List.length Nat.eqb negb py_assert bind].
  destruct (inv_cells st) as [|x0 xs0] eqn:Hx; [discriminate|].
  cbn [List.length Nat.eqb negb py_assert bind].
  destruct (inv_lib st) as [l|] eqn:Hlib; [|discriminate].
  destruct (String.eqb_spec l "") as [->|Hne]; [discriminate|].
  cbn [negb py_assert bind]. intros [= <-]. cbn.
  exists st. rewrite ?Hlib, ?Hc, ?Hx.
  repeat split; try reflexivity; try assumption; discriminate.
Qed.

(** X18. Every file outside the [timing] tree is accounted for in what
    [collect] returns: its name splits into library, cell and corner; the
    library is the one returned (so all files agree on it); the corner
    parsed from the name is listed, advertises the variant of the file,
    and lists the cell, which is also among all cells. *)
Theorem collect_accounts_for_files (paths : list string) (r : collected) :
  collect paths = Ok r ->
  forall p, In p paths -> PyStr.contains p "timing" = false ->
            recorded (Some (col_lib r)) (col_corners r) (col_cells r) p.
Proof.
  intros Hc p Hp Ht.
  destruct (collect_inv _ _ Hc) as (st & Hl & Hlib & _ & _ & Hcs & Hce & _).
  destruct (collect_loop_facts _ _ _ Hl) as (_ & _ & Hrec).
  destruct (Hrec p Hp Ht)
    as (fname & ext & libname & cell & corner & Hf & Hd & Hl'
        & t & cs & Hg & Hcon & Hin & Hall).
  exists fname, ext, libname, cell, corner.
  split; [exact Hf|]. split; [exact Hd|]. split; [congruence|].
  exists t, (py_sorted cs). rewrite Hcs, Hce.
  rewrite (assoc_get_map (fun e => (fst e, py_sorted (snd e)))), Hg.
  split; [reflexivity|]. split; [exact Hcon|].
  split; now apply in_py_sorted.
Qed.

Lemma collect_accounts_for_files_witness :
  recorded (Some "lib")
    [("tt", (TimingType.ccsnoise, ["buf_2"; "inv_1"]));
     ("ff", (TimingType.leakage, ["buf_2"]))]
    ["buf_2"; "inv_1"]
    "sky130/cells/buf/lib__buf_2__ff_pwrlkg.lib.json".
Proof.
  apply (collect_accounts_for_files sample_paths _ collect_sample);
    [cbn; auto | reflexivity].
Defined.

Lemma collect_ok_facts (paths : list string) (r : collected) :
  collect paths = Ok r ->
  Sorted str_lt (col_cells r)
  /\ NoDup (map fst (col_corners r))
  /\ col_lib r <> ""
  /\ col_corners r <> []
  /\ forall c t cs,
       In (c, (t, cs)) (col_corners r) ->
       Sorted str_lt cs /\ incl cs (col_cells r) /\ cs <> []
       /\ TimingType.member_union t.
Proof.
  intros Hc.
  destruct (collect_inv _ _ Hc) as (st & Hl & _ & Hne & Hnil & Hcs & Hce & _).
  destruct (collect_loop_facts _ _ _ Hl) as (Hok & _ & _).
  assert (Hinit : inventory_ok [] []).
  { split; [constructor|]. split; [constructor|]. intros ? ? ? []. }
  destruct (Hok Hinit) as (Hcells & Hnames & Hall).
  rewrite Hcs, Hce. split; [now apply py_sorted_strict|].
  split; [now rewrite map_map|]. split; [exact Hne|].
  split; [destruct (inv_corners st); [congruence | discriminate]|].
  intros c t cs Hin. apply in_map_iff in Hin as ([c' [t' cs']] & Heq & Hin).
  cbn [fst snd] in Heq. injection Heq as -> -> <-.
  destruct (Hall _ _ _ Hin) as (H1 & H2 & H3 & H4).
  split; [now apply py_sorted_strict|]. split; [|split; [|exact H4]].
  - intros x Hx. rewrite in_py_sorted in *. now apply H2.
  - intros Hs. destruct cs' as [|x xs]; [congruence|].
    assert (Hx : In x (py_sorted (x :: xs))) by (apply in_py_sorted; now left).
    rewrite Hs in Hx. destruct Hx.
Qed.

(** X19. What [collect] returns is in order: the list of all cells is
    strictly increasing, no corner name occurs twice, the library name is
    not empty, and every corner holds a union of enumeration members and a
    non-empty, strictly increasing list of cells taken from the list of
    all cells. *)
Theorem collect_outputs_ordered (paths : list string) (r : collected) :
  collect paths = Ok r ->
  Sorted str_lt (col_cells r)
  /\ NoDup (map fst (col_corners r))
  /\ col_lib r <> ""
  /\ col_corners r <> []
  /\ forall c t cs,
       In (c, (t, cs)) (col_corners r) ->
       Sorted str_lt cs /\ incl cs (col_cells r) /\ cs <> []
       /\ TimingType.member_union t.
Proof. apply collect_ok_facts. Qed.

Lemma collect_outputs_ordered_witness :
  Sorted str_lt ["buf_2"; "inv_1"].
Proof.
  apply (collect_outputs_ordered sample_paths _ collect_sample).
Defined.

Lemma in_insert_by_name {A : Type} (x y : string * A) (l : list (string * A)) :
  In y (insert_by_name x l) <-> y = x \/ In y l.
Proof.
  induction l as [|z l IH]; cbn [insert_by_name].
  - cbn. intuition.
  - destruct (String.leb (fst x) (fst z)); cbn [In]; [intuition|].
    rewrite IH. intuition.
Qed.

Lemma in_sorted_items {A : Type} (y : string * A) (l : list (string * A)) :
  In y (fold_right insert_by_name [] l) <-> In y l.
Proof.
  induction l as [|x l IH]; [reflexivity|].
  cbn [fold_right]. rewrite in_insert_by_name, IH. cbn [In]. intuition.
Qed.

Lemma in_missing_cells (all_cells cs : list string) (x : string) :
  In x (missing_cells all_cells cs) <-> In x all_cells /\ ~ In x cs.
Proof.
  unfold missing_cells. rewrite filter_In. split; intros [Ha Hn];
    (split; [exact Ha|]).
  - intros Hin. apply negb_true_iff in Hn.
    assert (Ht : existsb (String.eqb x) cs = true)
      by (apply existsb_exists; exists x; split;
          [exact Hin | apply String.eqb_refl]).
    congruence.
  - apply negb_true_iff. destruct (existsb (String.eqb x) cs) eqn:E;
      [|reflexivity].
    apply existsb_exists in E as (z & Hz & Heq).
    apply String.eqb_eq in Heq. subst z. contradiction.
Qed.

Lemma NoDup_fst_unique {A : Type} (l : list (string * A)) (k : string)
    (a b : A) :
  NoDup (map fst l) -> In (k, a) l -> In (k, b) l -> a = b.
Proof.
  induction l as [|[k' v'] l IH]; intros Hn Ha Hb; [destruct Ha|].
  inversion Hn as [|? ? Hk Hl]; subst.
  destruct Ha as [Ha|Ha], Hb as [Hb|Hb].
  - congruence.
  - exfalso. apply Hk. apply in_map_iff. exists (k, b).
    split; [cbn; congruence | exact Hb].
  - exfalso. apply Hk. apply in_map_iff. exists (k, a).
    split; [cbn; congruence | exact Ha].
  - now apply IH.
Qed.

(** X20. The missing-cell report: a corner is reported exactly when some
    cell of the library is absent from it, and the cells reported for it
    are exactly the cells of the library that it lacks. *)
Theorem collect_reports_missing_cells (paths : list string) (r : collected) :
  collect paths = Ok r ->
  forall c t cs,
    In (c, (t, cs)) (col_corners r) ->
    ((exists m, In (c, m) (col_missing r))
     <-> exists x, In x (col_cells r) /\ ~ In x cs)
    /\ (forall m, In (c, m) (col_missing r) ->
                  forall x, In x m <-> In x (col_cells r) /\ ~ In x cs).
Proof.
  intros Hc c t cs Hin.
  destruct (collect_ok_facts paths r Hc) as (_ & Hnames & _).
  destruct (collect_inv _ _ Hc) as (st & _ & _ & _ & _ & _ & _ & Hm).
  assert (Hrep : forall m, In (c, m) (col_missing r)
                           <-> m = missing_cells (col_cells r) cs /\ m <> []).
  { intros m. rewrite Hm. unfold missing_report. rewrite in_flat_map. split.
    - intros ([c' [t' cs']] & Hi & Hx). rewrite in_sorted_items in Hi.
      cbn [fst snd] in Hx.
      destruct (missing_cells (col_cells r) cs') as [|y ys] eqn:E;
        [destruct Hx|].
      destruct Hx as [[= -> <-]|[]].
      assert (Heq : (t', cs') = (t, cs))
        by (eapply NoDup_fst_unique; eauto).
      injection Heq as -> ->. split; [now rewrite E | discriminate].
    - intros [-> Hne]. exists (c, (t, cs)).
      split; [now rewrite in_sorted_items|].
      cbn [fst snd]. destruct (missing_cells (col_cells r) cs);
        [congruence | now left]. }
  split.
  - split.
    + intros [m Hmi]. apply Hrep in Hmi as [-> Hne].
      destruct (missing_cells (col_cells r) cs) as [|x xs] eqn:E; [congruence|].
      exists x. apply in_missing_cells. rewrite E. now left.
    + intros [x Hx]. exists (missing_cells (col_cells r) cs). apply Hrep.
      split; [reflexivity|]. apply in_missing_cells in Hx.
      intros Hnil. rewrite Hnil in Hx. destruct Hx.
  - intros m Hmi x. apply Hrep in Hmi as [-> _]. apply in_missing_cells.
Qed.

Lemma collect_reports_missing_cells_witness :
  (exists m, In ("ff", m) [("ff", ["inv_1"])])
  <-> exists x, In x ["buf_2"; "inv_1"] /\ ~ In x ["buf_2"].
Proof.
  apply (collect_reports_missing_cells sample_paths _ collect_sample
           "ff" TimingType.leakage ["buf_2"]).
  cbn. auto.
Defined.

Lemma collect_loop_timing_only (paths : list string) (st : inventory) :
  (forall p, In p paths -> PyStr.contains p "timing" = true) ->
  collect_loop st paths = Ok st.
Proof.
  induction paths as [|p r IH]; intros H; [reflexivity|].
  cbn [collect_loop]. unfold collect_step. rewrite (H p) by now left.
  cbn [bind]. apply IH. intros q Hq. apply H. now right.
Qed.

(** X21. Nothing to collect is fatal: when no file is found, or every file
    found lies under a path that mentions [timing], [collect] fails its
    assertion instead of returning an empty inventory. *)
Theorem collect_nothing_found (paths : list string) :
  (forall p, In p paths -> PyStr.contains p "timing" = true) ->
  collect paths = Err AssertionError.
Proof.
  intros H. unfold collect. now rewrite (collect_loop_timing_only paths _ H).
Qed.

Lemma collect_nothing_found_witness :
  collect ["sky130/timing/lib__tt.lib.json"] = Err AssertionError.
Proof.
  apply (collect_nothing_found ["sky130/timing/lib__tt.lib.json"]).
  intros p [<-|[]]. reflexivity.
Defined.

(** ** main *)

Lemma assoc_get_unique {A : Type} (k : string) (v : A) (l : list (string * A)) :
  NoDup (map fst l) -> In (k, v) l -> assoc_get k l = Some v.
Proof.
  induction l as [|[k' v'] l IH]; intros Hn Hin; [destruct Hin|].
  inversion Hn as [|? ? Hk Hl]; subst. cbn [assoc_get].
  destruct Hin as [[= -> ->]|Hin]; [now rewrite String.eqb_refl|].
  destruct (String.eqb_spec k' k) as [->|Hne]; [|now apply IH].
  exfalso. apply Hk. apply in_map_iff. now exists (k, v).
Qed.

(** The loop never stops early on corners that support the output. *)
Lemma main_loop_supported
    (parse_size : string -> option string) (fs : string -> option value)
    (liberty_dict : string -> string -> value -> list string
                    -> result (list string))
    (lib : string) (corners : list (string * (TimingType.t * list string)))
    (output : TimingType.t) (todo : list string)
    (done : list (string * (list string * list overwrite)))
    (rc : nat) (outs : list (string * (list string * list overwrite))) :
  (forall k, In k todo ->
             exists t cells, assoc_get k corners = Some (t, cells)
                             /\ TimingType.contains t output = true) ->
  main_loop parse_size fs liberty_dict lib corners output todo done
  = Ok (rc, outs) ->
  rc = 0
  /\ exists new,
       outs = (done ++ new)%list /\ map fst new = todo
       /\ Forall (fun o =>
                    exists t cells,
                      assoc_get (fst o) corners = Some (t, cells)
                      /\ generate parse_size fs liberty_dict lib (fst o) output
                           (select_input output t) cells = Ok (snd o)) new.
Proof.
  revert done. induction todo as [|k todo IH]; intros done Hsup.
  - intros [= <- <-]. split; [reflexivity|]. exists [].
    now rewrite app_nil_r.
  - cbn [main_loop].
    destruct (Hsup k) as (t & cells & Hg & Hc); [now left|].
    rewrite Hg. unfold main_corner. rewrite Hc. cbn [negb].
    destruct (generate _ _ _ lib k output (select_input output t) cells)
      as [out|e] eqn:Hgen; cbn [bind]; [|discriminate].
    intros Hl. destruct (IH (done ++ [(k, out)])%list) with (2 := Hl)
      as (Hrc & new & Ho & Hn & HF).
    { intros k' Hk'. apply Hsup. now right. }
    split; [exact Hrc|]. exists ((k, out) :: new).
    split; [now rewrite Ho, <- app_assoc|].
    split; [cbn [map fst]; now rewrite Hn|].
    constructor; [|exact HF]. exists t, cells. now split.
Qed.

(** X22. Nothing is written when the request cannot be served: with no
    corner requested the run ends with code 0, and when any requested
    corner is unknown it ends with code 1, in both cases before any file
    is generated. *)
Theorem main_generates_nothing
    (parse_size : string -> option string) (fs : string -> option value)
    (liberty_dict : string -> string -> value -> list string
                    -> result (list string))
    (paths : list string) (c : collected) (corner_args : list string)
    (ccsnoise leakage : bool) :
  collect paths = Ok c ->
  (corner_args = [] ->
   main parse_size fs liberty_dict paths corner_args ccsnoise leakage
   = Ok (0, []))
  /\ (corner_args <> ["all"] ->
      (exists a, In a corner_args /\ assoc_get a (col_corners c) = None) ->
      main parse_size fs liberty_dict paths corner_args ccsnoise leakage
      = Ok (1, [])).
Proof.
  intros Hc. unfold main. rewrite Hc. cbn [bind]. split.
  - intros ->. reflexivity.
  - intros Hall (a & Hin & Hnone).
    assert (Hlist : match corner_args with
                    | ["all"] =>
                        py_sorted
                          (map fst
                             (filter
                                (fun item =>
                                   TimingType.contains (fst (snd item))
                                     (if ccsnoise then TimingType.ccsnoise
                                      else if leakage then TimingType.leakage
                                      else TimingType.basic))
                                (col_corners c)))
                    | _ => corner_args
                    end = corner_args).
    { destruct corner_args as [|x r]; [reflexivity|].
      destruct x as [|a1 [|a2 [|a3 [|a4 x]]]]; try reflexivity;
        destruct a1 as [[] [] [] [] [] [] [] []]; try reflexivity;
        destruct a2 as [[] [] [] [] [] [] [] []]; try reflexivity;
        destruct a3 as [[] [] [] [] [] [] [] []]; try reflexivity;
        destruct r; try reflexivity; congruence. }
    rewrite Hlist.
    assert (Hf : forallb (fun a0 => match assoc_get a0 (col_corners c) with
                                    | Some _ => true
                                    | None => false
                                    end) corner_args = false).
    { destruct (forallb _ corner_args) eqn:E; [|reflexivity].
      rewrite forallb_forall in E. specialize (E a Hin).
      now rewrite Hnone in E. }
    rewrite Hf. reflexivity.
Qed.

Lemma main_generates_nothing_witness :
  main sample_parse_size sample_fs sample_serializer sample_paths
    ["tt"; "zz"] false false = Ok (1, []).
Proof.
  apply (proj2 (main_generates_nothing sample_parse_size sample_fs
                  sample_serializer sample_paths _ ["tt"; "zz"] false false
                  collect_sample)).
  - discriminate.
  - exists "zz". split; [cbn; auto | reflexivity].
Defined.

(** X23. A run on [all] never meets an unsupported corner: when it
    returns, its code is 0, the corners written are exactly the corners
    whose capabilities contain the output variant, in sorted order, and
    each was generated from the input variant chosen for it. *)
Theorem main_all_serves_supported
    (parse_size : string -> option string) (fs : string -> option value)
    (liberty_dict : string -> string -> value -> list string
                    -> result (list string))
    (paths : list string) (ccsnoise leakage : bool)
    (rc : nat) (outs : list (string * (list string * list overwrite))) :
  main parse_size fs liberty_dict paths ["all"] ccsnoise leakage
  = Ok (rc, outs) ->
  let output := if ccsnoise then TimingType.ccsnoise
                else if leakage then TimingType.leakage
                else TimingType.basic in
  rc = 0
  /\ exists c,
       collect paths = Ok c
       /\ map fst outs
          = py_sorted (map fst (filter (fun item =>
                                          TimingType.contains (fst (snd item))
                                            output)
                                  (col_corners c)))
       /\ Forall (fun o =>
                    exists t cells,
                      assoc_get (fst o) (col_corners c) = Some (t, cells)
                      /\ TimingType.contains t output = true
                      /\ generate parse_size fs liberty_dict (col_lib c) (fst o)
                           output (select_input output t) cells = Ok (snd o))
            outs.
Proof.
  intros Hmain output. unfold main in Hmain.
  destruct (collect paths) as [c|] eqn:Hc; cbn [bind] in Hmain; [|discriminate].
  fold output in Hmain.
  set (todo := py_sorted (map fst (filter (fun item =>
                 TimingType.contains (fst (snd item)) output) (col_corners c))))
    in *.
  destruct (collect_ok_facts paths c Hc) as (_ & Hnames & _).
  assert (Hsup : forall k, In k todo ->
                   exists t cells, assoc_get k (col_corners c) = Some (t, cells)
                                   /\ TimingType.contains t output = true).
  { intros k Hk. subst todo. rewrite in_py_sorted in Hk.
    apply in_map_iff in Hk as ([k' [t cells]] & Hk' & Hin).
    cbn [fst] in Hk'. subst k'. apply filter_In in Hin as [Hin Hcon].
    exists t, cells. split; [now apply assoc_get_unique | exact Hcon]. }
  assert (Hknown : forallb (fun a => match assoc_get a (col_corners c) with
                                     | Some _ => true
                                     | None => false
                                     end) todo = true).
  { apply forallb_forall. intros k Hk.
    destruct (Hsup k Hk) as (t & cells & Hg & _). now rewrite Hg. }
  rewrite Hknown in Hmain. cbn [Nat.eqb] in Hmain.
  assert (Hres : rc = 0
                 /\ exists new,
                      outs = new /\ map fst new = todo
                      /\ Forall (fun o =>
                           exists t cells,
                             assoc_get (fst o) (col_corners c) = Some (t, cells)
                             /\ generate parse_size fs liberty_dict (col_lib c)
                                  (fst o) output (select_input output t) cells
                                = Ok (snd o)) new).
  { destruct todo as [|k todo'] eqn:Et.
    - injection Hmain as <- <-. split; [reflexivity|]. exists [].
      repeat split. constructor.
    - exact (main_loop_supported _ _ _ _ _ _ _ [] _ _ Hsup Hmain). }
  destruct Hres as (Hrc & new & -> & Hn & HF).
  split; [exact Hrc|]. exists c. split; [reflexivity|]. split; [exact Hn|].
  rewrite Forall_forall in *. intros o Ho.
  destruct (HF o Ho) as (t & cells & Hg & Hgen).
  exists t, cells. split; [exact Hg|]. split; [|exact Hgen].
  assert (Hk : In (fst o) todo) by (rewrite <- Hn; now apply in_map).
  destruct (Hsup _ Hk) as (t' & cells' & Hg' & Hcon). congruence.
Qed.

Lemma main_all_serves_supported_witness :
  exists rc outs,
    main sample_parse_size sample_fs sample_serializer
      ["sky130/cells/inv/lib__inv_1__tt_ccsnoise.lib.json"] ["all"]
      false false = Ok (rc, outs)
    /\ rc = 0 /\ map fst outs = ["tt"].
Proof.
  eexists _, _. split; [vm_compute; reflexivity|].
  split; [|reflexivity].
  eapply (main_all_serves_supported sample_parse_size sample_fs
            sample_serializer
            ["sky130/cells/inv/lib__inv_1__tt_ccsnoise.lib.json"]
            false false).
  vm_compute. reflexivity.
Defined.

(** X24. A corner named on the command line that is known but does not
    offer the output variant ends the run with code 1; when it is the
    first corner named, nothing has been generated. *)
Theorem main_unsupported_corner_stops
    (parse_size : string -> option string) (fs : string -> option value)
    (liberty_dict : string -> string -> value -> list string
                    -> result (list string))
    (paths : list string) (c : collected)
    (k : string) (rest : list string) (t : TimingType.t) (cells : list string)
    (ccsnoise leakage : bool) :
  collect paths = Ok c ->
  k :: rest <> ["all"] ->
  (forall a, In a (k :: rest) -> assoc_get a (col_corners c) <> None) ->
  assoc_get k (col_corners c) = Some (t, cells) ->
  TimingType.contains t
    (if ccsnoise then TimingType.ccsnoise
     else if leakage then TimingType.leakage
     else TimingType.basic) = false ->
  main parse_size fs liberty_dict paths (k :: rest) ccsnoise leakage
  = Ok (1, []).
Proof.
  intros Hc Hall Hknown Hk Hsup. unfold main. rewrite Hc. cbn [bind].
  assert (Hlist : match k :: rest with
                  | ["all"] =>
                      py_sorted
                        (map fst
                           (filter
                              (fun item =>
                                 TimingType.contains (fst (snd item))
                                   (if ccsnoise then TimingType.ccsnoise
                                    else if leakage then TimingType.leakage
                                    else TimingType.basic))
                              (col_corners c)))
                  | _ => k :: rest
                  end = k :: rest).
  { destruct k as [|a1 [|a2 [|a3 [|a4 x]]]]; try reflexivity;
      destruct a1 as [[] [] [] [] [] [] [] []]; try reflexivity;
      destruct a2 as [[] [] [] [] [] [] [] []]; try reflexivity;
      destruct a3 as [[] [] [] [] [] [] [] []]; try reflexivity;
      destruct rest; try reflexivity; congruence. }
  rewrite Hlist.
  assert (Hf : forallb (fun a => match assoc_get a (col_corners c) with
                                 | Some _ => true
                                 | None => false
                                 end) (k :: rest) = true).
  { apply forallb_forall. intros a Ha. specialize (Hknown a Ha).
    now destruct (assoc_get a (col_corners c)). }
  rewrite Hf. cbn [Nat.eqb main_loop]. rewrite Hk.
  unfold main_corner. rewrite Hsup. reflexivity.
Qed.

Lemma main_unsupported_corner_stops_witness :
  main sample_parse_size sample_fs sample_serializer sample_paths
    ["ff"; "tt"] false false = Ok (1, []).
Proof.
  apply (main_unsupported_corner_stops sample_parse_size sample_fs
           sample_serializer sample_paths _ "ff" ["tt"]
           TimingType.leakage ["buf_2"] false false collect_sample).
  - discriminate.
  - intros a [<-|[<-|[]]]; discriminate.
  - reflexivity.
  - reflexivity.
Defined.
